(** * datalib: configuration resolution, transformations, quality checks,
      write modes and the pipeline orchestrator

    A shallow embedding of the Python package [datalib] and the properties
    its specification states about it.

    Conventions of the embedding.
    - Python values that come out of YAML documents are the inductive
      [Value]; a Python [dict] whose iteration order matters is an
      association list with [dict_get] / [dict_set], a dict used as a
      plain lookup table is a [gmap].
    - Code that can raise returns [Res]; code that also mutates objects or
      talks to Spark runs in the monad [M S], whose state survives a raise
      (as Python's heap does).
    - Only instances of Python's [Exception] are modelled: [except
      Exception] therefore catches every modelled exception.
    - The Spark session, Delta tables and the clock are collaborators of
      the package, not part of it: they are the fields of the class
      [Platform].  A recording implementation, [Mock.platform], plays the
      role the test-suite gives to [MagicMock]. *)

From Stdlib Require Import ZArith QArith Ascii.
From stdpp Require Import base list strings gmap pretty.

Set Warnings "-register-all".
Set Default Proof Using "Type".

(* ================================================================== *)
(** * Python runtime *)
(* ================================================================== *)

(** ** Exceptions *)

Inductive ExnClass :=
  | ConfigurationError
  | ValidationError
  | TransformationError
  | DataReaderError
  | DataWriterError
  | PipelineExecutionError
  | TypeError
  | ZeroDivisionError
  | AttributeError
  | AnalysisException.

(** [exn_metrics] is the address of the [PipelineMetrics] object a
    [PipelineExecutionError] refers to (its [metrics] attribute); the
    other classes have none. *)
Record Exn := mkExn {
  exn_class : ExnClass;
  exn_msg : string;
  exn_metrics : option nat
}.

Definition exn (c : ExnClass) (msg : string) : Exn := mkExn c msg None.

Inductive Res (A : Type) :=
  | Ok (a : A)
  | Raise (e : Exn).
Arguments Ok {A} a.
Arguments Raise {A} e.

Definition res_bind {A B} (r : Res A) (k : A -> Res B) : Res B :=
  match r with
  | Ok a => k a
  | Raise e => Raise e
  end.

Definition res_map {A B} (f : A -> B) (r : Res A) : Res B :=
  res_bind r (fun a => Ok (f a)).

Section res_traverse.
Context {A B : Type} (f : A -> Res B).

(** A comprehension [[f(x) for x in l]]: left to right, the first raise
    wins. *)
Fixpoint res_traverse (l : list A) : Res (list B) :=
  match l with
  | [] => Ok []
  | x :: l' =>
      res_bind (f x) (fun y =>
      res_bind (res_traverse l') (fun ys => Ok (y :: ys)))
  end.
End res_traverse.

(** ** Values *)

(** A Python float: a finite one is modelled by the rational it denotes,
    [FInf] is [float("inf")]. *)
Inductive Float :=
  | FFin (q : Q)
  | FInf.

Inductive Value :=
  | VNone
  | VBool (b : bool)
  | VInt (z : Z)
  | VFloat (f : Float)
  | VStr (s : string)
  | VList (l : list Value)
  | VDict (d : list (string * Value)).

Abbreviation Dict := (list (string * Value)).

(** [d.get(k)] *)
Fixpoint dict_get (k : string) (d : Dict) : option Value :=
  match d with
  | [] => None
  | (k', v) :: d' => if String.eqb k k' then Some v else dict_get k d'
  end.

(** [d.get(k, default)] *)
Definition dict_get_default (k : string) (default : Value) (d : Dict) : Value :=
  match dict_get k d with
  | Some v => v
  | None => default
  end.

(** [d[k] = v]: an existing key keeps its place, a new one goes last. *)
Fixpoint dict_set (k : string) (v : Value) (d : Dict) : Dict :=
  match d with
  | [] => [(k, v)]
  | (k', v') :: d' =>
      if String.eqb k k' then (k, v) :: d' else (k', v') :: dict_set k v d'
  end.

(** [bool(v)] *)
Definition truthy (v : Value) : bool :=
  match v with
  | VNone => false
  | VBool b => b
  | VInt z => negb (z =? 0)%Z
  | VFloat (FFin q) => negb (Qeq_bool q 0)
  | VFloat FInf => true
  | VStr s => negb (String.eqb s "")
  | VList l => match l with [] => false | _ => true end
  | VDict d => match d with [] => false | _ => true end
  end.

(** [type(v).__name__] *)
Definition type_name (v : Value) : string :=
  match v with
  | VNone => "NoneType"
  | VBool _ => "bool"
  | VInt _ => "int"
  | VFloat _ => "float"
  | VStr _ => "str"
  | VList _ => "list"
  | VDict _ => "dict"
  end.

(** The shortest decimal that reads back as a given finite float is a
    matter of the Python runtime. *)
Class FloatRepr := float_repr : Q -> string.

Section py_str.
Context `{FloatRepr}.

(** [repr(v)]; string escapes are not modelled. *)
Fixpoint py_repr (v : Value) : string :=
  match v with
  | VNone => "None"
  | VBool b => if b then "True" else "False"
  | VInt z => pretty z
  | VFloat (FFin q) => float_repr q
  | VFloat FInf => "inf"
  | VStr s => "'" +:+ s +:+ "'"
  | VList l => "[" +:+ String.concat ", " (map py_repr l) +:+ "]"
  | VDict d =>
      "{" +:+ String.concat ", "
        (map (fun kv => "'" +:+ fst kv +:+ "': " +:+ py_repr (snd kv)) d) +:+ "}"
  end.

(** [str(v)], what an f-string prints *)
Definition py_str (v : Value) : string :=
  match v with
  | VStr s => s
  | _ => py_repr v
  end.
End py_str.

(** ** Numbers *)

(** The number a value denotes in a comparison ([bool] is an [int]);
    [None] when Python refuses to order it against a number. *)
Definition as_number (v : Value) : option Float :=
  match v with
  | VBool b => Some (FFin (inject_Z (if b then 1 else 0)))
  | VInt z => Some (FFin (inject_Z z))
  | VFloat f => Some f
  | _ => None
  end.

Definition float_le (a b : Float) : bool :=
  match a, b with
  | _, FInf => true
  | FInf, FFin _ => false
  | FFin x, FFin y => Qle_bool x y
  end.

Definition float_lt (a b : Float) : bool := negb (float_le b a).

Definition not_supported (op : string) (a b : string) : Exn :=
  exn TypeError
    ("'" +:+ op +:+ "' not supported between instances of '" +:+ a +:+ "' and '" +:+ b +:+ "'").

(** [v > n] for an [int] n *)
Definition py_gt_int (v : Value) (n : Z) : Res bool :=
  match as_number v with
  | Some f => Ok (float_lt (FFin (inject_Z n)) f)
  | None => Raise (not_supported ">" (type_name v) "int")
  end.

(** [v <= n] for an [int] n *)
Definition py_le_int (v : Value) (n : Z) : Res bool :=
  match as_number v with
  | Some f => Ok (float_le f (FFin (inject_Z n)))
  | None => Raise (not_supported "<=" (type_name v) "int")
  end.

(** [n <= v] for an [int] n *)
Definition py_int_le (n : Z) (v : Value) : Res bool :=
  match as_number v with
  | Some f => Ok (float_le (FFin (inject_Z n)) f)
  | None => Raise (not_supported "<=" "int" (type_name v))
  end.

(** [x <= v] for a [float] x *)
Definition py_float_le (x : Float) (v : Value) : Res bool :=
  match as_number v with
  | Some f => Ok (float_le x f)
  | None => Raise (not_supported "<=" "float" (type_name v))
  end.

(** [n / m] for two [int]s that are not negative *)
Definition py_div (n m : nat) : Res Float :=
  match m with
  | O => Raise (exn ZeroDivisionError "division by zero")
  | S _ => Ok (FFin (Z.of_nat n # Pos.of_nat m))
  end.

(** ** State and exceptions *)

(** A computation over a mutable state [S].  The state reached when an
    exception is raised is kept: assignments made before the raise are
    visible to the handler and to the caller. *)
Definition M (S A : Type) : Type := S -> Res A * S.

Definition ret {S A} (a : A) : M S A := fun s => (Ok a, s).

Definition bind {S A B} (m : M S A) (k : A -> M S B) : M S B :=
  fun s =>
    match m s with
    | (Ok a, s') => k a s'
    | (Raise e, s') => (Raise e, s')
    end.

Definition raise {S A} (e : Exn) : M S A := fun s => (Raise e, s).

(** [try: m  except Exception as e: h e] *)
Definition try_except {S A} (m : M S A) (h : Exn -> M S A) : M S A :=
  fun s =>
    match m s with
    | (Ok a, s') => (Ok a, s')
    | (Raise e, s') => h e s'
    end.

Definition get {S} : M S S := fun s => (Ok s, s).
Definition gets {S A} (f : S -> A) : M S A := fun s => (Ok (f s), s).
Definition modify {S} (f : S -> S) : M S unit := fun s => (Ok tt, f s).
Definition lift_res {S A} (r : Res A) : M S A := fun s => (r, s).

(** Run a computation over a part [T] of the state [S]. *)
Definition zoom {S T A} (proj : S -> T) (upd : T -> S -> S) (m : M T A) : M S A :=
  fun s => let '(r, t) := m (proj s) in (r, upd t s).

Declare Scope monad_scope.
Delimit Scope monad_scope with monad.
Notation "x <- m ;; k" := (bind m (fun x => k))
  (at level 100, m at next level, right associativity) : monad_scope.
Notation "m ;;; k" := (bind m (fun _ => k))
  (at level 100, right associativity) : monad_scope.

Section for_each.
Context {S A : Type} (body : A -> M S unit).

(** [for x in l: body x] *)
Fixpoint for_each (l : list A) : M S unit :=
  match l with
  | [] => ret tt
  | x :: l' => bind (body x) (fun _ => for_each l')
  end.

Lemma for_each_app (l1 l2 : list A) (s : S) :
  for_each (l1 ++ l2) s =
  match for_each l1 s with
  | (Ok _, s') => for_each l2 s'
  | (Raise e, s') => (Raise e, s')
  end.
Proof.
  revert s. induction l1 as [|x l1 IH]; intros s; simpl; [done|].
  unfold bind. destruct (body x s) as [[[]|e] s']; [apply IH|done].
Qed.
End for_each.

(* ================================================================== *)
(** * datalib.core.config *)
(* ================================================================== *)

Module SourceConfig.
Record t := mk {
  type : string;
  path : option string;
  catalog : option string;
  schema : option string;
  table : option string;
  connection_string : option string;
  query : option string;
  options : Dict
}.
End SourceConfig.

Module TargetConfig.
Record t := mk {
  catalog : string;
  schema : string;
  table : string;
  mode : string;
  format : string;
  partition_by : list string;
  options : Dict;
  merge_keys : list string;
  scd_columns : list string
}.

Definition get_full_table_name (self : t) : string :=
  catalog self +:+ "." +:+ schema self +:+ "." +:+ table self.

(** [self.mode = m] *)
Definition set_mode (m : string) (self : t) : t :=
  mk (catalog self) (schema self) (table self) m (format self)
     (partition_by self) (options self) (merge_keys self) (scd_columns self).
End TargetConfig.

Module ProcessingConfig.
Record t := mk {
  mode : string;
  watermark_column : option string;
  watermark_delay : string;
  batch_size : option Z;
  parallelism : option Z;
  checkpoint_location : option string;
  trigger_interval : option string;
  options : Dict
}.
Definition default : t := mk "full" None "1 hour" None None None None [].
End ProcessingConfig.

Module TransformationConfig.
Record t := mk {
  type : string;
  params : Dict;
  enabled : bool
}.
End TransformationConfig.

Module QualityConfig.
Record t := mk {
  enabled : bool;
  fail_on_error : bool;
  checks : list Dict
}.
Definition default : t := mk true false [].
End QualityConfig.

Module PipelineConfig.
Record t := mk {
  name : string;
  layer : string;
  description : string;
  version : string;
  owner : string;
  tags : list (string * string);
  source : option SourceConfig.t;
  sources : list SourceConfig.t;
  target : option TargetConfig.t;
  processing : ProcessingConfig.t;
  transformations : list TransformationConfig.t;
  quality : QualityConfig.t;
  parameters : Dict
}.

Definition set_sources (l : list SourceConfig.t) (c : t) : t :=
  mk (name c) (layer c) (description c) (version c) (owner c) (tags c)
     (source c) l (target c) (processing c) (transformations c) (quality c)
     (parameters c).

Definition set_source (o : option SourceConfig.t) (c : t) : t :=
  mk (name c) (layer c) (description c) (version c) (owner c) (tags c)
     o (sources c) (target c) (processing c) (transformations c) (quality c)
     (parameters c).

Definition set_target (o : option TargetConfig.t) (c : t) : t :=
  mk (name c) (layer c) (description c) (version c) (owner c) (tags c)
     (source c) (sources c) o (processing c) (transformations c) (quality c)
     (parameters c).

Definition valid_layer (l : string) : bool :=
  String.eqb l "bronze" || String.eqb l "silver" || String.eqb l "gold".

Definition name_required : Exn :=
  exn ConfigurationError "Pipeline name is required".

Definition invalid_layer (l : string) : Exn :=
  exn ConfigurationError
    ("Invalid layer: " +:+ l +:+ ". Must be bronze, silver, or gold").

(** [__post_init__]: what the dataclass constructor does with the field
    values it was given.  An instance of a dataclass is always truthy, so
    [self.source] is truthy exactly when it is not [None]. *)
Definition __post_init__ (self : t) : Res t :=
  if String.eqb (name self) "" then Raise name_required
  else if negb (valid_layer (layer self)) then Raise (invalid_layer (layer self))
  else
    match source self, sources self with
    | Some s, [] => Ok (set_sources [s] self)
    | None, s :: _ => Ok (set_source (Some s) self)
    | _, _ => Ok self
    end.
End PipelineConfig.

Module ConfigLoader.

Record t := mk {
  base_path : string;
  environment : string;
  widget_params : gmap string string
}.

(** *** [ENV_PATTERN]

    The pattern reads: a dollar sign and an opening brace; group 1, one or
    more characters other than a closing brace and a colon; optionally a
    colon and group 2, any number of characters other than a closing
    brace; a closing brace. *)

Definition name_char (c : ascii) : bool :=
  negb (Ascii.eqb c "}" || Ascii.eqb c ":").

Definition default_char (c : ascii) : bool :=
  negb (Ascii.eqb c "}").

(** The longest prefix of [s] made of characters in [p], and the rest. *)
Fixpoint span (p : ascii -> bool) (s : string) : string * string :=
  match s with
  | EmptyString => (EmptyString, EmptyString)
  | String c s' =>
      if p c then let '(a, b) := span p s' in (String c a, b)
      else (EmptyString, s)
  end.

(** A match of [ENV_PATTERN] that starts at the head of [s]: groups 1 and
    2 and the number of characters matched.  Both classes are negated
    sets and the group after each is delimited by a character outside
    it, so the greedy match is the only one. *)
Definition match_here (s : string) : option (string * option string * nat) :=
  match s with
  | String c0 (String c1 s1) =>
      if Ascii.eqb c0 "$" && Ascii.eqb c1 "{" then
        let '(var_name, s2) := span name_char s1 in
        match var_name, s2 with
        | String _ _, String c s3 =>
            if Ascii.eqb c "}" then
              Some (var_name, None, 3 + String.length var_name)
            else if Ascii.eqb c ":" then
              let '(default_value, s4) := span default_char s3 in
              match s4 with
              | String _ _ =>
                  Some (var_name, Some default_value,
                        4 + String.length var_name + String.length default_value)
              | EmptyString => None
              end
            else None
        | _, _ => None
        end
      else None
  | _ => None
  end.

Section substitution.
Context (self : t) (environ : gmap string string).

Definition not_found (var_name : string) : Exn :=
  exn ConfigurationError
    ("Environment variable '" +:+ var_name +:+ "' not found and no default provided").

(** The closure [replace_match] of [_substitute_variables];
    [environ !! n] is [os.getenv(n)]. *)
Definition replace_match (var_name : string) (default_value : option string)
  : Res string :=
  match widget_params self !! var_name with
  | Some v => Ok v
  | None =>
      match environ !! var_name with
      | Some env_value => Ok env_value
      | None =>
          match default_value with
          | Some d => Ok d
          | None => Raise (not_found var_name)
          end
      end
  end.

(** [ENV_PATTERN.sub(replace_match, s)]: scan from the left; where the
    pattern matches, call [replace_match] and go on after the match
    ([skip] counts the characters of the match still to pass); elsewhere
    keep the character.  The text put in is not scanned again. *)
Fixpoint re_sub_from (skip : nat) (s : string) : Res string :=
  match s with
  | EmptyString => Ok EmptyString
  | String c s' =>
      match skip with
      | S k => re_sub_from k s'
      | O =>
          match match_here s with
          | Some (var_name, default_value, n) =>
              res_bind (replace_match var_name default_value) (fun r =>
              res_bind (re_sub_from (n - 1) s') (fun rest => Ok (r +:+ rest)))
          | None => res_map (String c) (re_sub_from 0 s')
          end
      end
  end.

Definition re_sub (s : string) : Res string := re_sub_from 0 s.

Fixpoint _substitute_variables (value : Value) : Res Value :=
  match value with
  | VStr s => res_map VStr (re_sub s)
  | VDict d =>
      res_map VDict
        (res_traverse
           (fun kv => res_map (pair (fst kv)) (_substitute_variables (snd kv))) d)
  | VList l => res_map VList (res_traverse _substitute_variables l)
  | _ => Ok value
  end.
End substitution.

(** *** [_merge_configs] *)

(** The loop over [override.items()], [result] being the copy of [base]
    it updates. *)
Fixpoint merge_value (override : Value) (result : Dict) {struct override} : Dict :=
  match override with
  | VDict items =>
      (fix loop (items : Dict) (result : Dict) {struct items} : Dict :=
         match items with
         | [] => result
         | (key, value) :: items' =>
             loop items'
               match dict_get key result, value with
               | Some (VDict b), VDict _ =>
                   dict_set key (VDict (merge_value value b)) result
               | _, _ => dict_set key value result
               end
         end) items result
  | _ => result
  end.

Definition _merge_configs (base override : Dict) : Dict :=
  merge_value (VDict override) base.

End ConfigLoader.

(* ================================================================== *)
(** * Data frames in memory *)
(* ================================================================== *)

(** The transformations are functions from data frames to data frames.
    Their model is a list of rows under a list of column names; a row
    maps a column name to a cell.  Column names are compared exactly and
    a frame has no two columns of one name.  Where Spark leaves a choice
    open (which of two equal rows comes first) the model takes the order
    of the input. *)

Inductive Cell :=
  | CNull
  | CBool (b : bool)
  | CInt (z : Z)
  | CStr (s : string).

#[global] Instance Cell_eq_dec : EqDecision Cell.
Proof. solve_decision. Defined.

Abbreviation Row := (gmap string Cell).

Module Frame.
Record t := mk {
  columns : list string;
  rows : list Row
}.

Definition cell (r : Row) (c : string) : Cell := default CNull (r !! c).

(** A column expression, as the function of the row it denotes. *)
Definition Column : Type := Row -> Cell.

(** [F.col(name)] *)
Definition col (name : string) : Column := fun r => cell r name.

(** [df.withColumn(name, e)]: a column of that name is replaced where it
    stands, a new one is added last. *)
Definition withColumn (name : string) (e : Column) (df : t) : t :=
  mk (if bool_decide (name ∈ columns df) then columns df else columns df ++ [name])
     (map (fun r => <[name := e r]> r) (rows df)).

(** [df.drop(name)] *)
Definition drop (name : string) (df : t) : t :=
  mk (List.filter (fun c => negb (String.eqb c name)) (columns df))
     (map (delete name) (rows df)).

(** [df.filter(p)] *)
Definition filter (p : Row -> bool) (df : t) : t :=
  mk (columns df) (List.filter p (rows df)).

Definition unresolved (c : string) : Exn :=
  exn AnalysisException ("cannot resolve column " +:+ c).

(** What Spark's analyzer does with the names an operator refers to. *)
Fixpoint resolve (cols : list string) (df : t) : Res unit :=
  match cols with
  | [] => Ok tt
  | c :: cols' =>
      if bool_decide (c ∈ columns df) then resolve cols' df
      else Raise (unresolved c)
  end.

(** The cells of a row under some columns: a grouping key. *)
Definition key (cols : list string) (r : Row) : list Cell := map (cell r) cols.

(** The first row of every key, in the order of the input. *)
Fixpoint first_per_key (cols : list string) (seen : list (list Cell))
    (l : list Row) : list Row :=
  match l with
  | [] => []
  | r :: l' =>
      if bool_decide (key cols r ∈ seen) then first_per_key cols seen l'
      else r :: first_per_key cols (key cols r :: seen) l'
  end.

(** [df.dropDuplicates(subset)]; without a subset every column counts.
    Spark says neither which row of a key stays nor in which order the
    result comes.  A frame lists its rows in the order in which Spark
    happens to meet them, and the first row met of each key stays: what
    is stated of [dropDuplicates] is stated for every such order. *)
Definition dropDuplicates (subset : option (list string)) (df : t) : Res t :=
  let cols := match subset with Some cols => cols | None => columns df end in
  res_bind (resolve cols df) (fun _ =>
  Ok (mk (columns df) (first_per_key cols [] (rows df)))).

(** *** Windows *)

(** [F.col(c)] and [F.col(c).desc()] as sort orders.  Ascending puts null
    first, descending puts it last. *)
Inductive SortOrder :=
  | Asc (c : string)
  | Desc (c : string).

Definition sort_column (o : SortOrder) : string :=
  match o with Asc c => c | Desc c => c end.

(** [Window.partitionBy(cols).orderBy(orders)] *)
Record WindowSpec := mkWindow {
  partitionBy : list string;
  orderBy : list SortOrder
}.

Definition cell_rank (c : Cell) : nat :=
  match c with
  | CNull => 0
  | CBool _ => 1
  | CInt _ => 2
  | CStr _ => 3
  end.

Definition cell_compare (a b : Cell) : comparison :=
  match a, b with
  | CBool x, CBool y => Nat.compare (Nat.b2n x) (Nat.b2n y)
  | CInt x, CInt y => Z.compare x y
  | CStr x, CStr y => String.compare x y
  | _, _ => Nat.compare (cell_rank a) (cell_rank b)
  end.

(** [Lt] when [x] sorts before [y]. *)
Fixpoint row_compare (orders : list SortOrder) (x y : Row) : comparison :=
  match orders with
  | [] => Eq
  | o :: orders' =>
      match
        match o with
        | Asc c => cell_compare (cell x c) (cell y c)
        | Desc c => cell_compare (cell y c) (cell x c)
        end
      with
      | Eq => row_compare orders' x y
      | r => r
      end
  end.

Definition same_partition (w : WindowSpec) (x y : Row) : bool :=
  bool_decide (key (partitionBy w) x = key (partitionBy w) y).

(** [x], met earlier in the frame, is numbered before [r]: same
    partition, and it does not sort after [r]. *)
Definition earlier_before (w : WindowSpec) (r x : Row) : bool :=
  same_partition w x r &&
  match row_compare (orderBy w) x r with Gt => false | _ => true end.

(** [x], met later in the frame, is numbered before [r]: same partition,
    and it sorts before [r]. *)
Definition later_before (w : WindowSpec) (r x : Row) : bool :=
  same_partition w x r &&
  match row_compare (orderBy w) x r with Lt => true | _ => false end.

(** [F.row_number().over(w)] for every row: one more than the number of
    rows of its partition that are numbered before it. *)
Fixpoint row_numbers (w : WindowSpec) (seen rest : list Row) : list (Row * nat) :=
  match rest with
  | [] => []
  | r :: rest' =>
      (r, 1 + length (List.filter (earlier_before w r) seen)
            + length (List.filter (later_before w r) rest'))
      :: row_numbers w (seen ++ [r]) rest'
  end.

(** [df.withColumn(name, F.row_number().over(w))] *)
Definition withColumn_row_number (name : string) (w : WindowSpec) (df : t) : Res t :=
  res_bind (resolve (partitionBy w ++ map sort_column (orderBy w)) df) (fun _ =>
  Ok (mk (if bool_decide (name ∈ columns df) then columns df else columns df ++ [name])
         (map (fun rn => <[name := CInt (Z.of_nat rn.2)]> rn.1)
              (row_numbers w [] (rows df))))).
End Frame.

(** ** Spark's string functions, on ASCII text *)

Module SparkFn.

Definition char_between (lo hi : nat) (c : ascii) : bool :=
  (lo <=? nat_of_ascii c) && (nat_of_ascii c <=? hi).

Definition lower_char (c : ascii) : ascii :=
  if char_between 65 90 c then ascii_of_nat (nat_of_ascii c + 32) else c.

Definition upper_char (c : ascii) : ascii :=
  if char_between 97 122 c then ascii_of_nat (nat_of_ascii c - 32) else c.

Fixpoint map_chars (f : ascii -> ascii) (s : string) : string :=
  match s with
  | EmptyString => EmptyString
  | String c s' => String (f c) (map_chars f s')
  end.

Fixpoint ltrim (s : string) : string :=
  match s with
  | EmptyString => EmptyString
  | String c s' => if Ascii.eqb c " " then ltrim s' else s
  end.

Definition trim_string (s : string) : string :=
  String.rev (ltrim (String.rev (ltrim s))).

(** The class [\s] of the regular expressions of Java. *)
Definition is_whitespace (c : ascii) : bool :=
  Ascii.eqb c " " || char_between 9 13 c.

(** Every longest run of white space becomes one space. *)
Fixpoint collapse_whitespace (in_run : bool) (s : string) : string :=
  match s with
  | EmptyString => EmptyString
  | String c s' =>
      if is_whitespace c then
        if in_run then collapse_whitespace true s'
        else String " " (collapse_whitespace true s')
      else String c (collapse_whitespace false s')
  end.

(** A string function applied to a cell: null stays null, other cells
    are first cast to a string. *)
Definition on_string (f : string -> string) (c : Cell) : Cell :=
  match c with
  | CNull => CNull
  | CBool b => CStr (f (if b then "true" else "false"))
  | CInt z => CStr (f (pretty z))
  | CStr s => CStr (f s)
  end.

Definition trim (e : Frame.Column) : Frame.Column :=
  fun r => on_string trim_string (e r).
Definition lower (e : Frame.Column) : Frame.Column :=
  fun r => on_string (map_chars lower_char) (e r).
Definition upper (e : Frame.Column) : Frame.Column :=
  fun r => on_string (map_chars upper_char) (e r).
(** [F.regexp_replace(e, r"\s+", " ")] *)
Definition regexp_replace_spaces (e : Frame.Column) : Frame.Column :=
  fun r => on_string (collapse_whitespace false) (e r).
End SparkFn.

(* ================================================================== *)
(** * datalib.transformations.common *)
(* ================================================================== *)

Module DeduplicateRows.
Record t := mk {
  subset : option (list string);
  keep : string;
  order_by : option (list string);
  order_desc : bool
}.

(** The sort orders [transform] builds. *)
Definition order_cols (self : t) (order_by : list string) : list Frame.SortOrder :=
  let order_cols :=
    map (fun c => if order_desc self then Frame.Desc c else Frame.Asc c) order_by in
  if String.eqb (keep self) "last" then
    map (fun c => if order_desc self then Frame.Asc c else Frame.Desc c) order_by
  else order_cols.

(** [self.subset or df.columns] *)
Definition partition_cols (self : t) (df : Frame.t) : list string :=
  match subset self with
  | Some (c :: cols) => c :: cols
  | _ => Frame.columns df
  end.

Definition transform (self : t) (df : Frame.t) : Res Frame.t :=
  if String.eqb (keep self) "none" then Frame.dropDuplicates (subset self) df
  else
    match order_by self with
    | Some (c :: cols) =>
        if String.eqb (keep self) "first" || String.eqb (keep self) "last" then
          let window :=
            Frame.mkWindow (partition_cols self df) (order_cols self (c :: cols)) in
          res_bind (Frame.withColumn_row_number "_row_num" window df) (fun df1 =>
          Ok (Frame.drop "_row_num"
                (Frame.filter
                   (fun r => bool_decide (Frame.col "_row_num" r = CInt 1)) df1)))
        else Frame.dropDuplicates (subset self) df
    | _ => Frame.dropDuplicates (subset self) df
    end.
End DeduplicateRows.

Module StandardizeStrings.
Record t := mk {
  columns : list string;
  trim : bool;
  lowercase : bool;
  uppercase : bool;
  remove_extra_spaces : bool
}.

(** The expression [col_expr] the loop builds for one column. *)
Definition col_expr (self : t) (column : string) : Frame.Column :=
  let col_expr := Frame.col column in
  let col_expr := if trim self then SparkFn.trim col_expr else col_expr in
  let col_expr :=
    if lowercase self then SparkFn.lower col_expr
    else if uppercase self then SparkFn.upper col_expr
    else col_expr in
  let col_expr :=
    if remove_extra_spaces self then SparkFn.regexp_replace_spaces col_expr
    else col_expr in
  col_expr.

(** One turn of the loop. *)
Definition step (self : t) (df : Frame.t) (column : string) : Frame.t :=
  if negb (bool_decide (column ∈ Frame.columns df)) then df
  else Frame.withColumn column (col_expr self column) df.

Definition transform (self : t) (df : Frame.t) : Frame.t :=
  fold_left (step self) (columns self) df.
End StandardizeStrings.

(* ================================================================== *)
(** * The platform: Spark, Delta and the clock *)
(* ================================================================== *)

(** The column expressions the package builds and hands to Spark.  The
    package never evaluates one: what it means is the platform's
    business.  A Python value standing where Spark expects a column is
    the literal [Lit] of it. *)
Inductive Column :=
  | Col (name : Value)                      (* F.col(name) *)
  | Lit (v : Value)                         (* F.lit(v) *)
  | Expr (text : Value)                     (* F.expr(text) *)
  | CurrentTimestamp                        (* F.current_timestamp() *)
  | Cast (c : Column) (type : string)       (* c.cast(type) *)
  | IsNull (c : Column)                     (* c.isNull() *)
  | Not (c : Column)                        (* ~c *)
  | And (a b : Column)                      (* a & b *)
  | GreaterEq (a b : Column)                       (* a >= b *)
  | LessEq (a b : Column)                       (* a <= b *)
  | Greater (a b : Column)                       (* a > b *)
  | Equals (a b : Column)                   (* a == b *)
  | RLike (c : Column) (pattern : Value)    (* c.rlike(pattern) *)
  | IsIn (c : Column) (values : Value).     (* c.isin(values) *)

(** The value of an entry of the [set=] / [values=] dictionary of a
    Delta merge: SQL text or a column expression. *)
Inductive Assignment :=
  | SqlText (text : string)
  | ColumnExpr (c : Column).

Section platform_records.
Context {DataFrame : Type}.

(** [df.write.format(f).mode(m).option(k, v)....partitionBy(cols)], the
    state of the builder when [saveAsTable] is called on it. *)
Record DataFrameWriter := mkDataFrameWriter {
  writer_df : DataFrame;
  writer_format : string;
  writer_mode : string;
  writer_options : list (string * Value);
  writer_partition_by : option (list string)
}.

(** [spark.read.format(f).option(k, v)...], the state of the builder when
    [load] is called on it. *)
Record DataFrameReader := mkDataFrameReader {
  reader_format : string;
  reader_options : list (string * Value)
}.

(** [DeltaTable.forName(spark, table).alias("target")
      .merge(source.alias("source"), condition)
      .whenMatchedUpdate(condition=..., set=...)
      .whenNotMatchedInsert(values=...)], the state of the builder when
    [execute] is called on it. *)
Record DeltaMerge := mkDeltaMerge {
  merge_table : string;
  merge_source : DataFrame;
  merge_condition : string;
  merge_matched_update : option (option string * list (Value * Assignment));
  merge_not_matched_insert : option (list (Value * Assignment))
}.
End platform_records.
Arguments DataFrameWriter : clear implicits.
Arguments DeltaMerge : clear implicits.

(** What the package asks of its collaborators.  Every action may raise
    and may change the world [W]. *)
Class Platform (W DataFrame : Type) := {
  (** [df.columns] *)
  df_columns : DataFrame -> list string;
  (** [df.count()] *)
  df_count : DataFrame -> M W nat;
  (** [df.filter(c)] *)
  df_filter : DataFrame -> Column -> M W DataFrame;
  (** [df.groupBy(column).count()] *)
  df_groupBy_count : DataFrame -> Value -> M W DataFrame;
  (** [df.withColumn(name, c)] *)
  df_withColumn : DataFrame -> Value -> Column -> M W DataFrame;
  (** [left.alias(a).join(right.alias(b), on=conditions, how=how)] *)
  df_join_aliased :
    DataFrame -> string -> DataFrame -> string -> list Column -> string ->
    M W DataFrame;
  (** [left.join(right, on=keys, how=how)] *)
  df_join : DataFrame -> DataFrame -> Value -> Value -> M W DataFrame;
  (** [spark.sql(text)] *)
  spark_sql : string -> M W DataFrame;
  (** [reader.load(path)] and [reader.load()] *)
  reader_load : DataFrameReader -> option string -> M W DataFrame;
  (** [spark.table(name)] *)
  spark_table : string -> M W DataFrame;
  (** [spark.catalog.tableExists(name)] *)
  catalog_tableExists : string -> M W bool;
  (** [writer.saveAsTable(name)] *)
  writer_saveAsTable : DataFrameWriter DataFrame -> string -> M W unit;
  (** [DeltaTable.forName(spark, name)], as far as it can fail *)
  delta_forName : string -> M W unit;
  (** [merge_builder.execute()] *)
  merge_execute : DeltaMerge DataFrame -> M W unit;
  (** [datetime.now()], in microseconds *)
  datetime_now : W -> Z * W
}.

(* ================================================================== *)
(** * datalib.utils.validators *)
(* ================================================================== *)

Module CheckResult.
Record t := mk {
  name : Value;
  type : Value;
  column : Value;
  passed : bool;
  failed_count : nat;
  message : string
}.
Definition set_passed (b : bool) (r : t) : t :=
  mk (name r) (type r) (column r) b (failed_count r) (message r).
Definition set_failed_count (n : nat) (r : t) : t :=
  mk (name r) (type r) (column r) (passed r) n (message r).
Definition set_message (s : string) (r : t) : t :=
  mk (name r) (type r) (column r) (passed r) (failed_count r) s.
End CheckResult.

Module Results.
Section results.
Context {DataFrame : Type}.
Record t := mk {
  passed : nat;
  failed : nat;
  checks : list CheckResult.t;
  validated_df : DataFrame
}.
End results.
Arguments t : clear implicits.
End Results.

Module Validators.
Section validators.
Context `{FloatRepr} {W DataFrame : Type} `{!Platform W DataFrame}.

(** The [try] block of one check runs over the world and the
    [check_result] dictionary it fills in. *)
Abbreviation Body := (M (W * CheckResult.t)).

Definition spark {A} (m : M W A) : Body A :=
  zoom fst (fun w s => (w, s.2)) m.

Definition update (f : CheckResult.t -> CheckResult.t) : Body unit :=
  modify (fun s => (s.1, f s.2)).

(** The three assignments that end the branch of a counted check. *)
Definition counted (failed_count : nat) (message : string) : Body unit :=
  (update (CheckResult.set_passed (failed_count =? 0)) ;;;
   update (CheckResult.set_failed_count failed_count) ;;;
   update (CheckResult.set_message message))%monad.

(** [v == s] for a string literal [s] *)
Definition is_str (v : Value) (s : string) : bool :=
  match v with
  | VStr t => String.eqb t s
  | _ => false
  end.

(** [df.filter(c).count()] *)
Definition filter_count (df : DataFrame) (c : Column) : M W nat :=
  (df' <- df_filter df c ;; df_count df')%monad.

Definition known_types : list string :=
  ["not_null"; "unique"; "range"; "regex"; "values"; "custom"; "row_count"].

(** The chain of [if]/[elif] branches on [check_type]. *)
Definition dispatch (df : DataFrame) (total_rows : nat) (check : Dict)
    (check_type column : Value) : Body unit :=
  (if is_str check_type "not_null" then
     failed_count <- spark (filter_count df (IsNull (Col column))) ;;
     counted failed_count (pretty failed_count +:+ " null values found")
   else if is_str check_type "unique" then
     duplicate_count <-
       spark (groups <- df_groupBy_count df column ;;
              filter_count groups (Greater (Col (VStr "count")) (Lit (VInt 1)))) ;;
     counted duplicate_count (pretty duplicate_count +:+ " duplicate groups found")
   else if is_str check_type "range" then
     let min_val := dict_get_default "min" VNone check in
     let max_val := dict_get_default "max" VNone check in
     let condition := Lit (VBool true) in
     let condition :=
       match min_val with
       | VNone => condition
       | _ => And condition (GreaterEq (Col column) (Lit min_val))
       end in
     let condition :=
       match max_val with
       | VNone => condition
       | _ => And condition (LessEq (Col column) (Lit max_val))
       end in
     failed_count <- spark (filter_count df (Not condition)) ;;
     counted failed_count
       (pretty failed_count +:+ " values out of range [" +:+ py_str min_val +:+
        ", " +:+ py_str max_val +:+ "]")
   else if is_str check_type "regex" then
     let pattern := dict_get_default "pattern" VNone check in
     failed_count <- spark (filter_count df (Not (RLike (Col column) pattern))) ;;
     counted failed_count (pretty failed_count +:+ " values don't match pattern")
   else if is_str check_type "values" then
     let allowed_values := dict_get_default "allowed" (VList []) check in
     failed_count <-
       spark (filter_count df (Not (IsIn (Col column) allowed_values))) ;;
     counted failed_count (pretty failed_count +:+ " values not in allowed list")
   else if is_str check_type "custom" then
     let expression := dict_get_default "expression" VNone check in
     failed_count <- spark (filter_count df (Not (Expr expression))) ;;
     counted failed_count (pretty failed_count +:+ " rows failed custom check")
   else if is_str check_type "row_count" then
     let min_rows := dict_get_default "min" (VInt 0) check in
     let max_rows := dict_get_default "max" (VFloat FInf) check in
     above <- lift_res (py_le_int min_rows (Z.of_nat total_rows)) ;;
     within <-
       (if above : bool then lift_res (py_int_le (Z.of_nat total_rows) max_rows)
        else ret false) ;;
     update (CheckResult.set_passed within) ;;;
     update (CheckResult.set_failed_count (if within : bool then 0 else 1)) ;;;
     update (CheckResult.set_message
               ("Row count: " +:+ pretty total_rows +:+ " (expected: " +:+
                py_str min_rows +:+ "-" +:+ py_str max_rows +:+ ")"))
   else
     update (CheckResult.set_message ("Unknown check type: " +:+ py_str check_type)) ;;;
     update (CheckResult.set_failed_count 0))%monad.

(** "Apply threshold if specified" *)
Definition apply_threshold (total_rows : nat) (check : Dict) : Body unit :=
  (let threshold := dict_get_default "threshold" (VInt 0) check in
   positive <- lift_res (py_gt_int threshold 0) ;;
   check_result <- gets snd ;;
   if (positive : bool) && (0 <? CheckResult.failed_count check_result) then
     failure_rate <-
       lift_res (py_div (CheckResult.failed_count check_result) total_rows) ;;
     within <- lift_res (py_float_le failure_rate threshold) ;;
     update (CheckResult.set_passed within)
   else ret tt)%monad.

(** The body of the [try] statement. *)
Definition try_body (df : DataFrame) (total_rows : nat) (check : Dict)
    (check_type column : Value) : Body unit :=
  (dispatch df total_rows check check_type column ;;;
   apply_threshold total_rows check)%monad.

(** The [except Exception as e] clause. *)
Definition on_error (e : Exn) : Body unit :=
  (update (CheckResult.set_message ("Check error: " +:+ exn_msg e)) ;;;
   update (CheckResult.set_passed false))%monad.

Definition check_name_of (check : Dict) : Value :=
  let check_type := dict_get_default "type" VNone check in
  let column := dict_get_default "column" VNone check in
  dict_get_default "name" (VStr (py_str check_type +:+ "_" +:+ py_str column)) check.

(** The [check_result] dictionary as it is created. *)
Definition new_check_result (check : Dict) : CheckResult.t :=
  CheckResult.mk (check_name_of check)
    (dict_get_default "type" VNone check)
    (dict_get_default "column" VNone check)
    false 0 "".

(** One check, from the creation of [check_result] to the end of the
    [try] statement; the value is [check_result]. *)
Definition evaluate (df : DataFrame) (total_rows : nat) (check : Dict)
  : M W CheckResult.t :=
  fun w =>
    let check_type := dict_get_default "type" VNone check in
    let column := dict_get_default "column" VNone check in
    let '(r, (w', check_result)) :=
      try_except (try_body df total_rows check check_type column) on_error
        (w, new_check_result check) in
    (res_map (fun _ => check_result) r, w').

Definition quality_check_failed (check_result : CheckResult.t) : Exn :=
  exn ValidationError
    ("Quality check failed: " +:+ py_str (CheckResult.name check_result) +:+
     " - " +:+ CheckResult.message check_result).

Abbreviation Loop := (M (W * Results.t DataFrame)).

Definition count_passed : Loop unit :=
  modify (fun s =>
    (s.1, Results.mk (S (Results.passed s.2)) (Results.failed s.2)
            (Results.checks s.2) (Results.validated_df s.2))).

Definition count_failed : Loop unit :=
  modify (fun s =>
    (s.1, Results.mk (Results.passed s.2) (S (Results.failed s.2))
            (Results.checks s.2) (Results.validated_df s.2))).

Definition append_check (check_result : CheckResult.t) : Loop unit :=
  modify (fun s =>
    (s.1, Results.mk (Results.passed s.2) (Results.failed s.2)
            (Results.checks s.2 ++ [check_result]) (Results.validated_df s.2))).

(** The body of [for check in checks]. *)
Definition check_step (df : DataFrame) (total_rows : nat) (fail_on_error : bool)
    (check : Dict) : Loop unit :=
  (check_result <- zoom fst (fun w s => (w, s.2)) (evaluate df total_rows check) ;;
   (if CheckResult.passed check_result then count_passed
    else
      count_failed ;;;
      if fail_on_error then raise (quality_check_failed check_result)
      else ret tt) ;;;
   append_check check_result)%monad.

Definition run_quality_checks (df : DataFrame) (checks : list Dict)
    (fail_on_error : bool) : M W (Results.t DataFrame) :=
  fun w =>
    match df_count df w with
    | (Raise e, w0) => (Raise e, w0)
    | (Ok total_rows, w0) =>
        let '(r, (w', results)) :=
          for_each (check_step df total_rows fail_on_error) checks
            (w0, Results.mk 0 0 [] df) in
        (res_map (fun _ => results) r, w')
    end.
End validators.
End Validators.

(* ================================================================== *)
(** * datalib.io.writer *)
(* ================================================================== *)

(** [sep.join(v)] *)
Definition py_join (sep : string) (v : Value) : Res string :=
  let item (i : nat) (x : Value) : Res string :=
    match x with
    | VStr s => Ok s
    | _ =>
        Raise (exn TypeError
                 ("sequence item " +:+ pretty i +:+ ": expected str instance, " +:+
                  type_name x +:+ " found"))
    end in
  match v with
  | VList l =>
      res_map (String.concat sep) (res_traverse (fun ix => item ix.1 ix.2) (imap pair l))
  | VStr s => Ok (String.concat sep (map (fun c => String c EmptyString) (String.list_ascii_of_string s)))
  | VDict d => Ok (String.concat sep (map fst d))
  | _ => Raise (exn TypeError "can only join an iterable")
  end.

(** Keys of a dictionary: [a == b] for two hashable values. *)
Definition key_eqb (a b : Value) : bool :=
  match a, b with
  | VNone, VNone => true
  | VStr s, VStr t => String.eqb s t
  | _, _ =>
      match as_number a, as_number b with
      | Some x, Some y => float_le x y && float_le y x
      | _, _ => false
      end
  end.

Definition unhashable (v : Value) : Exn :=
  exn TypeError ("unhashable type: '" +:+ type_name v +:+ "'").

Section py_dict.
Context {V : Type}.

Fixpoint key_set (k : Value) (v : V) (d : list (Value * V)) : list (Value * V) :=
  match d with
  | [] => [(k, v)]
  | (k', v') :: d' =>
      if key_eqb k k' then (k', v) :: d' else (k', v') :: key_set k v d'
  end.

(** A dictionary display or comprehension with the given items. *)
Fixpoint py_dict_from (d : list (Value * V)) (items : list (Value * V))
  : Res (list (Value * V)) :=
  match items with
  | [] => Ok d
  | (k, v) :: items' =>
      match k with
      | VList _ | VDict _ => Raise (unhashable k)
      | _ => py_dict_from (key_set k v d) items'
      end
  end.

Definition py_dict (items : list (Value * V)) : Res (list (Value * V)) :=
  py_dict_from [] items.
End py_dict.

Module DataWriter.
Section writer.
Context `{FloatRepr} {W DataFrame : Type} `{!Platform W DataFrame}.

(** The methods run over the world and the [TargetConfig] object they
    were handed. *)
Abbreviation Write := (M (W * TargetConfig.t)).

Definition spark {A} (m : M W A) : Write A :=
  zoom fst (fun w s => (w, s.2)) m.

Definition target : Write TargetConfig.t := gets snd.

(** [self.context.create_schema_if_not_exists(catalog, schema)] *)
Definition create_schema_if_not_exists (catalog schema : string) : M W unit :=
  (spark_sql ("CREATE SCHEMA IF NOT EXISTS " +:+ catalog +:+ "." +:+ schema) ;;;
   ret tt)%monad.

(** [self.context.table_exists(catalog, schema, table)] *)
Definition table_exists (catalog schema table : string) : M W bool :=
  try_except
    (catalog_tableExists (catalog +:+ "." +:+ schema +:+ "." +:+ table))
    (fun _ => ret false).

Definition _ensure_schema_exists : Write unit :=
  (t <- target ;;
   spark (create_schema_if_not_exists (TargetConfig.catalog t) (TargetConfig.schema t)))%monad.

Definition _optimize_table : Write unit :=
  (t <- target ;;
   let optimize := dict_get_default "optimize" (VBool false) (TargetConfig.options t) in
   let z_order_by := dict_get_default "z_order_by" (VList []) (TargetConfig.options t) in
   if truthy optimize then
     let table_name := TargetConfig.get_full_table_name t in
     if truthy z_order_by then
       z_order_cols <- lift_res (py_join ", " z_order_by) ;;
       spark (spark_sql ("OPTIMIZE " +:+ table_name +:+ " ZORDER BY (" +:+
                         z_order_cols +:+ ")")) ;;;
       ret tt
     else
       spark (spark_sql ("OPTIMIZE " +:+ table_name)) ;;;
       ret tt
   else ret tt)%monad.

(** [df.write.format(target.format).mode(mode)] with the options and the
    partitioning of the target applied. *)
Definition writer_for (df : DataFrame) (t : TargetConfig.t) (mode : string)
  : DataFrameWriter DataFrame :=
  mkDataFrameWriter df (TargetConfig.format t) mode (TargetConfig.options t)
    match TargetConfig.partition_by t with
    | [] => None
    | cols => Some cols
    end.

Definition _write_overwrite (df : DataFrame) : Write nat :=
  (t <- target ;;
   let table_name := TargetConfig.get_full_table_name t in
   record_count <- spark (df_count df) ;;
   spark (writer_saveAsTable (writer_for df t "overwrite") table_name) ;;;
   _optimize_table ;;;
   ret record_count)%monad.

Definition _write_append (df : DataFrame) : Write nat :=
  (t <- target ;;
   let table_name := TargetConfig.get_full_table_name t in
   record_count <- spark (df_count df) ;;
   spark (writer_saveAsTable (writer_for df t "append") table_name) ;;;
   ret record_count)%monad.

(** [" AND ".join([f"target.{key} = source.{key}" for key in merge_keys])] *)
Definition keys_condition (merge_keys : list string) : string :=
  String.concat " AND "
    (map (fun key => "target." +:+ key +:+ " = source." +:+ key) merge_keys).

(** [{col: f"source.{col}" for col in columns}] *)
Definition from_source (columns : list string) : Res (list (Value * Assignment)) :=
  py_dict (map (fun col => (VStr col, SqlText ("source." +:+ col))) columns).

Definition not_in (l : list string) (c : string) : bool :=
  negb (bool_decide (c ∈ l)).

Definition _write_merge (df : DataFrame) : Write nat :=
  (t <- target ;;
   let table_name := TargetConfig.get_full_table_name t in
   match TargetConfig.merge_keys t with
   | [] => raise (exn DataWriterError "Merge mode requires merge_keys in configuration")
   | _ =>
       found <- spark (table_exists (TargetConfig.catalog t) (TargetConfig.schema t)
                         (TargetConfig.table t)) ;;
       if negb found then _write_overwrite df
       else
         let merge_condition := keys_condition (TargetConfig.merge_keys t) in
         let columns :=
           List.filter (not_in (TargetConfig.merge_keys t)) (df_columns df) in
         update_set <- lift_res (from_source columns) ;;
         insert_values <- lift_res (from_source (df_columns df)) ;;
         spark (delta_forName table_name) ;;;
         spark (merge_execute
                  (mkDeltaMerge table_name df merge_condition
                     (Some (None, update_set)) (Some insert_values))) ;;;
         spark (df_count df)
   end)%monad.

Definition _write_scd2 (df : DataFrame) : Write nat :=
  (t <- target ;;
   let table_name := TargetConfig.get_full_table_name t in
   match TargetConfig.merge_keys t with
   | [] => raise (exn DataWriterError "SCD2 mode requires merge_keys in configuration")
   | _ =>
       let effective_date_col :=
         dict_get_default "effective_date_column" (VStr "effective_date")
           (TargetConfig.options t) in
       let end_date_col :=
         dict_get_default "end_date_column" (VStr "end_date") (TargetConfig.options t) in
       let current_flag_col :=
         dict_get_default "current_flag_column" (VStr "is_current")
           (TargetConfig.options t) in
       source_df <-
         spark (df1 <- df_withColumn df effective_date_col CurrentTimestamp ;;
                df2 <- df_withColumn df1 end_date_col (Cast (Lit VNone) "timestamp") ;;
                df_withColumn df2 current_flag_col (Lit (VBool true))) ;;
       found <- spark (table_exists (TargetConfig.catalog t) (TargetConfig.schema t)
                         (TargetConfig.table t)) ;;
       if negb found then
         modify (fun s => (s.1, TargetConfig.set_mode "overwrite" s.2)) ;;;
         _write_overwrite source_df
       else
         let merge_condition :=
           keys_condition (TargetConfig.merge_keys t) +:+
           " AND target." +:+ py_str current_flag_col +:+ " = true" in
         let compare_cols :=
           match TargetConfig.scd_columns t with
           | [] => List.filter (not_in (TargetConfig.merge_keys t)) (df_columns df)
           | cols => cols
           end in
         let change_conditions :=
           String.concat " OR "
             (map (fun col => "target." +:+ col +:+ " <> source." +:+ col)
                compare_cols) in
         spark (delta_forName table_name) ;;;
         closing <-
           lift_res (py_dict [(end_date_col, ColumnExpr CurrentTimestamp);
                              (current_flag_col, ColumnExpr (Lit (VBool false)))]) ;;
         spark (merge_execute
                  (mkDeltaMerge table_name source_df merge_condition
                     (Some (Some change_conditions, closing)) None)) ;;;
         existing_df <-
           spark (current <- spark_table table_name ;;
                  df_filter current
                    (Equals (Col current_flag_col) (Lit (VBool true)))) ;;
         new_records <-
           spark (df_join_aliased source_df "source" existing_df "existing"
                    (map (fun k => Equals (Col (VStr ("source." +:+ k)))
                                     (Col (VStr ("existing." +:+ k))))
                       (TargetConfig.merge_keys t))
                    "left_anti") ;;
         pending <- spark (df_count new_records) ;;
         (if 0 <? pending then
            spark (writer_saveAsTable
                     (mkDataFrameWriter new_records "delta" "append" [] None)
                     table_name)
          else ret tt) ;;;
         spark (df_count df)
   end)%monad.

Definition failed_to_write (t : TargetConfig.t) (e : Exn) : Exn :=
  exn DataWriterError
    ("Failed to write to " +:+ TargetConfig.get_full_table_name t +:+ ": " +:+
     exn_msg e).

Definition write (df : DataFrame) : Write nat :=
  (t <- target ;;
   let mode := SparkFn.map_chars SparkFn.lower_char (TargetConfig.mode t) in
   try_except
     (_ensure_schema_exists ;;;
      if String.eqb mode "overwrite" then _write_overwrite df
      else if String.eqb mode "append" then _write_append df
      else if String.eqb mode "merge" then _write_merge df
      else if String.eqb mode "scd2" then _write_scd2 df
      else raise (exn DataWriterError ("Unknown write mode: " +:+ mode)))
     (fun e => t' <- target ;; raise (failed_to_write t' e)))%monad.
End writer.
End DataWriter.

(* ================================================================== *)
(** * datalib.io.reader *)
(* ================================================================== *)

(** [bool(o)] for an optional string *)
Definition nonempty (o : option string) : bool :=
  match o with
  | Some s => negb (String.eqb s "")
  | None => false
  end.

Module DataReader.
Section reader.
Context {W DataFrame : Type} `{!Platform W DataFrame}.

(** [SourceConfig.get_full_table_name] *)
Definition get_full_table_name (self : SourceConfig.t) : option string :=
  let catalog := SourceConfig.catalog self in
  let schema := SourceConfig.schema self in
  let table := SourceConfig.table self in
  if nonempty catalog && nonempty schema && nonempty table then
    Some (default "" catalog +:+ "." +:+ default "" schema +:+ "." +:+ default "" table)
  else if nonempty schema && nonempty table then
    Some (default "" schema +:+ "." +:+ default "" table)
  else if nonempty table then table
  else None.

(** [spark.read.format(format)] with the options applied, loaded. *)
Definition load (format : string) (options : Dict) (path : option string)
  : M W DataFrame :=
  reader_load (mkDataFrameReader format options) path.

Definition _read_table (source : SourceConfig.t) : M W DataFrame :=
  match get_full_table_name source with
  | Some table_name => spark_table table_name
  | None => raise (exn DataReaderError "Table source requires catalog, schema, and table")
  end.

Definition _read_delta (source : SourceConfig.t) : M W DataFrame :=
  if nonempty (SourceConfig.path source) then
    load "delta" (SourceConfig.options source) (SourceConfig.path source)
  else if nonempty (get_full_table_name source) then _read_table source
  else raise (exn DataReaderError "Delta source requires path or table name").

(** A reader of files in one format, with the options the format is
    read with by default. *)
Definition read_files (format requires : string) (default_options : Dict)
    (source : SourceConfig.t) : M W DataFrame :=
  if negb (nonempty (SourceConfig.path source)) then
    raise (exn DataReaderError requires)
  else
    let options :=
      fold_left (fun d kv => dict_set kv.1 kv.2 d) (SourceConfig.options source)
        default_options in
    load format options (SourceConfig.path source).

Definition _read_parquet : SourceConfig.t -> M W DataFrame :=
  read_files "parquet" "Parquet source requires path" [].

Definition _read_csv : SourceConfig.t -> M W DataFrame :=
  read_files "csv" "CSV source requires path"
    [("header", VStr "true"); ("inferSchema", VStr "true");
     ("mode", VStr "PERMISSIVE")].

Definition _read_json : SourceConfig.t -> M W DataFrame :=
  read_files "json" "JSON source requires path"
    [("multiLine", VStr "true"); ("mode", VStr "PERMISSIVE")].

Definition _read_jdbc (source : SourceConfig.t) : M W DataFrame :=
  if negb (nonempty (SourceConfig.connection_string source)) then
    raise (exn DataReaderError "JDBC source requires connection_string")
  else if negb (nonempty (SourceConfig.table source) ||
                nonempty (SourceConfig.query source)) then
    raise (exn DataReaderError "JDBC source requires table or query")
  else
    let options := [("url", VStr (default "" (SourceConfig.connection_string source)))] in
    let options :=
      if nonempty (SourceConfig.table source) then
        options ++ [("dbtable", VStr (default "" (SourceConfig.table source)))]
      else if nonempty (SourceConfig.query source) then
        options ++ [("query", VStr (default "" (SourceConfig.query source)))]
      else options in
    load "jdbc" (options ++ SourceConfig.options source) None.

Definition _read_sql (source : SourceConfig.t) : M W DataFrame :=
  if negb (nonempty (SourceConfig.query source)) then
    raise (exn DataReaderError "SQL source requires query")
  else spark_sql (default "" (SourceConfig.query source)).

Definition _read_generic (source : SourceConfig.t) : M W DataFrame :=
  if negb (nonempty (SourceConfig.path source)) then
    raise (exn DataReaderError "Generic source requires path")
  else
    load (SourceConfig.type source) (SourceConfig.options source)
      (SourceConfig.path source).

Definition failed_to_read (source_type : string) (e : Exn) : Exn :=
  exn DataReaderError
    ("Failed to read from " +:+ source_type +:+ " source: " +:+ exn_msg e).

Definition read (source : SourceConfig.t) : M W DataFrame :=
  let source_type := SparkFn.map_chars SparkFn.lower_char (SourceConfig.type source) in
  try_except
    (if String.eqb source_type "delta" then _read_delta source
     else if String.eqb source_type "table" then _read_table source
     else if String.eqb source_type "parquet" then _read_parquet source
     else if String.eqb source_type "csv" then _read_csv source
     else if String.eqb source_type "json" then _read_json source
     else if String.eqb source_type "jdbc" then _read_jdbc source
     else if String.eqb source_type "sql" then _read_sql source
     else _read_generic source)
    (fun e => raise (failed_to_read source_type e)).
End reader.
End DataReader.

(* ================================================================== *)
(** * datalib.core.pipeline *)
(* ================================================================== *)

Module PipelineMetrics.
(** Times are microseconds on the clock of the platform; so is
    [duration_seconds]. *)
Record t := mk {
  pipeline_name : string;
  start_time : Z;
  end_time : option Z;
  status : string;
  records_read : nat;
  records_written : nat;
  records_failed : nat;
  transformations_applied : nat;
  quality_checks_passed : nat;
  quality_checks_failed : nat;
  error_message : option string;
  duration_seconds : Z
}.

(** [PipelineMetrics(pipeline_name=name)], created at the time [now] *)
Definition new (name : string) (now : Z) : t :=
  mk name now None "running" 0 0 0 0 0 0 None 0.

(** [self.complete(status, error)], called at the time [now] *)
Definition complete (status : string) (error : option string) (now : Z) (self : t) : t :=
  mk (pipeline_name self) (start_time self) (Some now) status
     (records_read self) (records_written self) (records_failed self)
     (transformations_applied self) (quality_checks_passed self)
     (quality_checks_failed self) error (now - start_time self).

Definition set_records_read (n : nat) (self : t) : t :=
  mk (pipeline_name self) (start_time self) (end_time self) (status self)
     n (records_written self) (records_failed self)
     (transformations_applied self) (quality_checks_passed self)
     (quality_checks_failed self) (error_message self) (duration_seconds self).

Definition set_records_written (n : nat) (self : t) : t :=
  mk (pipeline_name self) (start_time self) (end_time self) (status self)
     (records_read self) n (records_failed self)
     (transformations_applied self) (quality_checks_passed self)
     (quality_checks_failed self) (error_message self) (duration_seconds self).

Definition count_transformation (self : t) : t :=
  mk (pipeline_name self) (start_time self) (end_time self) (status self)
     (records_read self) (records_written self) (records_failed self)
     (S (transformations_applied self)) (quality_checks_passed self)
     (quality_checks_failed self) (error_message self) (duration_seconds self).

Definition set_quality (passed failed : nat) (self : t) : t :=
  mk (pipeline_name self) (start_time self) (end_time self) (status self)
     (records_read self) (records_written self) (records_failed self)
     (transformations_applied self) passed failed
     (error_message self) (duration_seconds self).
End PipelineMetrics.

Module Pipeline.
Section pipeline.
Context `{FloatRepr} {W DataFrame : Type} `{!Platform W DataFrame}.

(** A registered transformation: the class called with the parameters
    of the configuration, and the [transform] of the instance. *)
Definition Transformation : Type := Dict -> Res (DataFrame -> M W DataFrame).

(** The pipeline object and what it refers to: the world, the
    configuration (whose target the writer may change), the
    [PipelineMetrics] objects created so far, and the address in [heap]
    of the one [self._metrics] refers to.  [_transformations] is the
    registry. *)
Record State := mkState {
  world : W;
  config : PipelineConfig.t;
  heap : list PipelineMetrics.t;
  _metrics : nat;
  _transformations : string -> option Transformation
}.

Abbreviation Run := (M State).

Definition set_world (w : W) (s : State) : State :=
  mkState w (config s) (heap s) (_metrics s) (_transformations s).

(** An action of the platform, run from the pipeline. *)
Definition spark {A} (m : M W A) : Run A := zoom world set_world m.

(** [self._metrics.field = ...] *)
Definition update_metrics (f : PipelineMetrics.t -> PipelineMetrics.t) : Run unit :=
  modify (fun s =>
    mkState (world s) (config s) (alter f (_metrics s) (heap s)) (_metrics s)
      (_transformations s)).

(** [self._metrics = PipelineMetrics(pipeline_name=self.config.name)] *)
Definition new_metrics : Run unit :=
  fun s =>
    let '(now, w) := datetime_now (world s) in
    (Ok tt,
     mkState w (config s)
       (heap s ++ [PipelineMetrics.new (PipelineConfig.name (config s)) now])
       (length (heap s)) (_transformations s)).

(** [self._metrics.complete(status, error)] *)
Definition complete (status : string) (error : option string) : Run unit :=
  fun s =>
    let '(now, w) := datetime_now (world s) in
    (Ok tt,
     mkState w (config s)
       (alter (PipelineMetrics.complete status error now) (_metrics s) (heap s))
       (_metrics s) (_transformations s)).

(** [PipelineExecutionError(message, self._metrics)] *)
Definition execution_error (message : string) : Run Exn :=
  gets (fun s => mkExn PipelineExecutionError message (Some (_metrics s))).

Definition raise_execution_error {A} (message : string) : Run A :=
  (e <- execution_error message ;; raise e)%monad.

Definition _read_source (source : SourceConfig.t) : Run DataFrame :=
  spark (DataReader.read source).

(** The loop of [_apply_transformations]. *)
Fixpoint apply_each (l : list TransformationConfig.t) (df : DataFrame)
  : Run DataFrame :=
  match l with
  | [] => ret df
  | trans_config :: l' =>
      if negb (TransformationConfig.enabled trans_config) then apply_each l' df
      else
        (registry <- gets _transformations ;;
         match registry (TransformationConfig.type trans_config) with
         | None =>
             raise_execution_error
               ("Unknown transformation type: " +:+
                TransformationConfig.type trans_config)
         | Some trans_class =>
             transformation <-
               lift_res (trans_class (TransformationConfig.params trans_config)) ;;
             df' <- spark (transformation df) ;;
             update_metrics PipelineMetrics.count_transformation ;;;
             apply_each l' df'
         end)%monad
  end.

Definition _apply_transformations (df : DataFrame) : Run DataFrame :=
  (c <- gets config ;; apply_each (PipelineConfig.transformations c) df)%monad.

Definition _run_quality_checks (df : DataFrame) : Run DataFrame :=
  (c <- gets config ;;
   let quality := PipelineConfig.quality c in
   if negb (QualityConfig.enabled quality) then ret df
   else
     results <-
       spark (Validators.run_quality_checks df (QualityConfig.checks quality)
                (QualityConfig.fail_on_error quality)) ;;
     update_metrics
       (PipelineMetrics.set_quality (Results.passed results) (Results.failed results)) ;;;
     if (0 <? Results.failed results) && QualityConfig.fail_on_error quality then
       raise_execution_error
         ("Quality checks failed: " +:+ pretty (Results.failed results) +:+
          " checks failed")
     else ret (Results.validated_df results))%monad.

(** [DataWriter(self.context).write(df, target)], [target] being the
    object [self.config.target] refers to: what the writer does to it is
    done to the configuration. *)
Definition _write_target (df : DataFrame) (target : TargetConfig.t) : Run nat :=
  zoom (fun s => (world s, target))
       (fun wt s =>
          mkState wt.1 (PipelineConfig.set_target (Some wt.2) (config s))
            (heap s) (_metrics s) (_transformations s))
       (DataWriter.write df).

(** [dict.get] on a value that has to be a dictionary *)
Definition attr_get (v : Value) (k : string) (default : Value) : Res Value :=
  match v with
  | VDict d => Ok (dict_get_default k default d)
  | _ =>
      Raise (exn AttributeError
               ("'" +:+ type_name v +:+ "' object has no attribute 'get'"))
  end.

(** [_join_sources(dfs)] for [dfs = first :: others] *)
Definition _join_sources (first : DataFrame) (others : list DataFrame)
  : Run DataFrame :=
  match others with
  | [] => ret first
  | _ =>
      (c <- gets config ;;
       let join_config :=
         dict_get_default "join" (VDict []) (PipelineConfig.parameters c) in
       join_type <- lift_res (attr_get join_config "type" (VStr "inner")) ;;
       join_keys <- lift_res (attr_get join_config "keys" (VList [])) ;;
       (fix loop (result : DataFrame) (l : list DataFrame) : Run DataFrame :=
          match l with
          | [] => ret result
          | df :: l' =>
              if truthy join_keys then
                result' <- spark (df_join result df join_keys join_type) ;;
                loop result' l'
              else
                raise_execution_error
                  "Join keys must be specified for multi-source pipelines"
          end) first others)%monad
  end.

(** [[self._read_source(source) for source in sources]] *)
Fixpoint read_all (sources : list SourceConfig.t) : Run (list DataFrame) :=
  match sources with
  | [] => ret []
  | source :: sources' =>
      (df <- _read_source source ;;
       dfs <- read_all sources' ;;
       ret (df :: dfs))%monad
  end.

(** The body of the [try] statement of [run]. *)
Definition run_body : Run unit :=
  (c <- gets config ;;
   df <-
     match PipelineConfig.sources c with
     | [source] => _read_source source
     | source :: sources =>
         first <- _read_source source ;;
         others <- read_all sources ;;
         _join_sources first others
     | [] => raise_execution_error "No source configured for pipeline"
     end ;;
   records_read <- spark (df_count df) ;;
   update_metrics (PipelineMetrics.set_records_read records_read) ;;;
   df <- _apply_transformations df ;;
   df <- _run_quality_checks df ;;
   c <- gets config ;;
   match PipelineConfig.target c with
   | Some target =>
       records_written <- _write_target df target ;;
       update_metrics (PipelineMetrics.set_records_written records_written)
   | None => ret tt
   end ;;;
   complete "success" None)%monad.

(** The two [except] clauses of [run]. *)
Definition run_handler (e : Exn) : Run unit :=
  match exn_class e with
  | PipelineExecutionError => raise e
  | _ =>
      (complete "failed" (Some (exn_msg e)) ;;;
       raise_execution_error (exn_msg e))%monad
  end.

(** [run]; the value is the address of the metrics it returns. *)
Definition run : Run nat :=
  (new_metrics ;;;
   try_except run_body run_handler ;;;
   gets _metrics)%monad.
End pipeline.
Arguments Transformation : clear implicits.
Arguments State : clear implicits.
End Pipeline.

(* ================================================================== *)
(** * datalib.utils.validators: configurations and schemas *)
(* ================================================================== *)

(** [s.split(sep)] for a separator of one character *)
Fixpoint py_split (sep : ascii) (s : string) : list string :=
  match s with
  | EmptyString => [EmptyString]
  | String c s' =>
      if Ascii.eqb c sep then EmptyString :: py_split sep s'
      else
        match py_split sep s' with
        | part :: parts => String c part :: parts
        | [] => [String c EmptyString]
        end
  end.

(** [repr(l)] for a list of strings; string escapes are not modelled. *)
Definition repr_strings (l : list string) : string :=
  "[" +:+ String.concat ", " (map (fun s => "'" +:+ s +:+ "'") l) +:+ "]".

Module ValidateConfig.

(** The loop [for part in parts], from [value]: [true] when it ends by
    [break], the field having been appended to [missing]. *)
Fixpoint broken (value : Value) (parts : list string) : bool :=
  match parts with
  | [] => false
  | part :: parts' =>
      match value with
      | VDict d =>
          match dict_get part d with
          | Some value' => broken value' parts'
          | None => true
          end
      | _ => true
      end
  end.

(** The body of [for field in required_fields]. *)
Definition step (config : Value) (missing : list string) (field : string)
  : list string :=
  if broken config (py_split "." field) then missing ++ [field] else missing.

Definition validate_config (config : Value) (required_fields : list string)
  : Res bool :=
  match fold_left (step config) required_fields [] with
  | [] => Ok true
  | missing =>
      Raise (exn ValidationError
               ("Missing required fields: " +:+ repr_strings missing))
  end.
End ValidateConfig.

Module ValidateSchema.

(** A field of a [StructType]: its name and [str(f.dataType)], which is
    all [validate_schema] looks at. *)
Record StructField := mkField {
  name : string;
  dataType : string
}.

Record TypeMismatch := mkMismatch {
  column : string;
  expected : string;
  actual : string
}.

Record Result := mkResult {
  valid : bool;
  missing_columns : list string;
  extra_columns : list string;
  type_mismatches : list TypeMismatch
}.

Fixpoint lookup (k : string) (d : list (string * string)) : option string :=
  match d with
  | [] => None
  | (k', v) :: d' => if String.eqb k k' then Some v else lookup k d'
  end.

Fixpoint update (k v : string) (d : list (string * string)) : list (string * string) :=
  match d with
  | [] => [(k, v)]
  | (k', v') :: d' =>
      if String.eqb k k' then (k, v) :: d' else (k', v') :: update k v d'
  end.

(** [{f.name: f.dataType for f in fields}] *)
Definition field_types (fields : list StructField) : list (string * string) :=
  fold_left (fun d f => update (name f) (dataType f) d) fields [].

(** The body of [for name, dtype in expected_fields.items()]. *)
Definition check_expected (strict : bool) (actual_fields : list (string * string))
    (result : Result) (item : string * string) : Result :=
  let '(name, dtype) := item in
  match lookup name actual_fields with
  | None =>
      mkResult false (missing_columns result ++ [name]) (extra_columns result)
        (type_mismatches result)
  | Some actual_type =>
      if negb (String.eqb actual_type dtype) then
        mkResult (if strict then false else valid result)
          (missing_columns result) (extra_columns result)
          (type_mismatches result ++ [mkMismatch name dtype actual_type])
      else result
  end.

(** The body of [for name in actual_fields]. *)
Definition check_extra (expected_fields : list (string * string))
    (result : Result) (name : string) : Result :=
  match lookup name expected_fields with
  | None =>
      mkResult false (missing_columns result) (extra_columns result ++ [name])
        (type_mismatches result)
  | Some _ => result
  end.

(** [validate_schema(df, expected_schema, strict)], [df_schema] being
    [df.schema.fields] and [expected_schema] its [fields]. *)
Definition validate_schema (df_schema expected_schema : list StructField)
    (strict : bool) : Result :=
  let actual_fields := field_types df_schema in
  let expected_fields := field_types expected_schema in
  let result := mkResult true [] [] [] in
  let result :=
    fold_left (check_expected strict actual_fields) expected_fields result in
  if strict then
    fold_left (check_extra expected_fields) (map fst actual_fields) result
  else result.
End ValidateSchema.

(* ================================================================== *)
(** * datalib.transformations.common: dropping columns *)
(* ================================================================== *)

Module DropColumns.
Record t := mk {
  columns : list string;
  ignore_missing : bool
}.

Definition not_found (column : string) : Exn :=
  exn TransformationError ("Column not found: " +:+ column).

(** [for column in self.columns], from the frame [df] *)
Fixpoint loop (ignore_missing : bool) (columns : list string) (df : Frame.t)
  : Res Frame.t :=
  match columns with
  | [] => Ok df
  | column :: columns' =>
      if bool_decide (column ∈ Frame.columns df) then
        loop ignore_missing columns' (Frame.drop column df)
      else if negb ignore_missing then Raise (not_found column)
      else loop ignore_missing columns' df
  end.

Definition transform (self : t) (df : Frame.t) : Res Frame.t :=
  loop (ignore_missing self) (columns self) df.
End DropColumns.

(* ================================================================== *)
(** * datalib.transformations.common: casting columns *)
(* ================================================================== *)

Module CastColumns.

(** The Spark types [TYPE_MAPPING] and [DecimalType(p, s)] build. *)
Inductive DataType :=
  | StringType
  | IntegerType
  | LongType
  | DoubleType
  | FloatType
  | BooleanType
  | DateType
  | TimestampType
  | DecimalType (precision scale : N).

Definition TYPE_MAPPING : list (string * DataType) :=
  [("string", StringType); ("int", IntegerType); ("integer", IntegerType);
   ("long", LongType); ("bigint", LongType); ("double", DoubleType);
   ("float", FloatType); ("boolean", BooleanType); ("bool", BooleanType);
   ("date", DateType); ("timestamp", TimestampType)].

(** [TYPE_MAPPING.get(k)] *)
Fixpoint mapping_get (k : string) (l : list (string * DataType)) : option DataType :=
  match l with
  | [] => None
  | (k', t) :: l' => if String.eqb k k' then Some t else mapping_get k l'
  end.

(** What is left of [s] after [prefix], when [s] starts with it. *)
Fixpoint strip_prefix (prefix s : string) : option string :=
  match prefix, s with
  | EmptyString, _ => Some s
  | String a prefix', String c s' =>
      if Ascii.eqb a c then strip_prefix prefix' s' else None
  | String _ _, EmptyString => None
  end.

(** [s.startswith(prefix)] *)
Definition startswith (prefix s : string) : bool :=
  match strip_prefix prefix s with
  | Some _ => true
  | None => false
  end.

(** The class [\d], on ASCII text. *)
Definition is_digit (c : ascii) : bool := SparkFn.char_between 48 57 c.

(** [int(s)] for a string of digits *)
Fixpoint int_of_digits (acc : N) (s : string) : N :=
  match s with
  | EmptyString => acc
  | String c s' => int_of_digits (10 * acc + N.of_nat (nat_of_ascii c - 48)) s'
  end.

(** [re.match] of the pattern for [decimal(p,s)] at the head of [s]:
    groups 1 and 2.  The text after the closing parenthesis is free. *)
Definition match_decimal (s : string) : option (string * string) :=
  match strip_prefix "decimal(" s with
  | Some s1 =>
      let '(precision, s2) := ConfigLoader.span is_digit s1 in
      match precision, s2 with
      | String _ _, String c s3 =>
          if Ascii.eqb c "," then
            let '(scale, s4) := ConfigLoader.span is_digit s3 in
            match scale, s4 with
            | String _ _, String c' _ =>
                if Ascii.eqb c' ")" then Some (precision, scale) else None
            | _, _ => None
            end
          else None
      | _, _ => None
      end
  | None => None
  end.

Definition unknown_type (type_name : string) : Exn :=
  exn TransformationError ("Unknown type: " +:+ type_name).

Definition not_found (column : string) : Exn :=
  exn TransformationError ("Column not found: " +:+ column).

(** The type a type name of the configuration stands for: the part of
    the loop of [transform] that sets [target_type]. *)
Definition target_type (type_name : string) : Res DataType :=
  let lowered := SparkFn.map_chars SparkFn.lower_char type_name in
  match mapping_get lowered TYPE_MAPPING with
  | Some t => Ok t
  | None =>
      if startswith "decimal" lowered then
        match match_decimal lowered with
        | Some (precision, scale) =>
            Ok (DecimalType (int_of_digits 0 precision) (int_of_digits 0 scale))
        | None => Ok (DecimalType 38 10)
        end
      else Raise (unknown_type type_name)
  end.

(** [t.simpleString()]: a type object handed to [cast] is the type of
    that name. *)
Definition simple_string (t : DataType) : string :=
  match t with
  | StringType => "string"
  | IntegerType => "int"
  | LongType => "bigint"
  | DoubleType => "double"
  | FloatType => "float"
  | BooleanType => "boolean"
  | DateType => "date"
  | TimestampType => "timestamp"
  | DecimalType p s => "decimal(" +:+ pretty p +:+ "," +:+ pretty s +:+ ")"
  end.

Section cast.
Context {W DataFrame : Type} `{!Platform W DataFrame}.

Record t := mk {
  column_types : list (string * string);
  strict : bool
}.

(** [for column, type_name in self.column_types.items()], from [df] *)
Fixpoint loop (strict : bool) (items : list (string * string)) (df : DataFrame)
  : M W DataFrame :=
  match items with
  | [] => ret df
  | (column, type_name) :: items' =>
      if negb (bool_decide (column ∈ df_columns df)) then
        if strict then raise (not_found column) else loop strict items' df
      else
        (target <- lift_res (target_type type_name) ;;
         df' <- df_withColumn df (VStr column)
                  (Cast (Col (VStr column)) (simple_string target)) ;;
         loop strict items' df')%monad
  end.

Definition transform (self : t) (df : DataFrame) : M W DataFrame :=
  loop (strict self) (column_types self) df.
End cast.
End CastColumns.

(* ================================================================== *)
(** * datalib.core.pipeline: the dry run *)
(* ================================================================== *)

Module DryRun.

(** The ["target"] entry of the result. *)
Record TargetInfo := mkTarget {
  target_table : string;
  target_mode : string;
  target_format : string
}.

(** The dictionary [dry_run] returns. *)
Record Result := mkResult {
  pipeline : string;
  layer : string;
  sources : list (string * option string);
  transformations : list (string * Dict);
  target : option TargetInfo;
  sample_data : option Value
}.

(** [{"type": s.type, "table": s.get_full_table_name() or s.path}] *)
Definition describe_source (s : SourceConfig.t) : string * option string :=
  (SourceConfig.type s,
   if nonempty (DataReader.get_full_table_name s) then DataReader.get_full_table_name s
   else SourceConfig.path s).

Definition describe_target (t : TargetConfig.t) : TargetInfo :=
  mkTarget (TargetConfig.get_full_table_name t) (TargetConfig.mode t)
    (TargetConfig.format t).

Section dry_run.
Context {W DataFrame : Type} `{!Platform W DataFrame}.

(** [df.limit(10).toPandas().to_dict()] *)
Context (sample : DataFrame -> M W Value).

(** [for trans_config in self.config.transformations], with the list
    [result["transformations"]] and the frame [df] it updates *)
Fixpoint apply_each (l : list TransformationConfig.t)
    (listed : list (string * Dict)) (df : DataFrame)
  : M (Pipeline.State W DataFrame) (list (string * Dict) * DataFrame) :=
  match l with
  | [] => ret (listed, df)
  | trans_config :: l' =>
      if TransformationConfig.enabled trans_config then
        let listed :=
          listed ++ [(TransformationConfig.type trans_config,
                      TransformationConfig.params trans_config)] in
        (registry <- gets Pipeline._transformations ;;
         match registry (TransformationConfig.type trans_config) with
         | Some trans_class =>
             transformation <-
               lift_res (trans_class (TransformationConfig.params trans_config)) ;;
             df' <- Pipeline.spark (transformation df) ;;
             apply_each l' listed df'
         | None => apply_each l' listed df
         end)%monad
      else apply_each l' listed df
  end.

Definition dry_run : M (Pipeline.State W DataFrame) Result :=
  (c <- gets Pipeline.config ;;
   let target := option_map describe_target (PipelineConfig.target c) in
   match PipelineConfig.sources c with
   | source :: _ =>
       df <- Pipeline._read_source source ;;
       let sources := map describe_source (PipelineConfig.sources c) in
       out <- apply_each (PipelineConfig.transformations c) [] df ;;
       sample_data <- Pipeline.spark (sample out.2) ;;
       ret (mkResult (PipelineConfig.name c) (PipelineConfig.layer c) sources out.1
              target (Some sample_data))
   | [] =>
       ret (mkResult (PipelineConfig.name c) (PipelineConfig.layer c) [] [] target None)
   end)%monad.
End dry_run.
End DryRun.

(* ================================================================== *)
(** * A recording platform *)
(* ================================================================== *)

(** An implementation of [Platform] over the frames in memory, in the
    way of the [MagicMock] session of the test-suite: a catalog of
    tables, a log of the statements it was given, and a clock that
    advances at every reading.  It evaluates the few column expressions
    the examples need and refuses the others. *)
Module Mock.

Record World := mkWorld {
  tables : list (string * Frame.t);
  log : list string;
  clock : Z
}.

Definition empty : World := mkWorld [] [] 0.

#[global] Instance float_repr : FloatRepr :=
  fun q => pretty (Qnum q) +:+ "/" +:+ pretty (Zpos (Qden q)).

Fixpoint lookup_table (name : string) (l : list (string * Frame.t)) : option Frame.t :=
  match l with
  | [] => None
  | (n, df) :: l' => if String.eqb name n then Some df else lookup_table name l'
  end.

Definition record (line : string) : M World unit :=
  modify (fun w => mkWorld (tables w) (log w ++ [line]) (clock w)).

Definition store (name : string) (df : Frame.t) : M World unit :=
  modify (fun w =>
    mkWorld ((name, df) :: List.filter (fun p => negb (String.eqb p.1 name)) (tables w))
      (log w) (clock w)).

Definition refused : Exn :=
  exn AnalysisException "expression not supported by the mock".

Definition filter (df : Frame.t) (c : Column) : M World Frame.t :=
  match c with
  | IsNull (Col (VStr name)) =>
      if bool_decide (name ∈ Frame.columns df) then
        ret (Frame.filter (fun r => bool_decide (Frame.cell r name = CNull)) df)
      else raise (Frame.unresolved name)
  | Equals (Col (VStr name)) (Lit (VBool b)) =>
      if bool_decide (name ∈ Frame.columns df) then
        ret (Frame.filter (fun r => bool_decide (Frame.cell r name = CBool b)) df)
      else raise (Frame.unresolved name)
  | _ => raise refused
  end.

Definition withColumn (df : Frame.t) (name : Value) (c : Column) : M World Frame.t :=
  match name, c with
  | VStr n, Lit (VBool b) => ret (Frame.withColumn n (fun _ => CBool b) df)
  | VStr n, Cast (Lit VNone) _ => ret (Frame.withColumn n (fun _ => CNull) df)
  | VStr n, CurrentTimestamp =>
      fun w => (Ok (Frame.withColumn n (fun _ => CInt (clock w)) df), w)
  | _, _ => raise refused
  end.

(** The text after [alias.] in a qualified column name. *)
Fixpoint unqualified (alias name : string) : option string :=
  match alias, name with
  | EmptyString, String c rest => if Ascii.eqb c "." then Some rest else None
  | String a alias', String c rest =>
      if Ascii.eqb a c then unqualified alias' rest else None
  | _, _ => None
  end.

(** The key of a join condition [left.k == right.k]. *)
Definition join_key (left right : string) (c : Column) : option string :=
  match c with
  | Equals (Col (VStr a)) (Col (VStr b)) =>
      match unqualified left a, unqualified right b with
      | Some k, Some k' => if String.eqb k k' then Some k else None
      | _, _ => None
      end
  | _ => None
  end.

Fixpoint join_keys (left right : string) (on : list Column) : option (list string) :=
  match on with
  | [] => Some []
  | c :: on' =>
      match join_key left right c, join_keys left right on' with
      | Some k, Some ks => Some (k :: ks)
      | _, _ => None
      end
  end.

(** Two rows agree on a key when both cells are there and equal: null
    matches nothing. *)
Definition agree (keys : list string) (x y : Row) : bool :=
  forallb (fun k => negb (bool_decide (Frame.cell x k = CNull)) &&
                    bool_decide (Frame.cell x k = Frame.cell y k)) keys.

Definition join_aliased (left : Frame.t) (la : string) (right : Frame.t)
    (ra : string) (on : list Column) (how : string) : M World Frame.t :=
  match join_keys la ra on with
  | Some keys =>
      if String.eqb how "left_anti" then
        ret (Frame.filter
               (fun x => negb (existsb (agree keys x) (Frame.rows right))) left)
      else raise refused
  | None => raise refused
  end.

Definition saveAsTable (writer : DataFrameWriter Frame.t) (name : string)
  : M World unit :=
  (record ("saveAsTable " +:+ name +:+ " mode=" +:+ writer_mode writer) ;;;
   existing <- gets (fun w => lookup_table name (tables w)) ;;
   match existing with
   | Some old =>
       if String.eqb (writer_mode writer) "append" then
         store name (Frame.mk (Frame.columns old)
                       (Frame.rows old ++ Frame.rows (writer_df writer)))
       else store name (writer_df writer)
   | None => store name (writer_df writer)
   end)%monad.

#[global] Instance platform : Platform World Frame.t := {
  df_columns := Frame.columns;
  df_count df := ret (length (Frame.rows df));
  df_filter := filter;
  df_groupBy_count _ _ := raise refused;
  df_withColumn := withColumn;
  df_join_aliased := join_aliased;
  df_join _ _ _ _ := raise refused;
  spark_sql text := (record text ;;; ret (Frame.mk [] []))%monad;
  reader_load reader path :=
    match path with
    | Some p =>
        (existing <- gets (fun w => lookup_table p (tables w)) ;;
         match existing with
         | Some df => ret df
         | None => raise (exn AnalysisException ("Path does not exist: " +:+ p))
         end)%monad
    | None => raise refused
    end;
  spark_table name :=
    (existing <- gets (fun w => lookup_table name (tables w)) ;;
     match existing with
     | Some df => ret df
     | None => raise (exn AnalysisException ("Table or view not found: " +:+ name))
     end)%monad;
  catalog_tableExists name :=
    gets (fun w => match lookup_table name (tables w) with
                   | Some _ => true
                   | None => false
                   end);
  writer_saveAsTable := saveAsTable;
  delta_forName name :=
    (existing <- gets (fun w => lookup_table name (tables w)) ;;
     match existing with
     | Some _ => ret tt
     | None => raise (exn AnalysisException (name +:+ " is not a Delta table"))
     end)%monad;
  merge_execute m :=
    record ("MERGE INTO " +:+ merge_table m +:+ " ON " +:+ merge_condition m);
  datetime_now w := (clock w, mkWorld (tables w) (log w) (clock w + 1))
}.
End Mock.

(* ================================================================== *)
(** * Properties *)
(* ================================================================== *)

(** ** Facts about dictionaries *)

Lemma dict_get_set_eq (k : string) (v : Value) (d : Dict) :
  dict_get k (dict_set k v d) = Some v.
Proof.
  induction d as [|[k' v'] d IH]; simpl.
  - by rewrite String.eqb_refl.
  - destruct (String.eqb_spec k k') as [->|Hne]; simpl.
    + by rewrite String.eqb_refl.
    + destruct (String.eqb_spec k k'); [done|apply IH].
Qed.

Lemma dict_get_set_ne (k k' : string) (v : Value) (d : Dict) :
  k <> k' -> dict_get k (dict_set k' v d) = dict_get k d.
Proof.
  intros Hne. induction d as [|[k2 v2] d IH]; simpl.
  - destruct (String.eqb_spec k k'); [done|done].
  - destruct (String.eqb_spec k' k2) as [->|Hne2]; simpl.
    + destruct (String.eqb_spec k k2); [done|done].
    + destruct (String.eqb_spec k k2); [done|apply IH].
Qed.

Lemma dict_get_not_key (k : string) (d : Dict) :
  k ∉ d.*1 -> dict_get k d = None.
Proof.
  induction d as [|[k' v'] d IH]; simpl; [done|].
  intros Hnotin. destruct (String.eqb_spec k k') as [->|Hne].
  - exfalso. apply Hnotin. left.
  - apply IH. intros Hin. apply Hnotin. by right.
Qed.

(** ** Facts about comprehensions *)

Lemma res_traverse_Ok {A B} (f : A -> Res B) (l : list A) (l' : list B) :
  res_traverse f l = Ok l' <-> Forall2 (fun x y => f x = Ok y) l l'.
Proof.
  revert l'. induction l as [|x l IH]; intros l'; simpl.
  - split.
    + intros [= <-]. constructor.
    + intros Hall. by inversion Hall.
  - split.
    + destruct (f x) as [y|e] eqn:Hfx; simpl; [|done].
      destruct (res_traverse f l) as [ys|e] eqn:Htl; simpl; [|done].
      intros [= <-]. constructor; [done|]. by apply IH.
    + intros Hall. inversion Hall as [|? y ? ys Hfx Hrest]; subst.
      rewrite Hfx. simpl. apply IH in Hrest. by rewrite Hrest.
Qed.

Lemma res_traverse_Raise {A B} (f : A -> Res B) (l1 l2 : list A) (l1' : list B)
    (x : A) (e : Exn) :
  Forall2 (fun x y => f x = Ok y) l1 l1' ->
  f x = Raise e ->
  res_traverse f (l1 ++ x :: l2) = Raise e.
Proof.
  intros Hall Hx. induction Hall as [|a b l l' Hab _ IH]; simpl.
  - by rewrite Hx.
  - by rewrite Hab, IH.
Qed.

(* ================================================================== *)
(** * Properties of datalib.core.config *)
(* ================================================================== *)

(** ** [PipelineConfig]: validation and the two source fields *)

Definition example_source : SourceConfig.t :=
  SourceConfig.mk "table" None None None (Some "customers") None None [].

Definition example_pipeline (name layer : string)
    (source : option SourceConfig.t) (sources : list SourceConfig.t)
  : PipelineConfig.t :=
  PipelineConfig.mk name layer "" "1.0.0" "" [] source sources None
    ProcessingConfig.default [] QualityConfig.default [].

(** The name is checked before the layer: at
    [PipelineConfig(name="", layer="staging")] the constructor raises
    the name-required error and the layer is not looked at. *)
Lemma post_init_empty_name_shadows_layer :
  PipelineConfig.valid_layer "staging" = false /\
  PipelineConfig.__post_init__ (example_pipeline "" "staging" None []) =
    Raise PipelineConfig.name_required /\
  PipelineConfig.__post_init__ (example_pipeline "" "staging" None []) <>
    Raise (PipelineConfig.invalid_layer "staging").
Proof. split; [reflexivity|]. split; [reflexivity|discriminate]. Qed.

(** C9: an empty name raises the name-required [ConfigurationError];
    a layer outside bronze/silver/gold, under a name that passes,
    raises the invalid-layer [ConfigurationError]; and on every
    successful construction a lone [source] has become the only element
    of [sources], and a non-empty [sources] without [source] has given
    its first element to [source]. *)
Theorem post_init_validates_and_synchronizes (c : PipelineConfig.t) :
  (PipelineConfig.name c = "" ->
     PipelineConfig.__post_init__ c = Raise PipelineConfig.name_required) /\
  (PipelineConfig.name c <> "" ->
   PipelineConfig.valid_layer (PipelineConfig.layer c) = false ->
     PipelineConfig.__post_init__ c =
       Raise (PipelineConfig.invalid_layer (PipelineConfig.layer c))) /\
  (forall c', PipelineConfig.__post_init__ c = Ok c' ->
     PipelineConfig.name c' <> "" /\
     PipelineConfig.layer c' ∈ ["bronze"; "silver"; "gold"] /\
     (forall S, PipelineConfig.source c = Some S ->
                PipelineConfig.sources c = [] ->
        PipelineConfig.sources c' = [S] /\ PipelineConfig.source c' = Some S) /\
     (forall S rest, PipelineConfig.source c = None ->
                     PipelineConfig.sources c = S :: rest ->
        PipelineConfig.source c' = Some S /\
        PipelineConfig.sources c' = S :: rest)).
Proof.
  unfold PipelineConfig.__post_init__.
  split; [|split].
  - intros ->. reflexivity.
  - intros Hname Hlayer.
    destruct (String.eqb_spec (PipelineConfig.name c) ""); [done|].
    by rewrite Hlayer.
  - intros c'.
    destruct (String.eqb_spec (PipelineConfig.name c) "") as [|Hname]; [done|].
    destruct (PipelineConfig.valid_layer (PipelineConfig.layer c)) eqn:Hlayer;
      simpl; [|done].
    assert (PipelineConfig.layer c ∈ ["bronze"; "silver"; "gold"]) as Hin.
    { unfold PipelineConfig.valid_layer in Hlayer.
      destruct (String.eqb_spec (PipelineConfig.layer c) "bronze") as [->|_];
        [set_solver|].
      destruct (String.eqb_spec (PipelineConfig.layer c) "silver") as [->|_];
        [set_solver|].
      destruct (String.eqb_spec (PipelineConfig.layer c) "gold") as [->|_];
        [set_solver|done]. }
    destruct (PipelineConfig.source c) as [s|] eqn:Hsrc;
      destruct (PipelineConfig.sources c) as [|s0 l] eqn:Hsrcs;
      intros [= <-]; simpl; rewrite ?Hsrc, ?Hsrcs;
      (split; [done|]); (split; [done|]);
      (split; [intros S ? ?|intros S rest ? ?]); by simplify_eq.
Qed.

Lemma post_init_validates_and_synchronizes_witness :
  PipelineConfig.__post_init__ (example_pipeline "" "bronze" None []) =
    Raise PipelineConfig.name_required /\
  PipelineConfig.__post_init__ (example_pipeline "t" "staging" None []) =
    Raise (PipelineConfig.invalid_layer "staging") /\
  (exists c',
     PipelineConfig.__post_init__
       (example_pipeline "t" "bronze" (Some example_source) []) = Ok c' /\
     PipelineConfig.sources c' = [example_source]) /\
  (exists c',
     PipelineConfig.__post_init__
       (example_pipeline "t" "gold" None [example_source; example_source]) = Ok c' /\
     PipelineConfig.source c' = Some example_source).
Proof.
  split; [|split; [|split]].
  - apply (proj1 (post_init_validates_and_synchronizes
                    (example_pipeline "" "bronze" None []))).
    reflexivity.
  - apply (proj1 (proj2 (post_init_validates_and_synchronizes
                           (example_pipeline "t" "staging" None [])))).
    + discriminate.
    + reflexivity.
  - eexists. split; [reflexivity|].
    destruct (post_init_validates_and_synchronizes
                (example_pipeline "t" "bronze" (Some example_source) []))
      as (_ & _ & Hok).
    destruct (Hok _ eq_refl) as (_ & _ & Hsingle & _).
    apply (Hsingle example_source); reflexivity.
  - eexists. split; [reflexivity|].
    destruct (post_init_validates_and_synchronizes
                (example_pipeline "t" "gold" None [example_source; example_source]))
      as (_ & _ & Hok).
    destruct (Hok _ eq_refl) as (_ & _ & _ & Hlist).
    apply (Hlist example_source [example_source]); reflexivity.
Defined.

(** ** [_merge_configs] *)

(** One turn of the loop of [_merge_configs]. *)
Definition merge_step (result : Dict) (item : string * Value) : Dict :=
  match dict_get item.1 result, item.2 with
  | Some (VDict b), VDict o =>
      dict_set item.1 (VDict (ConfigLoader._merge_configs b o)) result
  | _, _ => dict_set item.1 item.2 result
  end.

Lemma merge_configs_fold (base override : Dict) :
  ConfigLoader._merge_configs base override = fold_left merge_step override base.
Proof.
  unfold ConfigLoader._merge_configs. simpl.
  revert base. induction override as [|[key value] items IH]; intros base; [done|].
  simpl. rewrite <- IH. f_equal.
  unfold merge_step. simpl.
  destruct (dict_get key base) as [[]|]; try done. by destruct value.
Qed.

Lemma merge_step_get_eq (result : Dict) (key : string) (value : Value) :
  dict_get key (merge_step result (key, value)) =
  match dict_get key result, value with
  | Some (VDict b), VDict o => Some (VDict (ConfigLoader._merge_configs b o))
  | _, _ => Some value
  end.
Proof.
  unfold merge_step. simpl.
  destruct (dict_get key result) as [[]|]; try apply dict_get_set_eq;
    destruct value; apply dict_get_set_eq.
Qed.

Lemma merge_step_get_ne (result : Dict) (key key' : string) (value : Value) :
  key <> key' ->
  dict_get key (merge_step result (key', value)) = dict_get key result.
Proof.
  intros Hne. unfold merge_step. simpl.
  destruct (dict_get key' result) as [[]|]; try (by apply dict_get_set_ne);
    destruct value; by apply dict_get_set_ne.
Qed.

Lemma merge_fold_get (override base : Dict) (key : string) :
  NoDup override.*1 ->
  dict_get key (fold_left merge_step override base) =
  match dict_get key override with
  | None => dict_get key base
  | Some value =>
      match dict_get key base, value with
      | Some (VDict b), VDict o => Some (VDict (ConfigLoader._merge_configs b o))
      | _, _ => Some value
      end
  end.
Proof.
  revert base. induction override as [|[k v] items IH]; intros base Hnodup; [done|].
  apply NoDup_cons in Hnodup as [Hfresh Hnodup]. simpl in *.
  rewrite (IH _ Hnodup).
  destruct (String.eqb_spec key k) as [->|Hne].
  - rewrite (dict_get_not_key k items Hfresh). apply merge_step_get_eq.
  - by rewrite (merge_step_get_ne _ _ _ _ Hne).
Qed.

(** C6: [_merge_configs] is a right-biased deep merge.  For a key of
    [override], two nested mappings are merged recursively and anything
    else is replaced by the value of [override]; the other keys keep the
    value of [base].  The two examples of the specification follow. *)
Theorem merge_configs_right_biased_deep (base override : Dict) :
  NoDup override.*1 ->
  (forall key,
     dict_get key (ConfigLoader._merge_configs base override) =
     match dict_get key override with
     | None => dict_get key base
     | Some value =>
         match dict_get key base, value with
         | Some (VDict b), VDict o =>
             Some (VDict (ConfigLoader._merge_configs b o))
         | _, _ => Some value
         end
     end) /\
  ConfigLoader._merge_configs
    [("a", VDict [("x", VInt 1); ("y", VInt 2)])] [("a", VDict [("x", VInt 9)])] =
    [("a", VDict [("x", VInt 9); ("y", VInt 2)])] /\
  ConfigLoader._merge_configs
    [("a", VList [VInt 1; VInt 2])] [("a", VList [VInt 3])] =
    [("a", VList [VInt 3])].
Proof.
  intros Hnodup. split; [|split; reflexivity].
  intros key. rewrite merge_configs_fold. by apply merge_fold_get.
Qed.

Lemma merge_configs_right_biased_deep_witness :
  dict_get "a"
    (ConfigLoader._merge_configs
       [("a", VDict [("x", VInt 1); ("y", VInt 2)]); ("b", VInt 0)]
       [("a", VDict [("x", VInt 9)]); ("c", VList [])]) =
    Some (VDict [("x", VInt 9); ("y", VInt 2)]) /\
  dict_get "b"
    (ConfigLoader._merge_configs
       [("a", VDict [("x", VInt 1); ("y", VInt 2)]); ("b", VInt 0)]
       [("a", VDict [("x", VInt 9)]); ("c", VList [])]) = Some (VInt 0).
Proof.
  assert (NoDup [("a", VDict [("x", VInt 9)]); ("c", VList [])].*1) as Hnodup.
  { apply (bool_decide_unpack _). vm_compute. reflexivity. }
  split.
  - rewrite (proj1 (merge_configs_right_biased_deep
                      [("a", VDict [("x", VInt 1); ("y", VInt 2)]); ("b", VInt 0)]
                      [("a", VDict [("x", VInt 9)]); ("c", VList [])] Hnodup) "a").
    reflexivity.
  - rewrite (proj1 (merge_configs_right_biased_deep
                      [("a", VDict [("x", VInt 1); ("y", VInt 2)]); ("b", VInt 0)]
                      [("a", VDict [("x", VInt 9)]); ("c", VList [])] Hnodup) "b").
    reflexivity.
Defined.

(** ** [_substitute_variables] *)

Fixpoint string_forallb (p : ascii -> bool) (s : string) : bool :=
  match s with
  | EmptyString => true
  | String c s' => p c && string_forallb p s'
  end.


Lemma str_app_cons (c : ascii) (a b : string) :
  String c a +:+ b = String c (a +:+ b).
Proof. reflexivity. Qed.

Lemma str_app_nil (b : string) : "" +:+ b = b.
Proof. reflexivity. Qed.

Lemma str_app_assoc (a b c : string) : (a +:+ b) +:+ c = a +:+ (b +:+ c).
Proof.
  induction a as [|x a IH]; [done|].
  by rewrite !str_app_cons, IH.
Qed.




Section substitution_facts.
Context (self : ConfigLoader.t) (environ : gmap string string).


Lemma re_sub_no_dollar (pre s : string) :
  string_forallb (fun c => negb (Ascii.eqb c "$")) pre = true ->
  ConfigLoader.re_sub self environ (pre +:+ s) =
  res_map (String.append pre) (ConfigLoader.re_sub self environ s).
Proof.
  unfold ConfigLoader.re_sub. intros Hpre. induction pre as [|x pre IH].
  - rewrite str_app_nil. by destruct (ConfigLoader.re_sub_from self environ 0 s).
  - simpl in Hpre. apply andb_true_iff in Hpre as [Hx Hpre].
    rewrite str_app_cons. cbn [ConfigLoader.re_sub_from].
    assert (ConfigLoader.match_here (String x (pre +:+ s)) = None) as ->.
    { unfold ConfigLoader.match_here. destruct (pre +:+ s); [done|].
      apply negb_true_iff in Hx. by rewrite Hx. }
    rewrite (IH Hpre).
    by destruct (ConfigLoader.re_sub_from self environ 0 s).
Qed.

End substitution_facts.

Section substitution_theorem.
Context (self : ConfigLoader.t) (environ : gmap string string).

Abbreviation subst := (ConfigLoader._substitute_variables self environ).


End substitution_theorem.

Definition example_loader : ConfigLoader.t :=
  ConfigLoader.mk "." "dev" (<["CATALOG" := "from_widget"]> ∅).

Definition example_environ : gmap string string :=
  <["CATALOG" := "from_env"]> (<["SCHEMA" := "from_env"]> ∅).

(* ================================================================== *)
(** * Properties of datalib.transformations.common *)
(* ================================================================== *)

(** ** [StandardizeStrings] *)

(** What [StandardizeStrings] with [lowercase] set does to a cell; the
    [uppercase] flag does not occur in it. *)
Definition lowercased (self : StandardizeStrings.t) (c : Cell) : Cell :=
  let c :=
    if StandardizeStrings.trim self
    then SparkFn.on_string SparkFn.trim_string c else c in
  let c := SparkFn.on_string (SparkFn.map_chars SparkFn.lower_char) c in
  if StandardizeStrings.remove_extra_spaces self
  then SparkFn.on_string (SparkFn.collapse_whitespace false) c else c.

(** How often [column] is listed. *)
Definition occurrences (column : string) (l : list string) : nat :=
  length (List.filter (String.eqb column) l).

Lemma col_expr_lowercase (self : StandardizeStrings.t) (column : string) (r : Row) :
  StandardizeStrings.lowercase self = true ->
  StandardizeStrings.col_expr self column r =
  lowercased self (Frame.cell r column).
Proof.
  intros Hlower. unfold StandardizeStrings.col_expr, lowercased.
  rewrite Hlower.
  by destruct (StandardizeStrings.trim self),
              (StandardizeStrings.remove_extra_spaces self).
Qed.

(** What the loop does to one row of a frame with the columns [present]. *)
Definition standardize_row (f : Cell -> Cell) (present : list string)
    (r : Row) (column : string) : Row :=
  if bool_decide (column ∈ present) then <[column := f (Frame.cell r column)]> r
  else r.

Lemma occurrences_not_in (c : string) (l : list string) :
  c ∉ l -> occurrences c l = 0.
Proof.
  unfold occurrences. induction l as [|y l IH]; [done|]. simpl.
  intros Hnotin. destruct (String.eqb_spec c y) as [->|Hy].
  - exfalso. apply Hnotin. left.
  - apply IH. intros Hin. apply Hnotin. by right.
Qed.

Lemma standardize_row_other (f : Cell -> Cell) (present : list string)
    (r : Row) (x c : string) :
  x <> c \/ c ∉ present ->
  standardize_row f present r x !! c = r !! c.
Proof.
  intros Hor. unfold standardize_row. case_bool_decide as Hx; [|done].
  apply lookup_insert_ne. intros ->. by destruct Hor.
Qed.

Lemma standardize_row_lookup (f : Cell -> Cell) (present l : list string)
    (r : Row) (c : string) :
  fold_left (standardize_row f present) l r !! c =
  if bool_decide (c ∈ present) && bool_decide (c ∈ l)
  then Some (Nat.iter (occurrences c l) f (Frame.cell r c))
  else r !! c.
Proof.
  revert r. induction l as [|x l IH]; intros r.
  - simpl. by rewrite andb_false_r.
  - cbn [fold_left]. rewrite IH.
    destruct (bool_decide_reflect (c ∈ present)) as [Hc|Hc]; simpl.
    + destruct (decide (x = c)) as [->|Hne].
      * rewrite (bool_decide_eq_true_2 (c ∈ c :: l)) by left.
        assert (standardize_row f present r c !! c = Some (f (Frame.cell r c)))
          as Hnew.
        { unfold standardize_row. rewrite (bool_decide_eq_true_2 _ Hc).
          apply lookup_insert_eq. }
        assert (occurrences c (c :: l) = S (occurrences c l)) as ->.
        { unfold occurrences. simpl. by rewrite String.eqb_refl. }
        unfold Frame.cell at 1. rewrite Hnew. simpl.
        destruct (bool_decide_reflect (c ∈ l)) as [Hl|Hl].
        -- by rewrite <- Nat.iter_succ_r.
        -- by rewrite (occurrences_not_in _ _ Hl).
      * assert (bool_decide (c ∈ x :: l) = bool_decide (c ∈ l)) as ->.
        { apply bool_decide_ext. rewrite elem_of_cons.
          split; [intros [->|Hin]; [done|exact Hin]|by right]. }
        assert (occurrences c (x :: l) = occurrences c l) as ->.
        { unfold occurrences. simpl.
          destruct (String.eqb_spec c x); [congruence|done]. }
        unfold Frame.cell.
        by rewrite (standardize_row_other f present r x c (or_introl Hne)).
    + by apply standardize_row_other; right.
Qed.

Lemma standardize_fold (self : StandardizeStrings.t) (f : Cell -> Cell)
    (l : list string) (df : Frame.t) :
  (forall column r, StandardizeStrings.col_expr self column r =
                    f (Frame.cell r column)) ->
  fold_left (StandardizeStrings.step self) l df =
  Frame.mk (Frame.columns df)
    (map (fun r => fold_left (standardize_row f (Frame.columns df)) l r)
         (Frame.rows df)).
Proof.
  intros Hexpr. revert df. induction l as [|x l IH]; intros [cols rws].
  - simpl. by rewrite map_id.
  - simpl. rewrite IH. unfold StandardizeStrings.step, standardize_row. simpl.
    destruct (bool_decide_reflect (x ∈ cols)) as [Hx|Hx]; simpl; [|done].
    rewrite (bool_decide_eq_true_2 _ Hx). f_equal.
    rewrite map_map. apply map_ext. intros r. by rewrite Hexpr.
Qed.

(** C10: when [lowercase] is set, [uppercase] makes no difference (in
    particular when both are set): the frame keeps its columns and its
    rows; a configured column that the frame has is replaced, in every
    row, by its trimmed (if asked), lower-cased and white-space-collapsed
    (if asked) value, once for each time it is listed; configured columns
    that the frame lacks are skipped, and every other column of every row
    is as it was. *)
Theorem standardize_strings_lowercase_wins
    (self : StandardizeStrings.t) (df : Frame.t) :
  StandardizeStrings.lowercase self = true ->
  let out := StandardizeStrings.transform self df in
  (forall b,
     StandardizeStrings.transform
       (StandardizeStrings.mk
          (StandardizeStrings.columns self) (StandardizeStrings.trim self)
          true b (StandardizeStrings.remove_extra_spaces self)) df = out) /\
  Frame.columns out = Frame.columns df /\
  length (Frame.rows out) = length (Frame.rows df) /\
  (forall i r r',
     Frame.rows df !! i = Some r -> Frame.rows out !! i = Some r' ->
     forall c,
       (c ∈ StandardizeStrings.columns self -> c ∈ Frame.columns df ->
          r' !! c =
          Some (Nat.iter (occurrences c (StandardizeStrings.columns self))
                  (lowercased self) (Frame.cell r c))) /\
       (c ∉ StandardizeStrings.columns self \/ c ∉ Frame.columns df ->
          r' !! c = r !! c)).
Proof.
  intros Hlower out.
  assert (out = Frame.mk (Frame.columns df)
            (map (fun r => fold_left
                    (standardize_row (lowercased self) (Frame.columns df))
                    (StandardizeStrings.columns self) r) (Frame.rows df)))
    as Hout.
  { unfold out, StandardizeStrings.transform. apply standardize_fold.
    intros column r. by apply col_expr_lowercase. }
  split; [|split; [|split]].
  - intros b. rewrite Hout. unfold StandardizeStrings.transform. simpl.
    apply standardize_fold. intros column r.
    by rewrite col_expr_lowercase.
  - by rewrite Hout.
  - rewrite Hout. simpl. by rewrite length_map.
  - intros i r r' Hr Hr' c. rewrite Hout in Hr'. simpl in Hr'.
    rewrite list_lookup_fmap, Hr in Hr'. simpl in Hr'.
    injection Hr' as <-. rewrite standardize_row_lookup. split.
    + intros Hc Hpresent.
      by rewrite (bool_decide_eq_true_2 _ Hc), (bool_decide_eq_true_2 _ Hpresent).
    + intros [Hc|Hc].
      * by rewrite (bool_decide_eq_false_2 _ Hc), andb_false_r.
      * by rewrite (bool_decide_eq_false_2 _ Hc).
Qed.

Definition example_names : Frame.t :=
  Frame.mk ["name"; "city"]
    [<["name" := CStr "  Ada  LOVELACE "]> (<["city" := CStr "London"]> ∅)].

Lemma standardize_strings_lowercase_wins_witness :
  StandardizeStrings.transform
    (StandardizeStrings.mk ["name"; "email"] true true true true) example_names =
  Frame.mk ["name"; "city"]
    [<["name" := CStr "ada lovelace"]> (<["city" := CStr "London"]> ∅)] /\
  StandardizeStrings.transform
    (StandardizeStrings.mk ["name"; "email"] true true false true) example_names =
  StandardizeStrings.transform
    (StandardizeStrings.mk ["name"; "email"] true true true true) example_names.
Proof.
  split; [vm_compute; reflexivity|].
  apply (proj1 (standardize_strings_lowercase_wins
                  (StandardizeStrings.mk ["name"; "email"] true true true true)
                  example_names eq_refl) false).
Defined.

(** ** [DeduplicateRows] *)

Lemma resolve_ok (cols : list string) (df : Frame.t) :
  Forall (fun c => c ∈ Frame.columns df) cols -> Frame.resolve cols df = Ok tt.
Proof.
  induction 1 as [|c cols Hc _ IH]; [done|]. simpl.
  by rewrite (bool_decide_eq_true_2 _ Hc).
Qed.

Lemma filter_without_added (name : string) (cols : list string) :
  List.filter (fun c => negb (String.eqb c name))
    (if bool_decide (name ∈ cols) then cols else cols ++ [name]) =
  List.filter (fun c => negb (String.eqb c name)) cols.
Proof.
  case_bool_decide; [done|].
  rewrite List.filter_app. simpl. rewrite String.eqb_refl. simpl.
  apply app_nil_r.
Qed.

Lemma col_insert (name : string) (v : Cell) (r : Row) :
  Frame.col name (<[name := v]> r) = v.
Proof.
  unfold Frame.col, Frame.cell.
  assert (<[name := v]> r !! name = Some v) as -> by apply lookup_insert_eq.
  done.
Qed.

Lemma filter_numbered (name : string) (l : list (Row * nat)) :
  List.filter (fun r => bool_decide (Frame.col name r = CInt 1))
    (map (fun rn => <[name := CInt (Z.of_nat rn.2)]> rn.1) l) =
  map (fun rn => <[name := CInt (Z.of_nat rn.2)]> rn.1)
    (List.filter (fun rn => rn.2 =? 1) l).
Proof.
  induction l as [|[r n] l IH]; [done|]. simpl.
  rewrite col_insert.
  destruct (Nat.eqb_spec n 1) as [->|Hn].
  - rewrite bool_decide_eq_true_2 by done. simpl. by rewrite IH.
  - rewrite bool_decide_eq_false_2; [exact IH|].
    intros [= Heq]. apply Hn. lia.
Qed.

(** The rows [transform] keeps, given the numbering of the window. *)
Definition rank_one (name : string) (numbered : list (Row * nat)) : list Row :=
  map (fun rn => delete name rn.1) (List.filter (fun rn => rn.2 =? 1) numbered).

Lemma drop_filter_numbered (name : string) (w : Frame.WindowSpec) (df : Frame.t) :
  Forall (fun c => c ∈ Frame.columns df)
    (Frame.partitionBy w ++ map Frame.sort_column (Frame.orderBy w)) ->
  res_bind (Frame.withColumn_row_number name w df) (fun df1 =>
    Ok (Frame.drop name
          (Frame.filter (fun r => bool_decide (Frame.col name r = CInt 1)) df1))) =
  Ok (Frame.mk
        (List.filter (fun c => negb (String.eqb c name)) (Frame.columns df))
        (rank_one name (Frame.row_numbers w [] (Frame.rows df)))).
Proof.
  intros Hcols. unfold Frame.withColumn_row_number.
  rewrite (resolve_ok _ _ Hcols). simpl.
  unfold Frame.drop, Frame.filter. simpl. f_equal. f_equal.
  - apply filter_without_added.
  - rewrite filter_numbered, map_map. unfold rank_one.
    apply map_ext. intros [r n]. simpl. apply delete_insert_eq.
Qed.

(** *** The numbering of a window *)

Lemma row_numbers_lookup (w : Frame.WindowSpec) (seen rest : list Row)
    (i : nat) (r : Row) (n : nat) :
  Frame.row_numbers w seen rest !! i = Some (r, n) <->
  rest !! i = Some r /\
  n = 1 + length (List.filter (Frame.earlier_before w r) (seen ++ take i rest))
        + length (List.filter (Frame.later_before w r) (List.skipn (S i) rest)).
Proof.
  revert seen i. induction rest as [|r0 rest IH]; intros seen i.
  - simpl. split; [done|]. by intros [? _].
  - destruct i as [|i]; simpl.
    + rewrite app_nil_r. split.
      * by intros [= <- <-].
      * by intros [[= <-] ->].
    + rewrite IH. by rewrite <- app_assoc.
Qed.

Lemma cell_compare_antisym (a b : Cell) :
  Frame.cell_compare b a = CompOpp (Frame.cell_compare a b).
Proof.
  destruct a, b; simpl; try done.
  - apply Nat.compare_antisym.
  - apply Z.compare_antisym.
  - apply String.compare_antisym.
Qed.

Lemma row_compare_antisym (orders : list Frame.SortOrder) (x y : Row) :
  Frame.row_compare orders y x = CompOpp (Frame.row_compare orders x y).
Proof.
  induction orders as [|[c|c] orders IH]; [done| |]; simpl.
  - rewrite (cell_compare_antisym (Frame.cell x c) (Frame.cell y c)).
    by destruct (Frame.cell_compare (Frame.cell x c) (Frame.cell y c)).
  - rewrite (cell_compare_antisym (Frame.cell y c) (Frame.cell x c)).
    by destruct (Frame.cell_compare (Frame.cell y c) (Frame.cell x c)).
Qed.

Lemma same_partition_sym (w : Frame.WindowSpec) (x y : Row) :
  Frame.same_partition w x y = Frame.same_partition w y x.
Proof. unfold Frame.same_partition. apply bool_decide_ext. split; congruence. Qed.

Lemma filter_nil_forall {A} (p : A -> bool) (l : list A) :
  length (List.filter p l) = 0 -> forall x, x ∈ l -> p x = false.
Proof.
  induction l as [|a l IH]; simpl.
  - intros _ x Hx. by apply elem_of_nil in Hx.
  - destruct (p a) eqn:Hpa; [done|].
    intros Hlen x [->|Hx]%elem_of_cons; [done|by apply IH].
Qed.

(** *** The sort order of a window is a total preorder *)

Lemma cell_compare_eq (a b : Cell) : Frame.cell_compare a b = Eq -> a = b.
Proof.
  destruct a as [|x|x|x], b as [|y|y|y]; simpl; try done.
  - intros Heq%Nat.compare_eq. by destruct x, y.
  - by intros ->%Z.compare_eq.
  - by intros ->%String.compare_eq_iff.
Qed.

Lemma string_compare_refl (s : string) : String.compare s s = Eq.
Proof.
  induction s as [|a s IH]; [done|]. simpl.
  unfold Ascii.compare. by rewrite N.compare_refl.
Qed.

Lemma cell_compare_refl (a : Cell) : Frame.cell_compare a a = Eq.
Proof.
  destruct a; simpl.
  - done.
  - apply Nat.compare_refl.
  - apply Z.compare_refl.
  - apply string_compare_refl.
Qed.

Lemma string_compare_lt_trans (a b c : string) :
  String.compare a b = Lt -> String.compare b c = Lt -> String.compare a c = Lt.
Proof.
  intros Hab Hbc.
  assert (String.le a c) as Hac.
  { transitivity b; unfold String.le, String.leb; [by rewrite Hab|by rewrite Hbc]. }
  unfold String.le, String.leb in Hac.
  destruct (String.compare a c) eqn:Hcmp; [|done|done].
  apply String.compare_eq_iff in Hcmp as ->.
  rewrite String.compare_antisym, Hab in Hbc. done.
Qed.

Lemma cell_compare_lt_trans (a b c : Cell) :
  Frame.cell_compare a b = Lt -> Frame.cell_compare b c = Lt ->
  Frame.cell_compare a c = Lt.
Proof.
  destruct a as [|x|x|x], b as [|y|y|y], c as [|z|z|z]; simpl; try done.
  - rewrite !Nat.compare_lt_iff. lia.
  - rewrite !Z.compare_lt_iff. lia.
  - apply string_compare_lt_trans.
Qed.

(** The comparison of two rows under one sort order. *)
Definition order_compare (o : Frame.SortOrder) (x y : Row) : comparison :=
  match o with
  | Frame.Asc c => Frame.cell_compare (Frame.cell x c) (Frame.cell y c)
  | Frame.Desc c => Frame.cell_compare (Frame.cell y c) (Frame.cell x c)
  end.

Lemma row_compare_cons (o : Frame.SortOrder) (orders : list Frame.SortOrder)
    (x y : Row) :
  Frame.row_compare (o :: orders) x y =
  match order_compare o x y with
  | Eq => Frame.row_compare orders x y
  | r => r
  end.
Proof. by destruct o. Qed.

Lemma order_compare_eq_l (o : Frame.SortOrder) (x y z : Row) :
  order_compare o x y = Eq -> order_compare o x z = order_compare o y z.
Proof. destruct o; simpl; by intros ->%cell_compare_eq. Qed.

Lemma order_compare_eq_r (o : Frame.SortOrder) (x y z : Row) :
  order_compare o y z = Eq -> order_compare o x y = order_compare o x z.
Proof. destruct o; simpl; by intros ->%cell_compare_eq. Qed.

Lemma order_compare_lt_trans (o : Frame.SortOrder) (x y z : Row) :
  order_compare o x y = Lt -> order_compare o y z = Lt -> order_compare o x z = Lt.
Proof.
  destruct o; simpl; intros Hxy Hyz.
  - by eapply cell_compare_lt_trans.
  - by eapply cell_compare_lt_trans.
Qed.

Lemma row_compare_refl (orders : list Frame.SortOrder) (x : Row) :
  Frame.row_compare orders x x = Eq.
Proof.
  induction orders as [|o orders IH]; [done|].
  rewrite row_compare_cons.
  assert (order_compare o x x = Eq) as ->; [|done].
  destruct o; apply cell_compare_refl.
Qed.

(** [x] before [y], and [y] not after [z]: [x] before [z]. *)
Lemma row_compare_lt_le_trans (orders : list Frame.SortOrder) (x y z : Row) :
  Frame.row_compare orders x y = Lt ->
  Frame.row_compare orders y z <> Gt ->
  Frame.row_compare orders x z = Lt.
Proof.
  induction orders as [|o orders IH]; [done|].
  rewrite !row_compare_cons.
  destruct (order_compare o x y) eqn:Hxy; [| |done].
  - rewrite (order_compare_eq_l _ _ _ z Hxy).
    destruct (order_compare o y z); [apply IH|done|done].
  - intros _. destruct (order_compare o y z) eqn:Hyz; [| |done].
    + intros _. by rewrite (order_compare_eq_r _ x _ _ Hyz) in Hxy; rewrite Hxy.
    + intros _. by rewrite (order_compare_lt_trans _ _ _ _ Hxy Hyz).
Qed.

(** *** Exactly one row of every partition is numbered 1 *)

Lemma forall_filter_nil {A} (p : A -> bool) (l : list A) :
  (forall x, x ∈ l -> p x = false) -> length (List.filter p l) = 0.
Proof.
  induction l as [|a l IH]; [done|]. intros Hall. simpl.
  rewrite (Hall a) by left. apply IH. intros x Hx. apply Hall. by right.
Qed.

(** The row at index [i] has no row numbered before it. *)
Definition numbered_one (w : Frame.WindowSpec) (l : list Row) (i : nat) (b : Row)
  : Prop :=
  l !! i = Some b /\
  (forall x, x ∈ take i l -> Frame.earlier_before w b x = false) /\
  (forall x, x ∈ drop (S i) l -> Frame.later_before w b x = false).

Lemma numbered_one_iff (w : Frame.WindowSpec) (l : list Row) (i : nat) (b : Row) :
  Frame.row_numbers w [] l !! i = Some (b, 1) <-> numbered_one w l i b.
Proof.
  rewrite row_numbers_lookup. simpl. unfold numbered_one. split.
  - intros [Hb Hn]. split; [done|].
    split; apply filter_nil_forall; lia.
  - intros (Hb & Hearlier & Hlater). split; [done|].
    by rewrite (forall_filter_nil _ _ Hearlier), (forall_filter_nil _ _ Hlater).
Qed.

Lemma same_partition_refl (w : Frame.WindowSpec) (x : Row) :
  Frame.same_partition w x x = true.
Proof. unfold Frame.same_partition. by apply bool_decide_eq_true_2. Qed.

Lemma same_partition_trans (w : Frame.WindowSpec) (x y z : Row) :
  Frame.same_partition w x y = true -> Frame.same_partition w y z = true ->
  Frame.same_partition w x z = true.
Proof.
  unfold Frame.same_partition.
  intros Hxy%bool_decide_eq_true_1 Hyz%bool_decide_eq_true_1.
  apply bool_decide_eq_true_2. congruence.
Qed.

Lemma row_compare_gt_lt (orders : list Frame.SortOrder) (x y : Row) :
  Frame.row_compare orders x y = Gt <-> Frame.row_compare orders y x = Lt.
Proof.
  rewrite (row_compare_antisym orders x y).
  by destruct (Frame.row_compare orders x y).
Qed.

Lemma numbered_one_exists (w : Frame.WindowSpec) (l : list Row) (r0 : Row) :
  r0 ∈ l ->
  exists i b, numbered_one w l i b /\ Frame.same_partition w b r0 = true.
Proof.
  revert r0. induction l as [|x l IH] using rev_ind; intros r0 Hin.
  { by apply elem_of_nil in Hin. }
  destruct (existsb (fun y => Frame.same_partition w y r0) l) eqn:Hsome.
  - apply existsb_exists in Hsome as (y & Hy%list_elem_of_In & Hyr0).
    destruct (IH y Hy) as (i & b & (Hb & Hearlier & Hlater) & Hby).
    assert (i < length l) as Hi by (by eapply lookup_lt_Some).
    assert (Frame.same_partition w b r0 = true) as Hbr0
      by (by eapply same_partition_trans).
    destruct (Frame.later_before w b x) eqn:Hx.
    + (* [x] sorts before the best row so far *)
      unfold Frame.later_before in Hx.
      apply andb_true_iff in Hx as [Hxb Hlt].
      assert (Frame.row_compare (Frame.orderBy w) x b = Lt) as Hxlt
        by (by destruct (Frame.row_compare (Frame.orderBy w) x b)).
      exists (length l), x. split; [split; [|split]|].
      * by rewrite lookup_app_r, Nat.sub_diag.
      * rewrite take_app_length. intros y' Hy'.
        unfold Frame.earlier_before.
        destruct (Frame.same_partition w y' x) eqn:Hy'x; [simpl|done].
        assert (Frame.same_partition w y' b = true) as Hy'b
          by (by eapply same_partition_trans).
        assert (Frame.row_compare (Frame.orderBy w) b y' <> Gt) as Hle.
        { rewrite <- (take_drop_middle l i b Hb) in Hy'.
          apply elem_of_app in Hy' as [Hy'|Hy'].
          - specialize (Hearlier y' Hy'). unfold Frame.earlier_before in Hearlier.
            rewrite Hy'b in Hearlier. simpl in Hearlier.
            destruct (Frame.row_compare (Frame.orderBy w) y' b) eqn:Hcmp;
              [done|done|].
            apply row_compare_gt_lt in Hcmp. by rewrite Hcmp.
          - apply elem_of_cons in Hy' as [->|Hy'].
            + by rewrite row_compare_refl.
            + specialize (Hlater y' Hy'). unfold Frame.later_before in Hlater.
              rewrite Hy'b in Hlater. simpl in Hlater.
              intros Hgt%row_compare_gt_lt. by rewrite Hgt in Hlater. }
        pose proof (row_compare_lt_le_trans _ _ _ _ Hxlt Hle) as Hxy'.
        apply row_compare_gt_lt in Hxy'. by rewrite Hxy'.
      * rewrite drop_ge by (rewrite length_app; simpl; lia).
        intros y' Hy'. by apply elem_of_nil in Hy'.
      * by eapply same_partition_trans.
    + exists i, b. split; [split; [|split]|done].
      * by rewrite lookup_app_l.
      * rewrite take_app_le by lia. exact Hearlier.
      * rewrite drop_app_le by lia. intros y' [Hy'|Hy']%elem_of_app.
        -- by apply Hlater.
        -- apply list_elem_of_singleton in Hy' as ->. exact Hx.
  - assert (forall y, y ∈ l -> Frame.same_partition w y r0 = false) as Hnone.
    { intros y Hy%list_elem_of_In.
      destruct (Frame.same_partition w y r0) eqn:Hyr0; [|done].
      assert (existsb (fun y => Frame.same_partition w y r0) l = true) as Hex
        by (apply existsb_exists; eauto).
      congruence. }
    apply elem_of_app in Hin as [Hin|Hin].
    { specialize (Hnone r0 Hin). by rewrite same_partition_refl in Hnone. }
    apply list_elem_of_singleton in Hin as ->.
    exists (length l), x. split; [split; [|split]|].
    + by rewrite lookup_app_r, Nat.sub_diag.
    + rewrite take_app_length. intros y' Hy'.
      unfold Frame.earlier_before. by rewrite (Hnone y' Hy').
    + rewrite drop_ge by (rewrite length_app; simpl; lia).
      intros y' Hy'. by apply elem_of_nil in Hy'.
    + apply same_partition_refl.
Qed.

Lemma numbered_one_unique (w : Frame.WindowSpec) (l : list Row)
    (i j : nat) (a b : Row) :
  numbered_one w l i a -> numbered_one w l j b ->
  Frame.same_partition w a b = true -> i = j.
Proof.
  assert (forall i j a b,
            numbered_one w l i a -> numbered_one w l j b ->
            Frame.same_partition w a b = true -> ~ i < j) as Hlt.
  { clear. intros i j a b (Ha & _ & Hlater) (Hb & Hearlier & _) Hab Hij.
    assert (a ∈ take j l) as Hain.
    { apply list_elem_of_lookup. exists i. by rewrite lookup_take_lt. }
    assert (b ∈ drop (S i) l) as Hbin.
    { apply list_elem_of_lookup. exists (j - S i).
      rewrite lookup_drop. by replace (S i + (j - S i)) with j by lia. }
    specialize (Hearlier a Hain). specialize (Hlater b Hbin).
    unfold Frame.earlier_before in Hearlier. unfold Frame.later_before in Hlater.
    rewrite Hab in Hearlier. rewrite same_partition_sym, Hab in Hlater.
    simpl in *.
    destruct (Frame.row_compare (Frame.orderBy w) a b) eqn:Hcmp; [done|done|].
    apply row_compare_gt_lt in Hcmp. by rewrite Hcmp in Hlater. }
  intros Ha Hb Hab.
  destruct (Nat.lt_trichotomy i j) as [Hij|[Heq|Hji]]; [|done|].
  - by destruct (Hlt i j a b).
  - rewrite same_partition_sym in Hab. by destruct (Hlt j i b a).
Qed.

Lemma numbered_one_first (w : Frame.WindowSpec) (l : list Row) (i : nat) (b x : Row) :
  numbered_one w l i b -> x ∈ l -> Frame.same_partition w x b = true ->
  Frame.row_compare (Frame.orderBy w) x b <> Lt.
Proof.
  intros (Hb & Hearlier & Hlater) Hx Hxb.
  rewrite <- (take_drop_middle l i b Hb) in Hx.
  apply elem_of_app in Hx as [Hx|Hx].
  - specialize (Hearlier x Hx). unfold Frame.earlier_before in Hearlier.
    rewrite Hxb in Hearlier. simpl in Hearlier.
    by destruct (Frame.row_compare (Frame.orderBy w) x b).
  - apply elem_of_cons in Hx as [->|Hx].
    + by rewrite row_compare_refl.
    + specialize (Hlater x Hx). unfold Frame.later_before in Hlater.
      rewrite Hxb in Hlater. simpl in Hlater.
      by destruct (Frame.row_compare (Frame.orderBy w) x b).
Qed.

Lemma sort_column_map (descending : bool) (l : list string) :
  map Frame.sort_column
    (map (fun c => if descending then Frame.Desc c else Frame.Asc c) l) = l.
Proof.
  rewrite map_map. induction l as [|c l IH]; [done|]. simpl.
  rewrite IH. by destruct descending.
Qed.

Definition event (id ts : Z) : Row := <["id" := CInt id]> (<["ts" := CInt ts]> ∅).

Definition example_events : Frame.t := Frame.mk ["id"; "ts"] [event 1 1; event 1 2].

(** C3, as stated, at its own example: with [subset=["id"]],
    [keep="last"], [order_by=["ts"]] and the default [order_desc=True]
    the order is ascending in [ts], and the row kept is the one with
    [ts=1], not the one with [ts=2]. *)
Lemma deduplicate_last_keeps_lowest :
  DeduplicateRows.transform
    (DeduplicateRows.mk (Some ["id"]) "last" (Some ["ts"]) true) example_events =
    Ok (Frame.mk ["id"; "ts"] [event 1 1]) /\
  DeduplicateRows.transform
    (DeduplicateRows.mk (Some ["id"]) "last" (Some ["ts"]) true) example_events <>
    Ok (Frame.mk ["id"; "ts"] [event 1 2]).
Proof.
  assert (DeduplicateRows.transform
            (DeduplicateRows.mk (Some ["id"]) "last" (Some ["ts"]) true)
            example_events = Ok (Frame.mk ["id"; "ts"] [event 1 1])) as Hrun
    by (vm_compute; reflexivity).
  split; [exact Hrun|].
  rewrite Hrun. intros Heq.
  apply (f_equal (fun res : Res Frame.t =>
                    match res with
                    | Ok f => map (fun r : Row => r !! "ts") (Frame.rows f)
                    | Raise _ => []
                    end)) in Heq.
  vm_compute in Heq. discriminate.
Qed.

(** C3 (amended): with ordering columns and [keep] first or last, the
    rows are partitioned by the subset (by all columns without one) and
    numbered within each partition in the order of the ordering columns,
    descending when [keep="first"] and [order_desc] has its default, the
    direction reversed when [keep="last"]; exactly one row of every
    partition is numbered 1, no row of its partition sorts before it, and
    the rows numbered 1 are the rows kept.  On the two rows (id=1,ts=1)
    and (id=1,ts=2), [subset=["id"]], [keep="last"], [order_by=["ts"]]
    keeps the row with ts=1; [keep="first"] keeps the row with ts=2. *)
Theorem deduplicate_keeps_rank_one
    (self : DeduplicateRows.t) (df : Frame.t) (c : string) (cols : list string) :
  DeduplicateRows.order_by self = Some (c :: cols) ->
  DeduplicateRows.keep self = "first" \/ DeduplicateRows.keep self = "last" ->
  let descending :=
    if String.eqb (DeduplicateRows.keep self) "last"
    then negb (DeduplicateRows.order_desc self)
    else DeduplicateRows.order_desc self in
  let w :=
    Frame.mkWindow
      match DeduplicateRows.subset self with
      | Some (s :: l) => s :: l
      | _ => Frame.columns df
      end
      (map (fun c => if descending then Frame.Desc c else Frame.Asc c) (c :: cols)) in
  Forall (fun c => c ∈ Frame.columns df) (Frame.partitionBy w ++ c :: cols) ->
  let numbered := Frame.row_numbers w [] (Frame.rows df) in
  DeduplicateRows.transform self df =
    Ok (Frame.mk
          (List.filter (fun c => negb (String.eqb c "_row_num")) (Frame.columns df))
          (rank_one "_row_num" numbered)) /\
  (forall r0, r0 ∈ Frame.rows df ->
     exists i r1,
       numbered !! i = Some (r1, 1) /\
       Frame.same_partition w r1 r0 = true /\
       forall j r2,
         numbered !! j = Some (r2, 1) ->
         Frame.same_partition w r2 r0 = true -> j = i) /\
  (forall i r1 x,
     numbered !! i = Some (r1, 1) ->
     x ∈ Frame.rows df -> Frame.same_partition w x r1 = true ->
     Frame.row_compare (Frame.orderBy w) x r1 <> Lt) /\
  (DeduplicateRows.order_desc self = true ->
     Frame.orderBy w =
     if String.eqb (DeduplicateRows.keep self) "last"
     then map Frame.Asc (c :: cols) else map Frame.Desc (c :: cols)) /\
  DeduplicateRows.transform self df =
    DeduplicateRows.transform
      (DeduplicateRows.mk (DeduplicateRows.subset self) "first"
         (DeduplicateRows.order_by self) descending) df /\
  DeduplicateRows.transform
    (DeduplicateRows.mk (Some ["id"]) "last" (Some ["ts"]) true) example_events =
    Ok (Frame.mk ["id"; "ts"] [event 1 1]) /\
  DeduplicateRows.transform
    (DeduplicateRows.mk (Some ["id"]) "first" (Some ["ts"]) true) example_events =
    Ok (Frame.mk ["id"; "ts"] [event 1 2]).
Proof.
  intros Horder Hkeep descending w Hcols numbered.
  assert (forall self',
            DeduplicateRows.order_by self' = Some (c :: cols) ->
            DeduplicateRows.subset self' = DeduplicateRows.subset self ->
            (DeduplicateRows.keep self' = "first" \/
             DeduplicateRows.keep self' = "last") ->
            (if String.eqb (DeduplicateRows.keep self') "last"
             then negb (DeduplicateRows.order_desc self')
             else DeduplicateRows.order_desc self') = descending ->
            DeduplicateRows.transform self' df =
            Ok (Frame.mk
                  (List.filter (fun c => negb (String.eqb c "_row_num"))
                     (Frame.columns df))
                  (rank_one "_row_num" numbered))) as Hrun.
  { intros self' Horder' Hsubset' Hkeep' Hdir'.
    unfold DeduplicateRows.transform. rewrite Horder'.
    assert (DeduplicateRows.order_cols self' (c :: cols) = Frame.orderBy w) as ->.
    { unfold DeduplicateRows.order_cols, w. cbn [Frame.orderBy].
      rewrite <- Hdir'.
      destruct (String.eqb (DeduplicateRows.keep self') "last");
        by destruct (DeduplicateRows.order_desc self'). }
    assert (DeduplicateRows.partition_cols self' df = Frame.partitionBy w) as ->.
    { unfold DeduplicateRows.partition_cols. by rewrite Hsubset'. }
    replace (Frame.mkWindow (Frame.partitionBy w) (Frame.orderBy w)) with w by done.
    assert (String.eqb (DeduplicateRows.keep self') "none" = false) as ->
      by (by destruct Hkeep' as [-> | ->]).
    assert (String.eqb (DeduplicateRows.keep self') "first"
            || String.eqb (DeduplicateRows.keep self') "last" = true) as ->
      by (by destruct Hkeep' as [-> | ->]).
    apply drop_filter_numbered.
    unfold w at 2. cbn [Frame.orderBy]. by rewrite sort_column_map. }
  repeat match goal with |- _ /\ _ => split end.
  - by apply Hrun.
  - intros r0 Hr0.
    destruct (numbered_one_exists w _ r0 Hr0) as (i & r1 & Hone & Hpart).
    exists i, r1. split; [by apply numbered_one_iff|]. split; [done|].
    intros j r2 Hj%numbered_one_iff Hpart2.
    apply (numbered_one_unique w _ j i r2 r1 Hj Hone).
    rewrite (same_partition_sym w r1 r0) in Hpart.
    by eapply same_partition_trans.
  - intros i r1 x Hi%numbered_one_iff Hx Hpart.
    by eapply numbered_one_first.
  - intros Hdesc. unfold w, descending. simpl. rewrite Hdesc.
    by destruct (String.eqb (DeduplicateRows.keep self) "last").
  - rewrite (Hrun self Horder eq_refl Hkeep eq_refl).
    symmetry. apply Hrun; simpl; auto.
  - vm_compute. reflexivity.
  - vm_compute. reflexivity.
Qed.

Lemma deduplicate_keeps_rank_one_witness :
  DeduplicateRows.transform
    (DeduplicateRows.mk (Some ["id"]) "last" (Some ["ts"]) true) example_events =
  DeduplicateRows.transform
    (DeduplicateRows.mk (Some ["id"]) "first" (Some ["ts"]) false) example_events.
Proof.
  assert (Forall (fun c => c ∈ ["id"; "ts"]) (["id"] ++ ["ts"])) as Hcols.
  { apply (bool_decide_unpack _). vm_compute. reflexivity. }
  exact (proj1 (proj2 (proj2 (proj2 (proj2
    (deduplicate_keeps_rank_one
       (DeduplicateRows.mk (Some ["id"]) "last" (Some ["ts"]) true)
       example_events "ts" [] eq_refl (or_intror eq_refl) Hcols)))))).
Defined.

(* ================================================================== *)
(** * Properties of datalib.utils.validators *)
(* ================================================================== *)

(** [check.get("type")] and [check.get("column")] *)
Abbreviation type_of check := (dict_get_default "type" VNone check).
Abbreviation column_of check := (dict_get_default "column" VNone check).

Section validators_facts.
Context `{FloatRepr} {W DataFrame : Type} `{!Platform W DataFrame}.

(** The [try] statement never lets an exception out. *)
Lemma evaluate_returns (df : DataFrame) (total_rows : nat) (check : Dict) (w : W) :
  exists check_result w',
    Validators.evaluate df total_rows check w = (Ok check_result, w').
Proof.
  unfold Validators.evaluate, try_except.
  destruct (Validators.try_body df total_rows check (type_of check)
              (column_of check) (w, Validators.new_check_result check))
    as [[[]|e] [w' partial]]; simpl; eauto.
Qed.

Lemma evaluate_caught (df : DataFrame) (total_rows : nat) (check : Dict)
    (w w' : W) (e : Exn) (partial : CheckResult.t) :
  Validators.try_body df total_rows check (type_of check) (column_of check)
    (w, Validators.new_check_result check) = (Raise e, (w', partial)) ->
  Validators.evaluate df total_rows check w =
    (Ok (CheckResult.set_passed false
           (CheckResult.set_message ("Check error: " +:+ exn_msg e) partial)),
     w').
Proof.
  intros Hbody. unfold Validators.evaluate, try_except. by rewrite Hbody.
Qed.

(** What the loop does with the outcome of a check. *)
Lemma check_step_outcome (df : DataFrame) (total_rows : nat)
    (fail_on_error : bool) (check : Dict) (w w' : W)
    (results : Results.t DataFrame) (check_result : CheckResult.t) :
  Validators.evaluate df total_rows check w = (Ok check_result, w') ->
  Validators.check_step df total_rows fail_on_error check (w, results) =
  if CheckResult.passed check_result then
    (Ok tt,
     (w', Results.mk (S (Results.passed results)) (Results.failed results)
            (Results.checks results ++ [check_result])
            (Results.validated_df results)))
  else if fail_on_error then
    (Raise (Validators.quality_check_failed check_result),
     (w', Results.mk (Results.passed results) (S (Results.failed results))
            (Results.checks results) (Results.validated_df results)))
  else
    (Ok tt,
     (w', Results.mk (Results.passed results) (S (Results.failed results))
            (Results.checks results ++ [check_result])
            (Results.validated_df results))).
Proof.
  intros Heval. unfold Validators.check_step, bind, zoom. simpl.
  rewrite Heval. simpl.
  destruct (CheckResult.passed check_result); [done|].
  by destruct fail_on_error.
Qed.

(** Without [fail_on_error] the loop reaches its end: every check is
    evaluated, counted once, and recorded. *)
Lemma loop_without_escalation (df : DataFrame) (total_rows : nat)
    (checks : list Dict) (w : W) (results : Results.t DataFrame) :
  exists w' results',
    for_each (Validators.check_step df total_rows false) checks (w, results) =
      (Ok tt, (w', results')) /\
    length (Results.checks results') =
      length (Results.checks results) + length checks /\
    Results.passed results' + Results.failed results' =
      Results.passed results + Results.failed results + length checks /\
    Results.validated_df results' = Results.validated_df results.
Proof.
  revert w results. induction checks as [|check checks IH]; intros w results.
  - exists w, results. simpl. repeat split; lia.
  - destruct (evaluate_returns df total_rows check w) as (cr & w1 & Heval).
    cbn [for_each]. unfold bind at 1.
    rewrite (check_step_outcome _ _ _ _ _ _ _ _ Heval).
    destruct (CheckResult.passed cr).
    + destruct (IH w1 (Results.mk (S (Results.passed results))
                         (Results.failed results)
                         (Results.checks results ++ [cr])
                         (Results.validated_df results)))
        as (w' & results' & Hrun & Hlen & Hsum & Hdf).
      exists w', results'. rewrite Hrun. simpl in *.
      rewrite length_app in Hlen. simpl in Hlen. repeat split; [lia|lia|done].
    + destruct (IH w1 (Results.mk (Results.passed results)
                         (S (Results.failed results))
                         (Results.checks results ++ [cr])
                         (Results.validated_df results)))
        as (w' & results' & Hrun & Hlen & Hsum & Hdf).
      exists w', results'. rewrite Hrun. simpl in *.
      rewrite length_app in Hlen. simpl in Hlen. repeat split; [lia|lia|done].
Qed.

(** A failed check under [fail_on_error] ends the run where it stands. *)
Lemma loop_escalates (df : DataFrame) (total_rows : nat)
    (pre post : list Dict) (check : Dict) (w0 w1 w2 : W)
    (start before : Results.t DataFrame) (check_result : CheckResult.t) :
  for_each (Validators.check_step df total_rows true) pre (w0, start) =
    (Ok tt, (w1, before)) ->
  Validators.evaluate df total_rows check w1 = (Ok check_result, w2) ->
  CheckResult.passed check_result = false ->
  for_each (Validators.check_step df total_rows true) (pre ++ check :: post)
    (w0, start) =
  (Raise (Validators.quality_check_failed check_result),
   (w2, Results.mk (Results.passed before) (S (Results.failed before))
          (Results.checks before) (Results.validated_df before))).
Proof.
  intros Hpre Heval Hfailed.
  rewrite for_each_app, Hpre. cbn [for_each]. unfold bind at 1.
  by rewrite (check_step_outcome _ _ _ _ _ _ _ _ Heval), Hfailed.
Qed.

(** The message left by a check of unknown type: the diagnostic of the
    last branch, unless the comparison of a threshold that is not a
    number has raised. *)
Definition unknown_type_message (check : Dict) : string :=
  let threshold := dict_get_default "threshold" (VInt 0) check in
  match as_number threshold with
  | Some _ => "Unknown check type: " +:+ py_str (type_of check)
  | None => "Check error: " +:+ exn_msg (not_supported ">" (type_name threshold) "int")
  end.

Lemma is_str_other (v : Value) (s : string) (l : list string) :
  v ∉ map VStr l -> s ∈ l -> Validators.is_str v s = false.
Proof.
  intros Hv Hs. destruct v; try done. simpl.
  destruct (String.eqb_spec s0 s) as [->|]; [|done].
  exfalso. apply Hv. apply list_elem_of_In, in_map, list_elem_of_In, Hs.
Qed.

Lemma evaluate_unknown_type (df : DataFrame) (total_rows : nat) (check : Dict)
    (w : W) :
  type_of check ∉ map VStr Validators.known_types ->
  Validators.evaluate df total_rows check w =
    (Ok (CheckResult.mk (Validators.check_name_of check) (type_of check)
           (column_of check) false 0 (unknown_type_message check)), w).
Proof.
  intros Hunknown.
  unfold Validators.evaluate, try_except, Validators.try_body, Validators.dispatch.
  rewrite !(is_str_other _ _ _ Hunknown)
    by (apply (bool_decide_unpack _); vm_compute; reflexivity).
  unfold Validators.apply_threshold, unknown_type_message, py_gt_int.
  destruct (as_number (dict_get_default "threshold" (VInt 0) check)) as [limit|].
  - unfold bind, Validators.update, modify, lift_res, gets. simpl.
    rewrite andb_false_r. reflexivity.
  - reflexivity.
Qed.
End validators_facts.

Section validators_theorems.
Context `{FloatRepr} {W DataFrame : Type} `{!Platform W DataFrame}.

(** C1 (amended): a check whose type tag is none of the seven known ones
    records zero failures and a diagnostic message without touching the
    platform, and its [passed] flag keeps the initial [False].  The check
    is therefore counted as failed: when the run reaches it, it raises
    the [ValidationError] of that check under [fail_on_error], and
    otherwise goes on with the failed counter incremented and the passed
    counter unchanged. *)
Theorem unknown_check_type_fails
    (df : DataFrame) (pre post : list Dict) (check : Dict)
    (fail_on_error : bool) (w w0 w1 : W) (total_rows : nat)
    (before : Results.t DataFrame) :
  type_of check ∉ map VStr Validators.known_types ->
  df_count df w = (Ok total_rows, w0) ->
  for_each (Validators.check_step df total_rows fail_on_error) pre
    (w0, Results.mk 0 0 [] df) = (Ok tt, (w1, before)) ->
  let check_result :=
    CheckResult.mk (Validators.check_name_of check) (type_of check)
      (column_of check) false 0 (unknown_type_message check) in
  Validators.evaluate df total_rows check w1 = (Ok check_result, w1) /\
  (fail_on_error = true ->
     Validators.run_quality_checks df (pre ++ check :: post) true w =
       (Raise (Validators.quality_check_failed check_result), w1)) /\
  (fail_on_error = false ->
     Validators.run_quality_checks df (pre ++ check :: post) false w =
       let '(r, (w', results)) :=
         for_each (Validators.check_step df total_rows false) post
           (w1, Results.mk (Results.passed before) (S (Results.failed before))
                  (Results.checks before ++ [check_result])
                  (Results.validated_df before)) in
       (res_map (fun _ => results) r, w')).
Proof.
  intros Hunknown Hcount Hpre check_result.
  pose proof (evaluate_unknown_type df total_rows check w1 Hunknown) as Heval.
  split; [exact Heval|]. split.
  - intros ->. unfold Validators.run_quality_checks. rewrite Hcount.
    by rewrite (loop_escalates _ _ _ _ _ _ _ _ _ _ _ Hpre Heval eq_refl).
  - intros ->. unfold Validators.run_quality_checks. rewrite Hcount.
    rewrite for_each_app, Hpre. cbn [for_each]. unfold bind at 1.
    by rewrite (check_step_outcome _ _ _ _ _ _ _ _ Heval).
Qed.

(** C7: an exception raised inside the [try] block of a check is caught
    and the check is recorded as failed with the message of the
    exception; without [fail_on_error] the run evaluates every check of
    the list and returns; with [fail_on_error], the first check that
    fails raises a [ValidationError] made of its name and its message,
    in the world reached right after that check: the checks after it are
    not evaluated, and the run is the same whatever they are. *)
Theorem quality_checks_isolate_and_escalate
    (df : DataFrame) (pre post : list Dict) (check : Dict)
    (w w0 w1 w2 : W) (total_rows : nat)
    (before : Results.t DataFrame) (check_result : CheckResult.t) :
  df_count df w = (Ok total_rows, w0) ->
  for_each (Validators.check_step df total_rows true) pre
    (w0, Results.mk 0 0 [] df) = (Ok tt, (w1, before)) ->
  Validators.evaluate df total_rows check w1 = (Ok check_result, w2) ->
  CheckResult.passed check_result = false ->
  (forall wa wb e partial,
     Validators.try_body df total_rows check (type_of check) (column_of check)
       (wa, Validators.new_check_result check) = (Raise e, (wb, partial)) ->
     exists recorded,
       Validators.evaluate df total_rows check wa = (Ok recorded, wb) /\
       CheckResult.passed recorded = false /\
       CheckResult.message recorded = "Check error: " +:+ exn_msg e) /\
  (forall checks, exists results w',
     Validators.run_quality_checks df checks false w = (Ok results, w') /\
     length (Results.checks results) = length checks /\
     Results.passed results + Results.failed results = length checks) /\
  Validators.run_quality_checks df (pre ++ check :: post) true w =
    (Raise (exn ValidationError
              ("Quality check failed: " +:+ py_str (CheckResult.name check_result) +:+
               " - " +:+ CheckResult.message check_result)), w2) /\
  Validators.run_quality_checks df (pre ++ check :: post) true w =
    Validators.run_quality_checks df (pre ++ [check]) true w.
Proof.
  intros Hcount Hpre Heval Hfailed.
  assert (forall rest,
            Validators.run_quality_checks df (pre ++ check :: rest) true w =
            (Raise (Validators.quality_check_failed check_result), w2)) as Hrun.
  { intros rest. unfold Validators.run_quality_checks. rewrite Hcount.
    by rewrite (loop_escalates _ _ _ _ _ _ _ _ _ _ _ Hpre Heval Hfailed). }
  repeat match goal with |- _ /\ _ => split end.
  - intros wa wb e partial Hbody. eexists. split.
    + by apply evaluate_caught.
    + done.
  - intros checks. unfold Validators.run_quality_checks. rewrite Hcount.
    destruct (loop_without_escalation df total_rows checks w0 (Results.mk 0 0 [] df))
      as (w' & results & Hloop & Hlen & Hsum & _).
    exists results, w'. rewrite Hloop. simpl in *. repeat split; lia.
  - apply Hrun.
  - by rewrite (Hrun post), (Hrun []).
Qed.
End validators_theorems.

(** ** On the recording platform *)

Definition person (id : Z) (name : Cell) : Row :=
  <["id" := CInt id]> (<["name" := name]> ∅).

Definition example_people : Frame.t :=
  Frame.mk ["id"; "name"]
    [person 1 (CStr "ada"); person 2 CNull; person 3 (CStr "grace")].

Definition check_bogus : Dict := [("type", VStr "bogus"); ("column", VStr "id")].
Definition check_not_null (column : string) : Dict :=
  [("type", VStr "not_null"); ("column", VStr column)].
Definition check_unique (column : string) : Dict :=
  [("type", VStr "unique"); ("column", VStr column)].

Definition bogus_result : CheckResult.t :=
  CheckResult.mk (VStr "bogus_id") (VStr "bogus") (VStr "id") false 0
    "Unknown check type: bogus".

(** C1, as stated, on a list with the one check [{type: bogus, column:
    id}]: the check is counted as failed, not as passed, and with
    [fail_on_error] it raises. *)
Lemma unknown_check_type_counted_failed :
  Validators.run_quality_checks example_people [check_bogus] false Mock.empty =
    (Ok (Results.mk 0 1 [bogus_result] example_people), Mock.empty) /\
  Validators.run_quality_checks example_people [check_bogus] true Mock.empty =
    (Raise (exn ValidationError
              "Quality check failed: bogus_id - Unknown check type: bogus"),
     Mock.empty).
Proof. split; vm_compute; reflexivity. Qed.

Lemma unknown_check_type_fails_witness :
  Validators.run_quality_checks example_people
    ([check_not_null "id"] ++ check_bogus :: [check_not_null "name"]) true
    Mock.empty =
  (Raise (exn ValidationError
            "Quality check failed: bogus_id - Unknown check type: bogus"),
   Mock.empty).
Proof.
  assert (type_of check_bogus ∉ map VStr Validators.known_types) as Hunknown.
  { intros Hin. simpl in Hin.
    repeat (apply elem_of_cons in Hin as [Hin|Hin]; [discriminate|]).
    by apply elem_of_nil in Hin. }
  exact (proj1 (proj2
    (unknown_check_type_fails example_people [check_not_null "id"]
       [check_not_null "name"] check_bogus true Mock.empty Mock.empty Mock.empty
       3 _ Hunknown eq_refl eq_refl)) eq_refl).
Defined.

Lemma quality_checks_isolate_and_escalate_witness :
  Validators.run_quality_checks example_people
    ([check_not_null "id"] ++ check_unique "id" :: [check_not_null "name"]) true
    Mock.empty =
  (Raise (exn ValidationError
            ("Quality check failed: unique_id - " +:+
             "Check error: expression not supported by the mock")),
   Mock.empty).
Proof.
  exact (proj1 (proj2 (proj2
    (quality_checks_isolate_and_escalate example_people [check_not_null "id"]
       [check_not_null "name"] (check_unique "id")
       Mock.empty Mock.empty Mock.empty Mock.empty 3 _ _
       eq_refl eq_refl eq_refl eq_refl)))).
Defined.

(* ================================================================== *)
(** * Properties of datalib.io.writer *)
(* ================================================================== *)

(** ** What a write does to the [TargetConfig] it is given *)

Section target_frame.
Context {W : Type}.

(** [m] takes a target [t] to a target related to it by [P]. *)
Definition target_moves (P : TargetConfig.t -> TargetConfig.t -> Prop) {A}
    (m : M (W * TargetConfig.t) A) : Prop :=
  forall s, P s.2 (m s).2.2.

Context (P : TargetConfig.t -> TargetConfig.t -> Prop).
Context (P_refl : forall t, P t t).
Context (P_trans : forall t1 t2 t3, P t1 t2 -> P t2 t3 -> P t1 t3).

Lemma moves_ret {A} (a : A) : target_moves P (ret a).
Proof using P_refl. intros s. apply P_refl. Qed.

Lemma moves_raise {A} (e : Exn) : target_moves P (raise (A := A) e).
Proof using P_refl. intros s. apply P_refl. Qed.

Lemma moves_lift_res {A} (r : Res A) : target_moves P (lift_res r).
Proof using P_refl. intros s. apply P_refl. Qed.

Lemma moves_gets {A} (f : W * TargetConfig.t -> A) : target_moves P (gets f).
Proof using P_refl. intros s. apply P_refl. Qed.

Lemma moves_zoom_world {A} (m : M W A) :
  target_moves P (zoom fst (fun w s => (w, s.2)) m).
Proof using P_refl.
  intros [w t]. unfold zoom. simpl. destruct (m w). apply P_refl.
Qed.

Lemma moves_bind {A B} (m : M (W * TargetConfig.t) A)
    (k : A -> M (W * TargetConfig.t) B) :
  target_moves P m -> (forall a, target_moves P (k a)) ->
  target_moves P (bind m k).
Proof using P_refl P_trans.
  intros Hm Hk s. unfold bind. specialize (Hm s).
  destruct (m s) as [[a|e] s']; simpl in *; [|done].
  eapply P_trans; [exact Hm|apply Hk].
Qed.

Lemma moves_try_except {A} (m : M (W * TargetConfig.t) A)
    (h : Exn -> M (W * TargetConfig.t) A) :
  target_moves P m -> (forall e, target_moves P (h e)) ->
  target_moves P (try_except m h).
Proof using P_refl P_trans.
  intros Hm Hh s. unfold try_except. specialize (Hm s).
  destruct (m s) as [[a|e] s']; simpl in *; [done|].
  eapply P_trans; [exact Hm|apply Hh].
Qed.
End target_frame.

(** A target as it was, or with its mode set to ["overwrite"]. *)
Definition same_or_overwrite (t t' : TargetConfig.t) : Prop :=
  t' = t \/ t' = TargetConfig.set_mode "overwrite" t.

Lemma same_or_overwrite_refl (t : TargetConfig.t) : same_or_overwrite t t.
Proof. by left. Qed.

Lemma same_or_overwrite_trans (t1 t2 t3 : TargetConfig.t) :
  same_or_overwrite t1 t2 -> same_or_overwrite t2 t3 -> same_or_overwrite t1 t3.
Proof.
  intros [->| ->] [->| ->]; [by left|by right|by right|by right].
Qed.

Ltac frame_side :=
  solve [ done
        | intros; congruence
        | apply same_or_overwrite_refl
        | apply same_or_overwrite_trans ].

Create HintDb target_frame discriminated.

Ltac target_moves :=
  repeat first
    [ solve [auto 3 with target_frame nocore]
    | apply moves_ret; [frame_side..]
    | apply moves_raise; [frame_side..]
    | apply moves_lift_res; [frame_side..]
    | apply moves_gets; [frame_side..]
    | apply moves_zoom_world; [frame_side..]
    | apply moves_bind; [frame_side..| |intros ?]
    | apply moves_try_except; [frame_side..| |intros ?]
    | match goal with
      | |- target_moves _ (match ?x with _ => _ end) => destruct x
      | |- target_moves _ (if ?b then _ else _) => destruct b
      end ].

Section writer_frame.
Context `{FloatRepr} {W DataFrame : Type} `{!Platform W DataFrame}.

Lemma optimize_table_keeps_target :
  target_moves (W := W) eq DataWriter._optimize_table.
Proof.
  unfold DataWriter._optimize_table, DataWriter.target, DataWriter.spark.
  target_moves.
Qed.
#[local] Hint Resolve optimize_table_keeps_target : target_frame.

Lemma write_overwrite_keeps_target (df : DataFrame) :
  target_moves (W := W) eq (DataWriter._write_overwrite df).
Proof.
  unfold DataWriter._write_overwrite, DataWriter.target, DataWriter.spark.
  target_moves.
Qed.
#[local] Hint Resolve write_overwrite_keeps_target : target_frame.

Lemma write_append_keeps_target (df : DataFrame) :
  target_moves (W := W) eq (DataWriter._write_append df).
Proof.
  unfold DataWriter._write_append, DataWriter.target, DataWriter.spark.
  target_moves.
Qed.
#[local] Hint Resolve write_append_keeps_target : target_frame.

Lemma write_merge_keeps_target (df : DataFrame) :
  target_moves (W := W) eq (DataWriter._write_merge df).
Proof.
  unfold DataWriter._write_merge, DataWriter.target, DataWriter.spark.
  target_moves.
Qed.
#[local] Hint Resolve write_merge_keeps_target : target_frame.

Lemma moves_weaken {A} (m : M (W * TargetConfig.t) A) :
  target_moves eq m -> target_moves same_or_overwrite m.
Proof. intros Hm s. left. symmetry. apply Hm. Qed.
#[local] Hint Resolve moves_weaken : target_frame.

Lemma write_scd2_moves_target (df : DataFrame) :
  target_moves (W := W) same_or_overwrite (DataWriter._write_scd2 df).
Proof.
  unfold DataWriter._write_scd2, DataWriter.target, DataWriter.spark.
  target_moves. intros st. by right.
Qed.
#[local] Hint Resolve write_scd2_moves_target : target_frame.

(** The only thing [write] ever does to the target it is given: in mode
    scd2 it may set the mode to ["overwrite"]. *)
Lemma write_moves_target (df : DataFrame) (w : W) (t : TargetConfig.t) :
  let t' := (DataWriter.write df (w, t)).2.2 in
  t' = t \/
  (SparkFn.map_chars SparkFn.lower_char (TargetConfig.mode t) = "scd2" /\
   t' = TargetConfig.set_mode "overwrite" t).
Proof.
  pose proof same_or_overwrite_refl as Hrefl.
  pose proof same_or_overwrite_trans as Htrans.
  set (mode := SparkFn.map_chars SparkFn.lower_char (TargetConfig.mode t)).
  destruct (String.eqb_spec mode "scd2") as [Hscd2|Hother].
  - assert (target_moves (W := W) same_or_overwrite (DataWriter.write df)) as Hm.
    { unfold DataWriter.write, DataWriter._ensure_schema_exists,
        DataWriter.target, DataWriter.spark.
      target_moves. }
    destruct (Hm (w, t)) as [Heq|Heq]; [by left|right; by split].
  - left.
    unfold DataWriter.write, DataWriter.target, bind at 1, gets. simpl.
    fold mode. apply eq_sym.
    assert (target_moves (W := W) eq
              (try_except
                 (DataWriter._ensure_schema_exists ;;;
                  if String.eqb mode "overwrite" then DataWriter._write_overwrite df
                  else if String.eqb mode "append" then DataWriter._write_append df
                  else if String.eqb mode "merge" then DataWriter._write_merge df
                  else if String.eqb mode "scd2" then DataWriter._write_scd2 df
                  else raise (exn DataWriterError ("Unknown write mode: " +:+ mode)))%monad
                 (fun e => t' <- DataWriter.target ;;
                           raise (DataWriter.failed_to_write t' e))%monad)) as Hm.
    { destruct (String.eqb_spec mode "scd2") as [|_]; [done|].
      unfold DataWriter._ensure_schema_exists, DataWriter.target, DataWriter.spark.
      target_moves. }
    apply (Hm (w, t)).
Qed.
End writer_frame.

(** ** [_write_merge] *)

Section merge_facts.

Definition from_source_entry (c : string) : Value * Assignment :=
  (VStr c, SqlText ("source." +:+ c)).

Lemma key_set_from_source (c : string) (d : list (Value * Assignment)) :
  (forall x, x ∈ d -> exists c', x = from_source_entry c') ->
  forall x, x ∈ key_set (VStr c) (SqlText ("source." +:+ c)) d <->
            x ∈ d \/ x = from_source_entry c.
Proof.
  induction d as [|[k v] d IH]; intros Hform x.
  - simpl. rewrite list_elem_of_singleton. split; [by right|].
    intros [Hx|Hx]; [by apply elem_of_nil in Hx|done].
  - destruct (Hform (k, v)) as (c' & Hkv); [left|].
    injection Hkv as -> ->. simpl.
    destruct (String.eqb_spec c c') as [->|Hne].
    + split; [by left|]. intros [Hx|Hx]; [done|]. subst x. left.
    + rewrite !elem_of_cons, IH.
      * tauto.
      * intros y Hy. apply Hform. by right.
Qed.

Lemma py_dict_from_source (cols : list string) (d : list (Value * Assignment)) :
  (forall x, x ∈ d -> exists c', x = from_source_entry c') ->
  exists d',
    py_dict_from d (map from_source_entry cols) = Ok d' /\
    forall x, x ∈ d' <-> x ∈ d \/ exists c, c ∈ cols /\ x = from_source_entry c.
Proof.
  revert d. induction cols as [|c cols IH]; intros d Hform.
  - exists d. split; [done|]. intros x. split; [by left|].
    intros [Hx|(c & Hc & _)]; [done|by apply elem_of_nil in Hc].
  - simpl.
    destruct (IH (key_set (VStr c) (SqlText ("source." +:+ c)) d))
      as (d' & Hd' & Hin).
    { intros x [Hx|Hx]%key_set_from_source; [by apply Hform|by exists c|done]. }
    exists d'. split; [done|]. intros x. rewrite Hin, key_set_from_source by done.
    split.
    + intros [[Hx|Hx]|(c' & Hc' & Hx)].
      * by left.
      * right. exists c. split; [left|done].
      * right. exists c'. split; [by right|done].
    + intros [Hx|(c' & [->|Hc']%elem_of_cons & Hx)].
      * left. by left.
      * left. by right.
      * right. by exists c'.
Qed.

Lemma from_source_entries (cols : list string) :
  exists d,
    DataWriter.from_source cols = Ok d /\
    forall x, x ∈ d <-> exists c, c ∈ cols /\ x = from_source_entry c.
Proof.
  destruct (py_dict_from_source cols []) as (d & Hd & Hin).
  { intros x Hx. by apply elem_of_nil in Hx. }
  exists d. split; [exact Hd|]. intros x. rewrite Hin. split.
  - intros [Hx|Hx]; [by apply elem_of_nil in Hx|done].
  - by right.
Qed.
End merge_facts.

Section merge_theorem.
Context `{FloatRepr} {W DataFrame : Type} `{!Platform W DataFrame}.

(** [_write_merge] up to the answer of the catalog. *)
Lemma write_merge_asks_catalog (df : DataFrame) (w : W) (t : TargetConfig.t) :
  TargetConfig.merge_keys t <> [] ->
  DataWriter._write_merge df (w, t) =
    match
      catalog_tableExists
        (TargetConfig.catalog t +:+ "." +:+ TargetConfig.schema t +:+ "." +:+
         TargetConfig.table t) w
    with
    | (Ok true, w1) =>
        (update_set <-
           lift_res (DataWriter.from_source
                       (List.filter (DataWriter.not_in (TargetConfig.merge_keys t))
                          (df_columns df))) ;;
         insert_values <- lift_res (DataWriter.from_source (df_columns df)) ;;
         DataWriter.spark (delta_forName (TargetConfig.get_full_table_name t)) ;;;
         DataWriter.spark
           (merge_execute
              (mkDeltaMerge (TargetConfig.get_full_table_name t) df
                 (String.concat " AND "
                    (map (fun key => "target." +:+ key +:+ " = source." +:+ key)
                       (TargetConfig.merge_keys t)))
                 (Some (None, update_set)) (Some insert_values))) ;;;
         DataWriter.spark (df_count df))%monad (w1, t)
    | (_, w1) => DataWriter._write_overwrite df (w1, t)
    end.
Proof.
  intros Hkeys.
  unfold DataWriter._write_merge, DataWriter.target, bind at 1, gets. simpl.
  destruct (TargetConfig.merge_keys t) as [|k ks] eqn:Hk; [done|].
  unfold bind at 1, DataWriter.spark at 1, zoom, DataWriter.table_exists, try_except.
  simpl.
  destruct (catalog_tableExists _ w) as [[[]|e] w1]; reflexivity.
Qed.

Lemma write_overwrite_unfolded (df : DataFrame) (w : W) (t : TargetConfig.t) :
  DataWriter._write_overwrite df (w, t) =
    (record_count <- DataWriter.spark (df_count df) ;;
     DataWriter.spark
       (writer_saveAsTable
          (mkDataFrameWriter df (TargetConfig.format t) "overwrite"
             (TargetConfig.options t)
             match TargetConfig.partition_by t with
             | [] => None
             | cols => Some cols
             end)
          (TargetConfig.get_full_table_name t)) ;;;
     DataWriter._optimize_table ;;;
     ret record_count)%monad (w, t).
Proof. reflexivity. Qed.

Lemma write_overwrite_returns_count (df : DataFrame) (w : W) (t : TargetConfig.t)
    (n : nat) (s : W * TargetConfig.t) :
  DataWriter._write_overwrite df (w, t) = (Ok n, s) ->
  exists w2, df_count df w = (Ok n, w2).
Proof.
  unfold DataWriter._write_overwrite, DataWriter.target, bind at 1, gets.
  simpl. unfold bind at 1, DataWriter.spark at 1, zoom. simpl.
  destruct (df_count df w) as [[m|e] w2]; simpl; [|done].
  intros Hrun. exists w2. unfold bind in Hrun.
  destruct (DataWriter.spark _ (w2, t)) as [[[]|e1] st1]; [|done].
  destruct (DataWriter._optimize_table st1) as [[[]|e2] st2]; [|done].
  unfold ret in Hrun. by injection Hrun as -> _.
Qed.

(** C8: without merge keys a merge-mode write raises a
    [DataWriterError] (from [_write_merge], and wrapped by [write]),
    and nothing has been asked of Spark by [_write_merge].  With merge
    keys, the catalog is asked whether [catalog.schema.table] exists.
    If it answers no (or fails), the write is the overwrite of the
    source frame: the frame itself is saved under the name of the
    target with mode ["overwrite"], and what is returned is the row
    count of the source frame.  If it answers yes, the write executes
    one Delta merge of the source frame into the target table, on the
    condition [target.k = source.k] for every merge key [k], joined by
    [" AND "]; its matched branch sets every column of the source frame
    that is not a merge key from the source, its not-matched branch
    inserts every column of the source frame; and what is returned is
    the row count of the source frame, taken after the merge. *)
Theorem merge_write_bootstraps_or_upserts
    (df : DataFrame) (w : W) (t : TargetConfig.t) :
  let table_name := TargetConfig.get_full_table_name t in
  let asked :=
    catalog_tableExists
      (TargetConfig.catalog t +:+ "." +:+ TargetConfig.schema t +:+ "." +:+
       TargetConfig.table t) w in
  let bootstrap (w1 : W) :=
    DataWriter._write_merge df (w, t) =
      (record_count <- DataWriter.spark (df_count df) ;;
       DataWriter.spark
         (writer_saveAsTable
            (mkDataFrameWriter df (TargetConfig.format t) "overwrite"
               (TargetConfig.options t)
               match TargetConfig.partition_by t with
               | [] => None
               | cols => Some cols
               end)
            table_name) ;;;
       DataWriter._optimize_table ;;;
       ret record_count)%monad (w1, t) /\
    DataWriter._write_merge df (w, t) = DataWriter._write_overwrite df (w1, t) /\
    forall n s, DataWriter._write_merge df (w, t) = (Ok n, s) ->
      exists w2, df_count df w1 = (Ok n, w2) in
  (TargetConfig.merge_keys t = [] ->
     DataWriter._write_merge df (w, t) =
       (Raise (exn DataWriterError "Merge mode requires merge_keys in configuration"),
        (w, t)) /\
     (SparkFn.map_chars SparkFn.lower_char (TargetConfig.mode t) = "merge" ->
      exists e s, DataWriter.write df (w, t) = (Raise e, s) /\
                  exn_class e = DataWriterError)) /\
  (TargetConfig.merge_keys t <> [] ->
     (forall w1, asked = (Ok false, w1) -> bootstrap w1) /\
     (forall e w1, asked = (Raise e, w1) -> bootstrap w1) /\
     (forall w1, asked = (Ok true, w1) ->
        exists update_set insert_values,
          (forall x, x ∈ update_set <->
             exists c, c ∈ df_columns df /\ (c ∉ TargetConfig.merge_keys t) /\
                       x = (VStr c, SqlText ("source." +:+ c))) /\
          (forall x, x ∈ insert_values <->
             exists c, c ∈ df_columns df /\
                       x = (VStr c, SqlText ("source." +:+ c))) /\
          let merge :=
            mkDeltaMerge table_name df
              (String.concat " AND "
                 (map (fun key => "target." +:+ key +:+ " = source." +:+ key)
                    (TargetConfig.merge_keys t)))
              (Some (None, update_set)) (Some insert_values) in
          DataWriter._write_merge df (w, t) =
            (DataWriter.spark (delta_forName table_name) ;;;
             DataWriter.spark (merge_execute merge) ;;;
             DataWriter.spark (df_count df))%monad (w1, t) /\
          forall n s, DataWriter._write_merge df (w, t) = (Ok n, s) ->
            exists w2 w3,
              delta_forName table_name w1 = (Ok tt, w2) /\
              merge_execute merge w2 = (Ok tt, w3) /\
              df_count df w3 = (Ok n, s.1) /\ s.2 = t)).
Proof.
  intros table_name asked bootstrap. split.
  - intros Hkeys. split.
    + unfold DataWriter._write_merge, DataWriter.target, bind, gets. simpl.
      by rewrite Hkeys.
    + intros Hmode.
      unfold DataWriter.write, DataWriter.target, bind at 1, gets. simpl.
      rewrite Hmode. simpl.
      unfold try_except, bind at 1.
      destruct (DataWriter._ensure_schema_exists (w, t)) as [[[]|e] [w' t']] eqn:Hens.
      * assert (t' = t) as ->.
        { assert (target_moves (W := W) eq DataWriter._ensure_schema_exists) as Hm.
          { unfold DataWriter._ensure_schema_exists, DataWriter.target,
              DataWriter.spark. target_moves. }
          specialize (Hm (w, t)). rewrite Hens in Hm. by simpl in Hm. }
        unfold DataWriter._write_merge, DataWriter.target, bind at 1, gets. simpl.
        rewrite Hkeys. unfold raise at 1, bind, gets, raise. simpl. eauto.
      * unfold bind, DataWriter.target, gets, raise. simpl. eauto.
  - intros Hkeys.
    pose proof (write_merge_asks_catalog df w t Hkeys) as Hmerge.
    fold asked in Hmerge.
    assert (Hboot : forall w1,
              DataWriter._write_merge df (w, t) = DataWriter._write_overwrite df (w1, t) ->
              bootstrap w1).
    { intros w1 Hover. unfold bootstrap. rewrite Hover. split; [|split].
      - apply write_overwrite_unfolded.
      - reflexivity.
      - intros n s. apply write_overwrite_returns_count. }
    split; [|split].
    + intros w1 Hasked. apply Hboot. by rewrite Hmerge, Hasked.
    + intros e w1 Hasked. apply Hboot. by rewrite Hmerge, Hasked.
    + intros w1 Hasked. rewrite Hasked in Hmerge.
      destruct (from_source_entries
                  (List.filter (DataWriter.not_in (TargetConfig.merge_keys t))
                     (df_columns df))) as (update_set & Hupd & Hupd_in).
      destruct (from_source_entries (df_columns df))
        as (insert_values & Hins & Hins_in).
      exists update_set, insert_values. split; [|split].
      * intros x. rewrite Hupd_in. split.
        -- intros (c & Hc & ->). exists c.
           apply list_elem_of_In, filter_In in Hc as [Hc Hkey].
           unfold DataWriter.not_in in Hkey.
           apply negb_true_iff, bool_decide_eq_false_1 in Hkey.
           by apply list_elem_of_In in Hc.
        -- intros (c & Hc & Hkey & ->). exists c. split; [|done].
           apply list_elem_of_In, filter_In. split; [by apply list_elem_of_In|].
           unfold DataWriter.not_in.
           by apply negb_true_iff, bool_decide_eq_false_2.
      * intros x. by rewrite Hins_in.
      * intros merge.
        assert (Heq : DataWriter._write_merge df (w, t) =
                  (DataWriter.spark (delta_forName table_name) ;;;
                   DataWriter.spark (merge_execute merge) ;;;
                   DataWriter.spark (df_count df))%monad (w1, t)).
        { rewrite Hmerge, Hupd, Hins. reflexivity. }
        split; [exact Heq|]. rewrite Heq. clear Heq Hmerge. clearbody merge.
        intros n s. unfold bind, DataWriter.spark, zoom. simpl.
        destruct (delta_forName table_name w1) as [[[]|e2] w2]; simpl; [|done].
        destruct (merge_execute merge w2) as [[[]|e3] w3] eqn:Hexec; simpl; [|done].
        destruct (df_count df w3) as [[m|e4] w4] eqn:Hcount; simpl; [|done].
        intros [= <- <-]. by exists w2, w3.
Qed.
End merge_theorem.

Section scd2_bootstrap.
Context `{FloatRepr} {W DataFrame : Type} `{!Platform W DataFrame}.

(** The source frame with the three columns [_write_scd2] adds. *)
Definition with_scd2_columns (df : DataFrame) (t : TargetConfig.t) : M W DataFrame :=
  (df1 <- df_withColumn df
            (dict_get_default "effective_date_column" (VStr "effective_date")
               (TargetConfig.options t)) CurrentTimestamp ;;
   df2 <- df_withColumn df1
            (dict_get_default "end_date_column" (VStr "end_date")
               (TargetConfig.options t)) (Cast (Lit VNone) "timestamp") ;;
   df_withColumn df2
     (dict_get_default "current_flag_column" (VStr "is_current")
        (TargetConfig.options t)) (Lit (VBool true)))%monad.

(** On every platform: an scd2 write that gets as far as finding that
    the target table does not exist hands its target back with the mode
    set to ["overwrite"], whatever happens to the write itself. *)
Lemma scd2_bootstrap_sets_mode (df source_df : DataFrame) (w w1 w2 w3 : W)
    (t : TargetConfig.t) :
  SparkFn.map_chars SparkFn.lower_char (TargetConfig.mode t) = "scd2" ->
  TargetConfig.merge_keys t <> [] ->
  DataWriter.create_schema_if_not_exists (TargetConfig.catalog t)
    (TargetConfig.schema t) w = (Ok tt, w1) ->
  with_scd2_columns df t w1 = (Ok source_df, w2) ->
  DataWriter.table_exists (TargetConfig.catalog t) (TargetConfig.schema t)
    (TargetConfig.table t) w2 = (Ok false, w3) ->
  (DataWriter.write df (w, t)).2.2 = TargetConfig.set_mode "overwrite" t.
Proof.
  intros Hmode Hkeys Hschema Hcols Hfound.
  assert (DataWriter._write_scd2 df (w1, t) =
          DataWriter._write_overwrite source_df
            (w3, TargetConfig.set_mode "overwrite" t)) as Hscd2.
  { unfold DataWriter._write_scd2, DataWriter.target, bind at 1, gets. simpl.
    destruct (TargetConfig.merge_keys t) as [|k ks] eqn:Hk; [done|].
    unfold bind at 1. unfold DataWriter.spark at 1, zoom. simpl.
    fold (with_scd2_columns df t). rewrite Hcols. simpl.
    unfold bind at 1. unfold DataWriter.spark at 1, zoom. simpl.
    rewrite Hfound. simpl. reflexivity. }
  unfold DataWriter.write, DataWriter.target, bind at 1, gets. simpl.
  rewrite Hmode. simpl.
  unfold try_except, bind at 1.
  unfold DataWriter._ensure_schema_exists, DataWriter.target, bind at 1, gets.
  simpl. unfold DataWriter.spark at 1, zoom. simpl. rewrite Hschema. simpl.
  rewrite Hscd2.
  pose proof (write_overwrite_keeps_target source_df
                (w3, TargetConfig.set_mode "overwrite" t)) as Hkeep.
  simpl in Hkeep.
  destruct (DataWriter._write_overwrite source_df
              (w3, TargetConfig.set_mode "overwrite" t)) as [[n|e] [w4 t4]];
    simpl in *; by subst.
Qed.
End scd2_bootstrap.

(** ** On the recording platform *)

Definition example_target (mode : string) (merge_keys : list string)
  : TargetConfig.t :=
  TargetConfig.mk "main" "silver" "people" mode "delta" [] [] merge_keys [].

(** A catalog in which the target table is there already. *)
Definition example_catalog : Mock.World :=
  Mock.mkWorld [("main.silver.people", example_people)] [] 0.

Lemma merge_write_bootstraps_or_upserts_witness :
  DataWriter._write_merge example_people (Mock.empty, example_target "merge" []) =
    (Raise (exn DataWriterError "Merge mode requires merge_keys in configuration"),
     (Mock.empty, example_target "merge" [])) /\
  DataWriter._write_merge example_people (Mock.empty, example_target "merge" ["id"]) =
    (Ok 3,
     (Mock.mkWorld [("main.silver.people", example_people)]
        ["saveAsTable main.silver.people mode=overwrite"] 0,
      example_target "merge" ["id"])) /\
  DataWriter._write_merge example_people (example_catalog, example_target "merge" ["id"]) =
    (Ok 3,
     (Mock.mkWorld [("main.silver.people", example_people)]
        ["MERGE INTO main.silver.people ON target.id = source.id"] 0,
      example_target "merge" ["id"])).
Proof.
  split; [|split].
  - apply (proj1 (merge_write_bootstraps_or_upserts example_people Mock.empty
                    (example_target "merge" []))).
    reflexivity.
  - destruct (proj2 (merge_write_bootstraps_or_upserts example_people Mock.empty
                       (example_target "merge" ["id"])) ltac:(discriminate))
      as (Hmissing & _ & _).
    destruct (Hmissing Mock.empty eq_refl) as (-> & _). reflexivity.
  - destruct (proj2 (merge_write_bootstraps_or_upserts example_people example_catalog
                       (example_target "merge" ["id"])) ltac:(discriminate))
      as (_ & _ & Hexists).
    destruct (Hexists example_catalog eq_refl)
      as (update_set & insert_values & _ & _ & -> & _).
    reflexivity.
Defined.

(** C4 at [mode="scd2"] with a target table that does not exist: the
    write returns the three rows of the source, and the [TargetConfig]
    it was given comes back with [mode="overwrite"].  The merge-mode
    write of the same data leaves its target as it was.  Written again
    with the object the first write has changed, the data overwrites the
    table; written with a target that still says scd2, it is merged. *)
Lemma scd2_bootstrap_rewrites_target_mode :
  DataWriter.write example_people (Mock.empty, example_target "scd2" ["id"]) =
    (Ok 3,
     (Mock.mkWorld [("main.silver.people",
                     (Frame.withColumn "is_current" (fun _ => CBool true)
                        (Frame.withColumn "end_date" (fun _ => CNull)
                           (Frame.withColumn "effective_date" (fun _ => CInt 0)
                              example_people))))]
        ["CREATE SCHEMA IF NOT EXISTS main.silver";
         "saveAsTable main.silver.people mode=overwrite"] 0,
      example_target "overwrite" ["id"])) /\
  (DataWriter.write example_people
     (Mock.empty, example_target "merge" ["id"])).2.2 = example_target "merge" ["id"] /\
  Mock.log
    (DataWriter.write example_people
       (DataWriter.write example_people
          (Mock.empty, example_target "scd2" ["id"])).2).2.1 =
    ["CREATE SCHEMA IF NOT EXISTS main.silver";
     "saveAsTable main.silver.people mode=overwrite";
     "CREATE SCHEMA IF NOT EXISTS main.silver";
     "saveAsTable main.silver.people mode=overwrite"] /\
  Mock.log
    (DataWriter.write example_people
       ((DataWriter.write example_people
           (Mock.empty, example_target "scd2" ["id"])).2.1,
        example_target "scd2" ["id"])).2.1 =
    ["CREATE SCHEMA IF NOT EXISTS main.silver";
     "saveAsTable main.silver.people mode=overwrite";
     "CREATE SCHEMA IF NOT EXISTS main.silver";
     "MERGE INTO main.silver.people ON target.id = source.id AND target.is_current = true"].
Proof. repeat split; vm_compute; reflexivity. Qed.

(* ================================================================== *)
(** * Properties of datalib.core.pipeline *)
(* ================================================================== *)

(** ** What a run does to the metrics objects *)

Section state_frame.
Context {S : Type} (R : S -> S -> Prop).
Context (R_refl : forall s, R s s).
Context (R_trans : forall s1 s2 s3, R s1 s2 -> R s2 s3 -> R s1 s3).

(** [m] takes a state to a state related to it by [R], whether it
    returns or raises. *)
Definition state_moves {A} (m : M S A) : Prop := forall s, R s (m s).2.

Lemma state_moves_ret {A} (a : A) : state_moves (ret a).
Proof using R_refl. intros s. apply R_refl. Qed.

Lemma state_moves_raise {A} (e : Exn) : state_moves (raise (A := A) e).
Proof using R_refl. intros s. apply R_refl. Qed.

Lemma state_moves_lift_res {A} (r : Res A) : state_moves (lift_res r).
Proof using R_refl. intros s. apply R_refl. Qed.

Lemma state_moves_gets {A} (f : S -> A) : state_moves (gets f).
Proof using R_refl. intros s. apply R_refl. Qed.

Lemma state_moves_bind {A B} (m : M S A) (k : A -> M S B) :
  state_moves m -> (forall a, state_moves (k a)) -> state_moves (bind m k).
Proof using R_refl R_trans.
  intros Hm Hk s. unfold bind. specialize (Hm s).
  destruct (m s) as [[a|e] s']; simpl in *; [|done].
  eapply R_trans; [exact Hm|apply Hk].
Qed.

Lemma state_moves_try_except {A} (m : M S A) (h : Exn -> M S A) :
  state_moves m -> (forall e, state_moves (h e)) -> state_moves (try_except m h).
Proof using R_refl R_trans.
  intros Hm Hh s. unfold try_except. specialize (Hm s).
  destruct (m s) as [[a|e] s']; simpl in *; [done|].
  eapply R_trans; [exact Hm|apply Hh].
Qed.
End state_frame.

Section pipeline_frame.
Context `{FloatRepr} {W DataFrame : Type} `{!Platform W DataFrame}.

(** [self._metrics] refers to the same object, and no metrics object
    has been created. *)
Definition same_metrics_object (s s' : Pipeline.State W DataFrame) : Prop :=
  Pipeline._metrics s' = Pipeline._metrics s /\
  length (Pipeline.heap s') = length (Pipeline.heap s).

Lemma same_metrics_object_refl (s : Pipeline.State W DataFrame) : same_metrics_object s s.
Proof. done. Qed.

Lemma same_metrics_object_trans (s1 s2 s3 : Pipeline.State W DataFrame) :
  same_metrics_object s1 s2 -> same_metrics_object s2 s3 ->
  same_metrics_object s1 s3.
Proof. intros [? ?] [? ?]. split; congruence. Qed.

End pipeline_frame.

Abbreviation keeps_metrics := (state_moves same_metrics_object).

Section pipeline_frame_steps.
Context `{FloatRepr} {W DataFrame : Type} `{!Platform W DataFrame}.

Lemma spark_keeps_metrics {A} (m : M W A) : keeps_metrics (Pipeline.spark (DataFrame := DataFrame) m).
Proof. intros s. unfold Pipeline.spark, zoom. by destruct (m _). Qed.

Lemma update_metrics_keeps_metrics (f : PipelineMetrics.t -> PipelineMetrics.t) :
  keeps_metrics (Pipeline.update_metrics (W := W) (DataFrame := DataFrame) f).
Proof. intros s. split; [done|]. simpl. apply length_alter. Qed.

Lemma complete_keeps_metrics (status : string) (error : option string) :
  keeps_metrics (Pipeline.complete (W := W) (DataFrame := DataFrame) status error).
Proof.
  intros s. unfold Pipeline.complete. destruct (datetime_now _) as [now w].
  split; [done|]. simpl. apply length_alter.
Qed.

Lemma write_target_keeps_metrics (df : DataFrame) (target : TargetConfig.t) :
  keeps_metrics (Pipeline._write_target df target).
Proof.
  intros s. unfold Pipeline._write_target, zoom. by destruct (DataWriter.write _ _).
Qed.
End pipeline_frame_steps.

Create HintDb metrics_frame discriminated.
#[local] Hint Resolve spark_keeps_metrics update_metrics_keeps_metrics
  complete_keeps_metrics write_target_keeps_metrics : metrics_frame.

Ltac metrics_side :=
  solve [ apply same_metrics_object_refl | apply same_metrics_object_trans ].

Ltac keeps_metrics :=
  repeat first
    [ solve [auto 3 with metrics_frame nocore]
    | apply state_moves_ret; [metrics_side..]
    | apply state_moves_raise; [metrics_side..]
    | apply state_moves_lift_res; [metrics_side..]
    | apply state_moves_gets; [metrics_side..]
    | apply state_moves_bind; [metrics_side..| |intros ?]
    | apply state_moves_try_except; [metrics_side..| |intros ?]
    | match goal with
      | |- state_moves _ (match ?x with _ => _ end) => destruct x
      | |- state_moves _ (if ?b then _ else _) => destruct b
      end ].

Section pipeline_frame_body.
Context `{FloatRepr} {W DataFrame : Type} `{!Platform W DataFrame}.

Lemma raise_execution_error_keeps_metrics {A} (message : string) :
  keeps_metrics (Pipeline.raise_execution_error (A := A) (W := W)
                   (DataFrame := DataFrame) message).
Proof.
  unfold Pipeline.raise_execution_error, Pipeline.execution_error. keeps_metrics.
Qed.
#[local] Hint Resolve raise_execution_error_keeps_metrics : metrics_frame.

Lemma apply_each_keeps_metrics (l : list TransformationConfig.t) (df : DataFrame) :
  keeps_metrics (Pipeline.apply_each (W := W) l df).
Proof.
  revert df. induction l as [|trans_config l IH]; intros df; simpl.
  - keeps_metrics.
  - destruct (negb _); [apply IH|]. keeps_metrics.
Qed.
#[local] Hint Resolve apply_each_keeps_metrics : metrics_frame.

Lemma read_all_keeps_metrics (sources : list SourceConfig.t) :
  keeps_metrics (Pipeline.read_all (W := W) (DataFrame := DataFrame) sources).
Proof.
  induction sources as [|source sources IH]; simpl.
  - keeps_metrics.
  - unfold Pipeline._read_source. keeps_metrics.
Qed.
#[local] Hint Resolve read_all_keeps_metrics : metrics_frame.

Lemma join_sources_keeps_metrics (first : DataFrame) (others : list DataFrame) :
  keeps_metrics (Pipeline._join_sources (W := W) first others).
Proof.
  unfold Pipeline._join_sources. destruct others as [|df others].
  { keeps_metrics. }
  apply state_moves_bind; [metrics_side..|keeps_metrics|intros c].
  apply state_moves_bind; [metrics_side..|keeps_metrics|intros join_type].
  apply state_moves_bind; [metrics_side..|keeps_metrics|intros join_keys].
  destruct (truthy join_keys) eqn:Hkeys; [|keeps_metrics].
  apply state_moves_bind; [metrics_side..|keeps_metrics|intros result].
  revert result. induction others as [|df' others IH]; intros result.
  - keeps_metrics.
  - apply state_moves_bind; [metrics_side..|keeps_metrics|apply IH].
Qed.
#[local] Hint Resolve join_sources_keeps_metrics : metrics_frame.

Lemma run_body_keeps_metrics :
  keeps_metrics (Pipeline.run_body (W := W) (DataFrame := DataFrame)).
Proof.
  unfold Pipeline.run_body, Pipeline._apply_transformations,
    Pipeline._run_quality_checks, Pipeline._read_source.
  keeps_metrics.
Qed.
End pipeline_frame_body.

(** ** The two [except] clauses of [run] *)

Section pipeline_run.
Context `{FloatRepr} {W DataFrame : Type} `{!Platform W DataFrame}.

Lemma execution_error_or_not (e : Exn) :
  exn_class e = PipelineExecutionError \/ exn_class e <> PipelineExecutionError.
Proof. destruct (exn_class e); (by left) || (by right). Qed.

Lemma run_handler_reraises (e : Exn) :
  exn_class e = PipelineExecutionError ->
  Pipeline.run_handler (W := W) (DataFrame := DataFrame) e = raise e.
Proof. unfold Pipeline.run_handler. by intros ->. Qed.

Lemma run_handler_wraps (e : Exn) :
  exn_class e <> PipelineExecutionError ->
  Pipeline.run_handler (W := W) (DataFrame := DataFrame) e =
  (Pipeline.complete "failed" (Some (exn_msg e)) ;;;
   Pipeline.raise_execution_error (exn_msg e))%monad.
Proof. unfold Pipeline.run_handler. by destruct (exn_class e). Qed.

(** The state in which the [try] statement of [run] is entered: a new
    metrics object, and [self._metrics] referring to it. *)
Lemma new_metrics_object (s : Pipeline.State W DataFrame) :
  exists now,
    Pipeline.new_metrics s = (Ok tt, (Pipeline.new_metrics s).2) /\
    Pipeline._metrics (Pipeline.new_metrics s).2 = length (Pipeline.heap s) /\
    Pipeline.config (Pipeline.new_metrics s).2 = Pipeline.config s /\
    Pipeline.heap (Pipeline.new_metrics s).2 =
      Pipeline.heap s ++
      [PipelineMetrics.new (PipelineConfig.name (Pipeline.config s)) now].
Proof.
  unfold Pipeline.new_metrics. destruct (datetime_now _) as [now w]. by exists now.
Qed.

Lemma run_body_no_source (s : Pipeline.State W DataFrame) :
  PipelineConfig.sources (Pipeline.config s) = [] ->
  Pipeline.run_body s =
  (Raise (mkExn PipelineExecutionError "No source configured for pipeline"
            (Some (Pipeline._metrics s))), s).
Proof.
  intros Hsources. unfold Pipeline.run_body, bind at 1, gets at 1.
  rewrite Hsources. reflexivity.
Qed.

End pipeline_run.

(** ** Runs that fail, on the recording platform *)

Definition unnamed_table : SourceConfig.t :=
  SourceConfig.mk "table" None None None None None None [].

Definition example_run_config (sources : list SourceConfig.t) : PipelineConfig.t :=
  PipelineConfig.mk "people_bronze" "bronze" "" "1.0.0" "" [] None sources None
    ProcessingConfig.default [] (QualityConfig.mk true false []) [].

(** A pipeline that has not run yet, at the time 100. *)
Definition example_run (sources : list SourceConfig.t)
  : Pipeline.State Mock.World Frame.t :=
  Pipeline.mkState (Mock.mkWorld [("people", example_people)] [] 100)
    (example_run_config sources) [] 0 (fun _ => None).

(** C2 as the specification states it does not hold: a pipeline with
    no source raises a [PipelineExecutionError] whose metrics are those
    of the run, and their status is still ["running"], with no end
    time and no error message. *)
Lemma run_without_source_leaves_metrics_running :
  exists s',
    Pipeline.run (example_run []) =
      (Raise (mkExn PipelineExecutionError "No source configured for pipeline"
                (Some 0)), s') /\
    Pipeline._metrics s' = 0 /\
    Pipeline.heap s' =
      [PipelineMetrics.mk "people_bronze" 100 None "running" 0 0 0 0 0 0 None 0].
Proof. eexists. vm_compute. repeat split. Qed.

(* ================================================================== *)
(** * Further properties of datalib.core.config *)
(* ================================================================== *)

(** ** [SourceConfig.get_full_table_name] *)

(** X1: the name of a source table exists exactly when the table field
    is set and not empty; a catalog given without a schema is left out
    (the name is the bare table), and every name ends with the table. *)
Theorem source_table_name_needs_table (self : SourceConfig.t) :
  (DataReader.get_full_table_name self = None <->
   nonempty (SourceConfig.table self) = false) /\
  (nonempty (SourceConfig.table self) = true ->
   nonempty (SourceConfig.schema self) = false ->
   DataReader.get_full_table_name self = SourceConfig.table self) /\
  (forall name, DataReader.get_full_table_name self = Some name ->
     exists qualifier table,
       SourceConfig.table self = Some table /\ name = qualifier +:+ table).
Proof.
  unfold DataReader.get_full_table_name.
  destruct self as [ty path catalog schema table conn query options]. simpl.
  split; [|split].
  - destruct (nonempty catalog), (nonempty schema), (nonempty table) eqn:Ht;
      simpl; try (split; intros ?; done);
      destruct table; split; intros ?; try done; simpl in Ht; congruence.
  - intros -> ->. by rewrite andb_false_r.
  - intros name.
    destruct table as [t|]; [|by destruct (nonempty catalog), (nonempty schema)].
    destruct (nonempty catalog), (nonempty schema), (nonempty (Some t));
      simpl; intros [= <-];
      first
        [ exists "", t; split; [done|]; by rewrite str_app_nil
        | exists (default "" schema +:+ "."), t; split; [done|];
          by rewrite !str_app_assoc
        | exists (default "" catalog +:+ "." +:+ default "" schema +:+ "."), t;
          split; [done|]; by rewrite !str_app_assoc ].
Qed.

(** ** Values, by induction *)

Lemma Value_nested_ind (P : Value -> Prop) :
  P VNone ->
  (forall b, P (VBool b)) ->
  (forall z, P (VInt z)) ->
  (forall f, P (VFloat f)) ->
  (forall s, P (VStr s)) ->
  (forall l, Forall P l -> P (VList l)) ->
  (forall d, Forall (fun kv => P kv.2) d -> P (VDict d)) ->
  forall v, P v.
Proof.
  intros HNone HBool HInt HFloat HStr HList HDict.
  fix IH 1. intros [ |b|z|f|s|l|d].
  - apply HNone.
  - apply HBool.
  - apply HInt.
  - apply HFloat.
  - apply HStr.
  - apply HList. induction l as [|x l IHl]; constructor; [apply IH|apply IHl].
  - apply HDict. induction d as [|[k x] d IHd]; constructor; [apply IH|apply IHd].
Qed.

(** ** [_substitute_variables] where there is nothing to substitute *)

(** Every string scalar of [v] satisfies [p]; the keys of a mapping are
    not scalars of it. *)
Fixpoint every_string (p : string -> bool) (v : Value) : bool :=
  match v with
  | VStr s => p s
  | VList l => forallb (every_string p) l
  | VDict d => forallb (fun kv => every_string p kv.2) d
  | _ => true
  end.

Definition without (c : ascii) (s : string) : bool :=
  string_forallb (fun x => negb (Ascii.eqb x c)) s.

Lemma string_forallb_app (p : ascii -> bool) (a b : string) :
  string_forallb p (a +:+ b) = string_forallb p a && string_forallb p b.
Proof.
  induction a as [|c a IH]; [by rewrite str_app_nil|].
  rewrite str_app_cons. simpl. by rewrite IH, andb_assoc.
Qed.

Lemma span_split (p : ascii -> bool) (s a b : string) :
  ConfigLoader.span p s = (a, b) ->
  s = a +:+ b /\
  match b with
  | EmptyString => True
  | String c _ => p c = false
  end.
Proof.
  revert a b. induction s as [|c s IH]; intros a b; simpl.
  - by intros [= <- <-].
  - destruct (p c) eqn:Hc.
    + destruct (ConfigLoader.span p s) as [a' b'].
      intros [= <- <-]. destruct (IH _ _ eq_refl) as [-> Hb].
      by rewrite str_app_cons.
    + intros [= <- <-]. by rewrite str_app_nil.
Qed.

Lemma match_here_needs_brace (s : string) :
  without "}" s = true -> ConfigLoader.match_here s = None.
Proof.
  unfold without. intros Hs. unfold ConfigLoader.match_here.
  destruct s as [|c0 [|c1 s1]]; [done|done|].
  destruct (Ascii.eqb c0 "$" && Ascii.eqb c1 "{"); [|done].
  simpl in Hs. apply andb_prop in Hs as [_ Hs]. apply andb_prop in Hs as [_ Hs].
  destruct (ConfigLoader.span ConfigLoader.name_char s1) as [var_name s2] eqn:Hspan.
  apply span_split in Hspan as [-> Hc].
  rewrite string_forallb_app in Hs. apply andb_prop in Hs as [_ Hs].
  destruct var_name as [|v var_name]; [done|].
  destruct s2 as [|c s3]; [done|].
  simpl in Hs. apply andb_prop in Hs as [Hne Hs].
  destruct (Ascii.eqb c "}"); [done|].
  destruct (Ascii.eqb c ":"); [|done].
  destruct (ConfigLoader.span ConfigLoader.default_char s3) as [d s4] eqn:Hspan.
  apply span_split in Hspan as [-> Hd].
  rewrite string_forallb_app in Hs. apply andb_prop in Hs as [_ Hs].
  destruct s4 as [|c4 s5]; [done|].
  simpl in Hs. apply andb_prop in Hs as [Hne4 _].
  unfold ConfigLoader.default_char in Hd. by rewrite Hne4 in Hd.
Qed.

Section substitution_identity.
Context (self : ConfigLoader.t) (environ : gmap string string).

Lemma re_sub_no_brace (s : string) :
  without "}" s = true -> ConfigLoader.re_sub self environ s = Ok s.
Proof.
  unfold ConfigLoader.re_sub. induction s as [|c s IH]; intros Hs; [done|].
  cbn [ConfigLoader.re_sub_from]. rewrite (match_here_needs_brace _ Hs).
  unfold without in Hs. simpl in Hs. apply andb_prop in Hs as [_ Hs].
  by rewrite (IH Hs).
Qed.

Lemma re_sub_without_dollar (s : string) :
  without "$" s = true -> ConfigLoader.re_sub self environ s = Ok s.
Proof.
  intros Hs. pose proof (re_sub_no_dollar self environ s "" Hs) as Hsub.
  assert (Hnil : s +:+ "" = s).
  { clear. induction s as [|c s IH]; [done|]. by rewrite str_app_cons, IH. }
  rewrite Hnil in Hsub. rewrite Hsub. simpl. by rewrite Hnil.
Qed.

(** X2: a value in which every string scalar lacks a dollar sign or lacks
    a closing brace comes out of [_substitute_variables] as it went in:
    nothing is raised, whatever the widgets and the environment hold,
    and an unterminated reference is kept as text. *)
Theorem substitute_variables_without_reference (v : Value) :
  every_string (fun s => without "$" s || without "}" s) v = true ->
  ConfigLoader._substitute_variables self environ v = Ok v.
Proof.
  induction v as [ | | | |s|l IH|d IH] using Value_nested_ind; simpl; try done.
  - intros Hs. apply orb_prop in Hs as [Hs|Hs].
    + by rewrite (re_sub_without_dollar _ Hs).
    + by rewrite (re_sub_no_brace _ Hs).
  - intros Hl.
    assert (Hall : res_traverse (ConfigLoader._substitute_variables self environ) l = Ok l).
    { apply res_traverse_Ok. induction IH as [|x l Hx _ IHl]; [constructor|].
      simpl in Hl. apply andb_prop in Hl as [Hx' Hl]. constructor; auto. }
    by rewrite Hall.
  - intros Hd.
    match goal with
    | |- res_map VDict (res_traverse ?f d) = _ =>
        assert (Hall : res_traverse f d = Ok d)
    end.
    { apply res_traverse_Ok. induction IH as [|[k x] d Hx _ IHd]; [constructor|].
      simpl in Hd. apply andb_prop in Hd as [Hx' Hd]. constructor; [|auto].
      simpl in *. unfold res_map. by rewrite (Hx Hx'). }
    by rewrite Hall.
Qed.
End substitution_identity.

Lemma substitute_variables_without_reference_witness :
  ConfigLoader._substitute_variables example_loader example_environ
    (VDict [("path", VStr "/mnt/${LANDING"); ("cost", VStr "5 $");
            ("keep", VList [VInt 3; VStr "}"])]) =
  Ok (VDict [("path", VStr "/mnt/${LANDING"); ("cost", VStr "5 $");
             ("keep", VList [VInt 3; VStr "}"])]).
Proof.
  apply (substitute_variables_without_reference example_loader example_environ).
  reflexivity.
Defined.

(** ** [_substitute_variables]: every reference of a string *)















Section references.
Context (self : ConfigLoader.t) (environ : gmap string string).





End references.


(** ** [_merge_configs], applied again *)

(** A Python [dict] has no two entries of one key; neither have the
    mappings inside it. *)
Fixpoint unique_keys (v : Value) : bool :=
  match v with
  | VDict d =>
      bool_decide (NoDup d.*1) && forallb (fun kv => unique_keys kv.2) d
  | _ => true
  end.

Lemma dict_set_same (k : string) (v : Value) (d : Dict) :
  dict_get k d = Some v -> dict_set k v d = d.
Proof.
  induction d as [|[k' v'] d IH]; simpl; [done|].
  destruct (String.eqb_spec k k') as [->|Hne].
  - by intros [= ->].
  - intros Hget. by rewrite (IH Hget).
Qed.

Lemma dict_get_elem (k : string) (v : Value) (d : Dict) :
  NoDup d.*1 -> (k, v) ∈ d -> dict_get k d = Some v.
Proof.
  induction d as [|[k' v'] d IH]; simpl; intros Hnodup Hin.
  - by apply elem_of_nil in Hin.
  - apply NoDup_cons in Hnodup as [Hfresh Hnodup].
    apply elem_of_cons in Hin as [[= <- <-]|Hin].
    + by rewrite String.eqb_refl.
    + destruct (String.eqb_spec k k') as [->|Hne]; [|by apply IH].
      exfalso. apply Hfresh. by apply (list_elem_of_fmap_2' fst _ (k', v)).
Qed.

Lemma merge_configs_empty_base (override : Dict) :
  NoDup override.*1 -> ConfigLoader._merge_configs [] override = override.
Proof.
  intros Hnodup. rewrite merge_configs_fold.
  assert (Hgen : forall done,
            NoDup (done ++ override).*1 ->
            fold_left merge_step override done = done ++ override).
  { clear Hnodup. induction override as [|[k v] items IH]; intros done Hnodup; simpl.
    - by rewrite app_nil_r.
    - assert (Hfresh : dict_get k done = None).
      { apply dict_get_not_key. rewrite fmap_app in Hnodup.
        apply NoDup_app in Hnodup as (_ & Hdisj & _).
        intros Hin. apply (Hdisj _ Hin). simpl. left. }
      assert (Hstep : merge_step done (k, v) = done ++ [(k, v)]).
      { unfold merge_step. simpl. rewrite Hfresh.
        clear -Hfresh. induction done as [|[k' v'] done IH]; simpl; [done|].
        simpl in Hfresh. destruct (String.eqb k k'); [done|]. by rewrite IH. }
      rewrite Hstep, IH; rewrite <- app_assoc; [done|exact Hnodup]. }
  apply (Hgen []). exact Hnodup.
Qed.

Lemma merge_fixed_point (override result : Dict) :
  (forall item, item ∈ override -> merge_step result item = result) ->
  fold_left merge_step override result = result.
Proof.
  induction override as [|item items IH]; intros Hfix; simpl; [done|].
  rewrite Hfix by left. apply IH. intros item' Hin. apply Hfix. by right.
Qed.

Lemma merge_configs_again (override : Value) :
  unique_keys override = true ->
  match override with
  | VDict o =>
      forall base,
        ConfigLoader._merge_configs (ConfigLoader._merge_configs base o) o =
        ConfigLoader._merge_configs base o
  | _ => True
  end.
Proof.
  induction override as [ | | | | | |o IH] using Value_nested_ind; try done.
  simpl. intros Hwf base. apply andb_prop in Hwf as [Hnodup Hwf].
  apply bool_decide_eq_true in Hnodup.
  rewrite (merge_configs_fold (ConfigLoader._merge_configs base o)).
  apply merge_fixed_point. intros [k v] Hin.
  pose proof (dict_get_elem _ _ _ Hnodup Hin) as Hget.
  assert (Hk : dict_get k (ConfigLoader._merge_configs base o) =
               match dict_get k base, v with
               | Some (VDict b), VDict ov =>
                   Some (VDict (ConfigLoader._merge_configs b ov))
               | _, _ => Some v
               end).
  { rewrite merge_configs_fold, (merge_fold_get _ _ _ Hnodup). by rewrite Hget. }
  assert (Hv : unique_keys v = true).
  { apply Is_true_true, forallb_True in Hwf. rewrite Forall_forall in Hwf.
    apply Is_true_true, (Hwf (k, v) Hin). }
  assert (IHv : match v with
                | VDict ov =>
                    forall base,
                      ConfigLoader._merge_configs (ConfigLoader._merge_configs base ov) ov =
                      ConfigLoader._merge_configs base ov
                | _ => True
                end).
  { rewrite Forall_forall in IH. apply (IH (k, v) Hin Hv). }
  unfold merge_step. cbn [fst snd].
  destruct v as [ | | | | | |ov].
  1-6: destruct (dict_get k base) as [[]|]; rewrite Hk; by apply dict_set_same.
  assert (Hov : NoDup ov.*1).
  { simpl in Hv. apply andb_prop in Hv as [Hv _]. by apply bool_decide_eq_true in Hv. }
  assert (Hself : ConfigLoader._merge_configs ov ov = ov).
  { rewrite <- (merge_configs_empty_base ov Hov) at 1.
    by rewrite IHv, (merge_configs_empty_base ov Hov). }
  destruct (dict_get k base) as [[ | | | | | |b]|]; rewrite Hk;
    rewrite ?IHv, ?Hself; by apply dict_set_same.
Qed.

(** X3: applying an override a second time changes nothing: the merge
    of [override] into the merge of [override] into [base] is that
    merge.  [load_pipeline_config] does this when the override file it
    is given is also the environment file found next to the
    configuration. *)
Theorem merge_configs_idempotent (base override : Dict) :
  unique_keys (VDict override) = true ->
  ConfigLoader._merge_configs (ConfigLoader._merge_configs base override) override =
  ConfigLoader._merge_configs base override.
Proof. intros Hwf. apply (merge_configs_again (VDict override) Hwf). Qed.

Lemma merge_configs_idempotent_witness :
  ConfigLoader._merge_configs
    (ConfigLoader._merge_configs
       [("target", VDict [("catalog", VStr "dev"); ("table", VStr "t")]);
        ("owner", VInt 1)]
       [("target", VDict [("catalog", VStr "prd")]);
        ("owner", VDict [("team", VStr "data")])])
    [("target", VDict [("catalog", VStr "prd")]);
     ("owner", VDict [("team", VStr "data")])] =
  ConfigLoader._merge_configs
    [("target", VDict [("catalog", VStr "dev"); ("table", VStr "t")]);
     ("owner", VInt 1)]
    [("target", VDict [("catalog", VStr "prd")]);
     ("owner", VDict [("team", VStr "data")])].
Proof. apply merge_configs_idempotent. vm_compute. reflexivity. Defined.

(* ================================================================== *)
(** * Properties of validate_config and validate_schema *)
(* ================================================================== *)

(** ** [validate_config] *)

Lemma py_split_nonempty (sep : ascii) (s : string) : py_split sep s <> [].
Proof.
  destruct s as [|c s]; simpl; [done|].
  destruct (Ascii.eqb c sep); [done|]. by destruct (py_split sep s).
Qed.

Lemma py_split_app (sep : ascii) (a b : string) :
  py_split sep (a +:+ String sep b) = py_split sep a ++ py_split sep b.
Proof.
  induction a as [|c a IH].
  - rewrite str_app_nil. simpl. by rewrite Ascii.eqb_refl.
  - rewrite str_app_cons. simpl. destruct (Ascii.eqb c sep); [by rewrite IH|].
    rewrite IH. pose proof (py_split_nonempty sep a).
    by destruct (py_split sep a).
Qed.

Lemma broken_app (value : Value) (p q : list string) :
  ValidateConfig.broken value (p ++ q) = false ->
  ValidateConfig.broken value p = false.
Proof.
  revert value. induction p as [|part p IH]; intros value; simpl; [done|].
  destruct value as [ | | | | | |d]; try done.
  destruct (dict_get part d); [apply IH|done].
Qed.

Lemma validate_config_fold (config : Value) (fields missing : list string) :
  fold_left (ValidateConfig.step config) fields missing =
  missing ++
  List.filter (fun field => ValidateConfig.broken config (py_split "." field)) fields.
Proof.
  revert missing. induction fields as [|f fields IH]; intros missing; simpl.
  - by rewrite app_nil_r.
  - rewrite IH. unfold ValidateConfig.step.
    destruct (ValidateConfig.broken config (py_split "." f)); [|done].
    by rewrite <- app_assoc.
Qed.

Lemma validate_config_ok (config : Value) (fields : list string) :
  ValidateConfig.validate_config config fields = Ok true <->
  Forall (fun field => ValidateConfig.broken config (py_split "." field) = false) fields.
Proof.
  unfold ValidateConfig.validate_config. rewrite validate_config_fold. simpl.
  induction fields as [|f fields IH]; simpl.
  - split; [constructor|done].
  - destruct (ValidateConfig.broken config (py_split "." f)) eqn:Hf.
    + split; [done|]. intros Hall. inversion Hall; congruence.
    + rewrite IH. split; [by constructor|]. intros Hall. by inversion Hall.
Qed.

Lemma py_split_whole (sep : ascii) (s : string) :
  string_forallb (fun c => negb (Ascii.eqb c sep)) s = true ->
  py_split sep s = [s].
Proof.
  induction s as [|c s IH]; [done|]. simpl.
  intros [Hc Hs]%andb_true_iff. apply negb_true_iff in Hc.
  by rewrite Hc, (IH Hs).
Qed.

(** X4: the required fields are checked one by one: a list of fields
    is accepted exactly when each of its fields is accepted alone, and
    every other outcome is a [ValidationError].  When a dotted field
    [a.b] is accepted so is [a].  A field without a dot is accepted
    exactly when the key is in the dictionary, whatever its value: a key
    whose value is [None] is present, and no field below it is. *)
Theorem validate_config_prefix_closed (config : Value) (fields : list string) :
  (ValidateConfig.validate_config config fields = Ok true <->
   forall field, field ∈ fields ->
     ValidateConfig.validate_config config [field] = Ok true) /\
  (ValidateConfig.validate_config config fields = Ok true \/
   exists e, ValidateConfig.validate_config config fields = Raise e /\
             exn_class e = ValidationError) /\
  (forall a b,
     ValidateConfig.validate_config config [a +:+ "." +:+ b] = Ok true ->
     ValidateConfig.validate_config config [a] = Ok true) /\
  (forall d key,
     string_forallb (fun c => negb (Ascii.eqb c ".")) key = true ->
     (ValidateConfig.validate_config (VDict d) [key] = Ok true <->
      exists v, dict_get key d = Some v) /\
     (dict_get key d = Some VNone ->
      ValidateConfig.validate_config (VDict d) [key] = Ok true /\
      forall b, ValidateConfig.validate_config (VDict d) [key +:+ "." +:+ b] <> Ok true)).
Proof.
  split; [|split; [|split]].
  - rewrite validate_config_ok, Forall_forall. split.
    + intros Hall field Hfield. apply validate_config_ok.
      constructor; [auto|constructor].
    + intros Hall field Hfield. specialize (Hall field Hfield).
      apply validate_config_ok in Hall. by inversion Hall.
  - unfold ValidateConfig.validate_config.
    destruct (fold_left _ _ _); [by left|right]. by eexists.
  - intros a b Hok. apply validate_config_ok in Hok. inversion Hok as [|? ? Hab _].
    change ("." +:+ b) with (String "." b) in Hab.
    rewrite py_split_app in Hab. apply broken_app in Hab.
    apply validate_config_ok. constructor; [done|constructor].
  - intros d key Hkey.
    assert (Hone : ValidateConfig.validate_config (VDict d) [key] = Ok true <->
                   exists v, dict_get key d = Some v).
    { rewrite validate_config_ok. rewrite (Forall_singleton _ key).
      rewrite (py_split_whole _ _ Hkey). simpl.
      destruct (dict_get key d) as [v|]; split; try done.
      - intros _. by exists v.
      - by intros [v Hv]. }
    split; [exact Hone|]. intros Hnone. split.
    + apply Hone. by exists VNone.
    + intros b Hok. apply validate_config_ok in Hok. inversion Hok as [|? ? Hab _].
      change ("." +:+ b) with (String "." b) in Hab.
      rewrite py_split_app, (py_split_whole _ _ Hkey) in Hab. simpl in Hab.
      rewrite Hnone in Hab. pose proof (py_split_nonempty "." b).
      by destruct (py_split "." b).
Qed.

Lemma validate_config_prefix_closed_witness :
  ValidateConfig.validate_config
    (VDict [("pipeline", VDict [("name", VStr "orders"); ("owner", VNone)])])
    ["pipeline"] = Ok true /\
  ValidateConfig.validate_config
    (VDict [("name", VStr "orders"); ("owner", VNone)]) ["owner"] = Ok true /\
  ValidateConfig.validate_config
    (VDict [("name", VStr "orders"); ("owner", VNone)]) ["owner.email"] <> Ok true.
Proof.
  split; [|split].
  - apply (proj1 (proj2 (proj2 (validate_config_prefix_closed
             (VDict [("pipeline", VDict [("name", VStr "orders"); ("owner", VNone)])])
             []))) "pipeline" "owner").
    apply (proj2 (proj1 (validate_config_prefix_closed
             (VDict [("pipeline", VDict [("name", VStr "orders"); ("owner", VNone)])])
             ["pipeline.name"; "pipeline.owner"]))).
    intros field Hfield. set_unfold in Hfield.
    destruct Hfield as [-> |[-> |[]]]; reflexivity.
  - destruct (validate_config_prefix_closed VNone []) as (_ & _ & _ & Hkey).
    apply (Hkey [("name", VStr "orders"); ("owner", VNone)] "owner" eq_refl).
    reflexivity.
  - destruct (validate_config_prefix_closed VNone []) as (_ & _ & _ & Hkey).
    apply (Hkey [("name", VStr "orders"); ("owner", VNone)] "owner" eq_refl).
    reflexivity.
Defined.

Lemma broken_merged (override : Value) (parts : list string) :
  unique_keys override = true ->
  match override with
  | VDict o =>
      ValidateConfig.broken (VDict o) parts = false ->
      forall base,
        ValidateConfig.broken (VDict (ConfigLoader._merge_configs base o)) parts = false
  | _ => True
  end.
Proof.
  revert parts.
  induction override as [ | | | | | |o IH] using Value_nested_ind; try done.
  intros parts Hwf. simpl in Hwf. apply andb_prop in Hwf as [Hnodup Hwf].
  apply bool_decide_eq_true in Hnodup.
  destruct parts as [|part parts]; [done|]. simpl.
  destruct (dict_get part o) as [v|] eqn:Hget; [|done].
  intros Hrest base.
  rewrite merge_configs_fold, (merge_fold_get _ _ _ Hnodup), Hget.
  assert (Hin : (part, v) ∈ o).
  { clear -Hget. induction o as [|[k x] o IHo]; simpl in Hget; [done|].
    destruct (String.eqb_spec part k) as [-> |Hne].
    - injection Hget as ->. left.
    - right. by apply IHo. }
  assert (Hv : unique_keys v = true).
  { apply Is_true_true, forallb_True in Hwf. rewrite Forall_forall in Hwf.
    apply Is_true_true, (Hwf (part, v) Hin). }
  rewrite Forall_forall in IH. specialize (IH (part, v) Hin parts Hv). simpl in IH.
  destruct v as [ | | | | | |ov];
    try (by destruct (dict_get part base) as [[]|]).
  destruct (dict_get part base) as [[ | | | | | |b]|]; try done.
  by apply IH.
Qed.

(** X5: what an override supplies, the merged configuration supplies:
    if [validate_config] accepts the required fields on the override
    alone, it accepts them on [_merge_configs(base, override)] for every
    base. *)
Theorem validate_config_after_merge
    (base override : Dict) (fields : list string) :
  unique_keys (VDict override) = true ->
  ValidateConfig.validate_config (VDict override) fields = Ok true ->
  ValidateConfig.validate_config
    (VDict (ConfigLoader._merge_configs base override)) fields = Ok true.
Proof.
  intros Hwf Hok. apply validate_config_ok. apply validate_config_ok in Hok.
  eapply Forall_impl; [exact Hok|]. intros field Hfield.
  by apply (broken_merged (VDict override) _ Hwf).
Qed.

Lemma validate_config_after_merge_witness :
  ValidateConfig.validate_config
    (VDict (ConfigLoader._merge_configs
              [("target", VStr "legacy"); ("owner", VStr "data")]
              [("target", VDict [("catalog", VStr "prd")])]))
    ["target.catalog"] = Ok true.
Proof. apply validate_config_after_merge; reflexivity. Defined.

(** ** [validate_schema] *)

Module SchemaFacts.
Import ValidateSchema.

Lemma lookup_update_eq (k v : string) (d : list (string * string)) :
  lookup k (update k v d) = Some v.
Proof.
  induction d as [|[k' v'] d IH]; simpl.
  - by rewrite String.eqb_refl.
  - destruct (String.eqb_spec k k') as [-> |Hne]; simpl.
    + by rewrite String.eqb_refl.
    + destruct (String.eqb_spec k k'); [done|apply IH].
Qed.

Lemma lookup_update_ne (k k' v : string) (d : list (string * string)) :
  k <> k' -> lookup k (update k' v d) = lookup k d.
Proof.
  intros Hne. induction d as [|[k2 v2] d IH]; simpl.
  - by destruct (String.eqb_spec k k').
  - destruct (String.eqb_spec k' k2) as [-> |Hne2]; simpl.
    + by destruct (String.eqb_spec k k2).
    + destruct (String.eqb_spec k k2); [done|apply IH].
Qed.

Lemma lookup_None (k : string) (d : list (string * string)) :
  lookup k d = None <-> k ∉ d.*1.
Proof.
  induction d as [|[k' v'] d IH]; simpl.
  - split; [intros _; apply not_elem_of_nil|done].
  - rewrite not_elem_of_cons. destruct (String.eqb_spec k k') as [-> |Hne].
    + split; [done|]. by intros [? _].
    + rewrite IH. split; [done|]. by intros [_ ?].
Qed.

Lemma lookup_elem (k v : string) (d : list (string * string)) :
  lookup k d = Some v -> (k, v) ∈ d.
Proof.
  induction d as [|[k' v'] d IH]; simpl; [done|].
  destruct (String.eqb_spec k k') as [-> |Hne].
  - intros [= ->]. left.
  - intros Hget. right. by apply IH.
Qed.

Lemma elem_lookup (k v : string) (d : list (string * string)) :
  NoDup d.*1 -> (k, v) ∈ d -> lookup k d = Some v.
Proof.
  induction d as [|[k' v'] d IH]; simpl; intros Hnodup Hin.
  - by apply elem_of_nil in Hin.
  - apply NoDup_cons in Hnodup as [Hfresh Hnodup].
    apply elem_of_cons in Hin as [[= <- <-]|Hin].
    + by rewrite String.eqb_refl.
    + destruct (String.eqb_spec k k') as [-> |Hne]; [|by apply IH].
      exfalso. apply Hfresh. by apply (list_elem_of_fmap_2' fst _ (k', v)).
Qed.

Lemma update_keys (k v : string) (d : list (string * string)) :
  (update k v d).*1 = if bool_decide (k ∈ d.*1) then d.*1 else d.*1 ++ [k].
Proof.
  induction d as [|[k' v'] d IH]; [done|]. cbn [update].
  destruct (String.eqb_spec k k') as [-> |Hne]; csimpl.
  - rewrite bool_decide_eq_true_2; [done|left].
  - rewrite IH. destruct (bool_decide_reflect (k ∈ d.*1)) as [Hin|Hnotin].
    + rewrite bool_decide_eq_true_2; [done|by right].
    + rewrite bool_decide_eq_false_2; [done|].
      intros Hin. apply elem_of_cons in Hin as [?|?]; done.
Qed.

Lemma field_types_from (fields : list StructField) (d : list (string * string)) :
  let d' := fold_left (fun d f => update (name f) (dataType f) d) fields d in
  (NoDup d.*1 -> NoDup d'.*1) /\
  (forall n, n ∈ d'.*1 <-> n ∈ d.*1 \/ n ∈ map name fields).
Proof.
  revert d. induction fields as [|f fields IH]; intros d; simpl.
  - split; [done|]. intros n. split; [by left|]. intros [?|Hin]; [done|].
    by apply elem_of_nil in Hin.
  - destruct (IH (update (name f) (dataType f) d)) as [Hnodup Hkeys].
    assert (Hupd : forall n, n ∈ (update (name f) (dataType f) d).*1 <->
                             n ∈ d.*1 \/ n = name f).
    { intros n. rewrite update_keys.
      destruct (bool_decide_reflect (name f ∈ d.*1)) as [Hin|Hnotin].
      - split; [by left|]. intros [?| ->]; done.
      - rewrite elem_of_app, list_elem_of_singleton. done. }
    split.
    + intros Hd. apply Hnodup. rewrite update_keys.
      destruct (bool_decide_reflect (name f ∈ d.*1)) as [Hin|Hnotin]; [done|].
      apply NoDup_app. split; [done|]. split; [|apply NoDup_singleton].
      intros x Hx Hx'. apply list_elem_of_singleton in Hx'. by subst.
    + intros n. rewrite Hkeys, Hupd, elem_of_cons. tauto.
Qed.

Lemma field_types_keys (fields : list StructField) :
  NoDup (field_types fields).*1 /\
  (forall n, n ∈ (field_types fields).*1 <-> n ∈ map name fields).
Proof.
  destruct (field_types_from fields []) as [Hnodup Hkeys]. split.
  - apply Hnodup. constructor.
  - intros n. unfold field_types. rewrite Hkeys. split; [|by right].
    intros [Hin|?]; [|done]. by apply elem_of_nil in Hin.
Qed.

(** What the first loop leaves in [result]. *)
Definition accepted (strict : bool) (actual_fields : list (string * string))
    (item : string * string) : bool :=
  match lookup item.1 actual_fields with
  | None => false
  | Some actual_type => String.eqb actual_type item.2 || negb strict
  end.

Lemma check_expected_fold (strict : bool) (actual_fields items : list (string * string))
    (result : Result) :
  let result' := fold_left (check_expected strict actual_fields) items result in
  valid result' = valid result && forallb (accepted strict actual_fields) items /\
  missing_columns result' =
    missing_columns result ++
    map fst (List.filter (fun item => bool_decide (lookup item.1 actual_fields = None)) items) /\
  extra_columns result' = extra_columns result /\
  (type_mismatches result' = [] <->
   type_mismatches result = [] /\
   Forall (fun item => forall t, lookup item.1 actual_fields = Some t -> t = item.2) items).
Proof.
  revert result. induction items as [|[n t] items IH]; intros result result';
    subst result'.
  - simpl. rewrite andb_true_r, app_nil_r. repeat split; try done; tauto.
  - cbn [fold_left].
    destruct (IH (check_expected strict actual_fields result (n, t)))
      as (Hvalid & Hmissing & Hextra & Hmismatch).
    rewrite Hvalid, Hmissing, Hextra, Hmismatch. clear.
    unfold check_expected, accepted. simpl.
    destruct (lookup n actual_fields) as [a|] eqn:Hget; simpl.
    + destruct (String.eqb_spec a t) as [-> |Hne]; simpl.
      * split; [done|]. split; [done|]. split; [done|]. split.
        -- intros [? ?]. split; [done|]. constructor; [|done].
           intros t0 Ht0. simpl in *. congruence.
        -- intros [? Hall]. split; [done|]. by inversion Hall.
      * split; [by destruct strict, (valid result)|].
        split; [done|]. split; [done|]. split.
        -- intros [Hnil _]. by destruct (type_mismatches result).
        -- intros [_ Hall]. inversion Hall as [|? ? Hhead _]. subst.
           exfalso. apply Hne. simpl in Hhead. by apply Hhead.
    + rewrite andb_false_r, <- app_assoc.
      split; [done|]. split; [done|]. split; [done|]. split.
      * intros [? ?]. split; [done|]. constructor; [|done].
        intros t0 Ht0. simpl in *. congruence.
      * intros [? Hall]. split; [done|]. by inversion Hall.
Qed.

Lemma check_extra_fold (expected_fields : list (string * string))
    (names : list string) (result : Result) :
  let result' := fold_left (check_extra expected_fields) names result in
  valid result' =
    valid result &&
    forallb (fun n => negb (bool_decide (lookup n expected_fields = None))) names /\
  missing_columns result' = missing_columns result /\
  extra_columns result' =
    extra_columns result ++
    List.filter (fun n => bool_decide (lookup n expected_fields = None)) names /\
  type_mismatches result' = type_mismatches result.
Proof.
  revert result. induction names as [|n names IH]; intros result result';
    subst result'.
  - simpl. by rewrite andb_true_r, app_nil_r.
  - cbn [fold_left].
    destruct (IH (check_extra expected_fields result n))
      as (Hvalid & Hmissing & Hextra & Hmismatch).
    rewrite Hvalid, Hmissing, Hextra, Hmismatch. clear.
    unfold check_extra. simpl.
    destruct (lookup n expected_fields) eqn:Hget; simpl; [done|].
    by rewrite andb_false_r, <- app_assoc.
Qed.
End SchemaFacts.


(** X7: with [strict], [validate_schema] is valid exactly when its
    three lists are empty, and exactly when the two schemas give the
    same type to the same names, in whatever order the columns come;
    a schema is always valid against itself. *)
Theorem validate_schema_strict_same_fields
    (df_schema expected_schema : list ValidateSchema.StructField) :
  let result := ValidateSchema.validate_schema df_schema expected_schema true in
  (ValidateSchema.valid result = true <->
   ValidateSchema.missing_columns result = [] /\
   ValidateSchema.extra_columns result = [] /\
   ValidateSchema.type_mismatches result = []) /\
  (ValidateSchema.valid result = true <->
   forall n,
     ValidateSchema.lookup n (ValidateSchema.field_types df_schema) =
     ValidateSchema.lookup n (ValidateSchema.field_types expected_schema)) /\
  ValidateSchema.valid
    (ValidateSchema.validate_schema df_schema df_schema true) = true.
Proof.
  assert (Hmain : forall actual expected : list ValidateSchema.StructField,
            let result := ValidateSchema.validate_schema actual expected true in
            (ValidateSchema.valid result = true <->
             ValidateSchema.missing_columns result = [] /\
             ValidateSchema.extra_columns result = [] /\
             ValidateSchema.type_mismatches result = []) /\
            (ValidateSchema.valid result = true <->
             forall n,
               ValidateSchema.lookup n (ValidateSchema.field_types actual) =
               ValidateSchema.lookup n (ValidateSchema.field_types expected))).
  { intros actual expected. unfold ValidateSchema.validate_schema. simpl.
    destruct (SchemaFacts.field_types_keys expected) as [Hnodup _].
    set (A := ValidateSchema.field_types actual) in *.
    set (E := ValidateSchema.field_types expected) in *.
    destruct (SchemaFacts.check_expected_fold true A E
                (ValidateSchema.mkResult true [] [] []))
      as (Hvalid1 & Hmissing1 & Hextra1 & Hmismatch1).
    destruct (SchemaFacts.check_extra_fold E (map fst A)
                (fold_left (ValidateSchema.check_expected true A) E
                   (ValidateSchema.mkResult true [] [] [])))
      as (Hvalid2 & Hmissing2 & Hextra2 & Hmismatch2).
    simpl in *. rewrite Hvalid2, Hmissing2, Hextra2, Hmismatch2.
    rewrite Hvalid1, Hmissing1, Hextra1, Hmismatch1. clear Hvalid1 Hvalid2
      Hmissing1 Hmissing2 Hextra1 Hextra2 Hmismatch1 Hmismatch2.
    assert (Hfirst : forallb (SchemaFacts.accepted true A) E = true <->
                     forall n t, (n, t) ∈ E -> ValidateSchema.lookup n A = Some t).
    { clear Hnodup. induction E as [|[n t] items IH]; simpl.
      - split; [|done]. intros _ n t Hin. by apply elem_of_nil in Hin.
      - unfold SchemaFacts.accepted at 1. simpl.
        destruct (ValidateSchema.lookup n A) as [a|] eqn:Hget; simpl.
        + rewrite orb_false_r. destruct (String.eqb_spec a t) as [-> |Hne]; simpl.
          * rewrite IH. split.
            -- intros Hrest n' t' Hin. apply elem_of_cons in Hin as [[= -> ->]|Hin]; auto.
            -- intros Hrest n' t' Hin. apply Hrest. by right.
          * split; [done|]. intros Hrest. exfalso. apply Hne.
            assert (Some a = Some t) as [= ->]; [|done].
            rewrite <- Hget. apply Hrest. left.
        + split; [done|]. intros Hrest.
          assert (None = Some t); [|done]. rewrite <- Hget. apply Hrest. left. }
    assert (Hsecond : forallb (fun n => negb (bool_decide (ValidateSchema.lookup n E = None)))
                        (map fst A) = true <->
                      forall n, n ∈ A.*1 -> ValidateSchema.lookup n E <> None).
    { change (map fst A) with (A.*1). generalize (A.*1) as names. intros names.
      induction names as [|n names IH]; simpl.
      - split; [|done]. intros _ n Hn. by apply elem_of_nil in Hn.
      - destruct (bool_decide_reflect (ValidateSchema.lookup n E = None))
          as [Hnone|Hsome]; simpl.
        + split; [done|]. intros Hrest. exfalso. apply (Hrest n); [left|done].
        + rewrite IH. split.
          * intros Hrest n' Hn'. apply elem_of_cons in Hn' as [-> |Hn']; auto.
          * intros Hrest n' Hn'. apply Hrest. by right. }
    assert (Hmissing : map fst (List.filter
                         (fun item => bool_decide (ValidateSchema.lookup item.1 A = None)) E) = [] <->
                       forall n t, (n, t) ∈ E -> ValidateSchema.lookup n A <> None).
    { clear. induction E as [|[n t] items IH]; simpl.
      - split; [|done]. intros _ n t Hin. by apply elem_of_nil in Hin.
      - destruct (bool_decide_reflect (ValidateSchema.lookup n A = None))
          as [Hnone|Hsome]; simpl.
        + split; [done|]. intros Hrest. exfalso. apply (Hrest n t); [left|done].
        + rewrite IH. split.
          * intros Hrest n' t' Hin. apply elem_of_cons in Hin as [[= -> ->]|Hin]; eauto.
          * intros Hrest n' t' Hin. apply (Hrest n' t'). by right. }
    assert (Hextra : List.filter
                       (fun n => bool_decide (ValidateSchema.lookup n E = None))
                       (map fst A) = [] <->
                     forall n, n ∈ A.*1 -> ValidateSchema.lookup n E <> None).
    { change (map fst A) with (A.*1). generalize (A.*1) as names. intros names.
      induction names as [|n names IH]; simpl.
      - split; [|done]. intros _ n Hn. by apply elem_of_nil in Hn.
      - destruct (bool_decide_reflect (ValidateSchema.lookup n E = None))
          as [Hnone|Hsome]; simpl.
        + split; [done|]. intros Hrest. exfalso. apply (Hrest n); [left|done].
        + rewrite IH. split.
          * intros Hrest n' Hn'. apply elem_of_cons in Hn' as [-> |Hn']; auto.
          * intros Hrest n' Hn'. apply Hrest. by right. }
    rewrite andb_true_iff, Hfirst, Hsecond, Hmissing, Hextra.
    split.
    - split.
      + intros [H1 H2]. split; [|split; [done|]].
        * intros n t Hin. rewrite (H1 n t Hin). done.
        * split; [done|]. apply Forall_forall. intros [n t] Hin t' Hget. simpl in *.
          rewrite (H1 n t Hin) in Hget. congruence.
      + intros (H1 & H2 & _ & H3). split; [|done].
        rewrite Forall_forall in H3. intros n t Hin.
        destruct (ValidateSchema.lookup n A) as [a|] eqn:Hget.
        * f_equal. apply (H3 (n, t) Hin a Hget).
        * by destruct (H1 n t Hin).
    - split.
      + intros [H1 H2] n.
        destruct (ValidateSchema.lookup n E) as [t|] eqn:HE.
        * apply H1. by apply SchemaFacts.lookup_elem.
        * destruct (ValidateSchema.lookup n A) as [a|] eqn:HA; [|done].
          exfalso. apply (H2 n); [|done].
          apply dec_stable. intros Hnot. apply SchemaFacts.lookup_None in Hnot.
          congruence.
      + intros Hsame. split.
        * intros n t Hin. rewrite Hsame. by apply SchemaFacts.elem_lookup.
        * intros n Hn. rewrite <- Hsame. intros Hnone.
          by apply SchemaFacts.lookup_None in Hnone. }
  intros result. destruct (Hmain df_schema expected_schema) as [H1 H2].
  split; [exact H1|]. split; [exact H2|].
  by apply (Hmain df_schema df_schema).
Qed.

(* ================================================================== *)
(** * Further properties of datalib.transformations.common *)
(* ================================================================== *)

(** ** [DropColumns] *)

Lemma elem_of_drop_columns (c name : string) (df : Frame.t) :
  c ∈ Frame.columns (Frame.drop name df) <-> c ∈ Frame.columns df /\ c <> name.
Proof.
  unfold Frame.drop. simpl. induction (Frame.columns df) as [|x l IH]; simpl.
  - split; [intros Hin; by apply elem_of_nil in Hin|].
    intros [Hin _]. by apply elem_of_nil in Hin.
  - destruct (String.eqb_spec x name) as [-> |Hne]; simpl.
    + rewrite IH, elem_of_cons. split; [tauto|]. intros [[?|?] ?]; [done|tauto].
    + rewrite !elem_of_cons, IH. split; [|tauto].
      intros [-> |[? ?]]; [split; [by left|done]|tauto].
Qed.

Lemma filter_not_listed_dropped (col : string) (cols l : list string) :
  List.filter (fun c => negb (bool_decide (c ∈ cols)))
    (List.filter (fun c => negb (String.eqb c col)) l) =
  List.filter (fun c => negb (bool_decide (c ∈ col :: cols))) l.
Proof.
  induction l as [|x l IHl]; [done|]. cbn [List.filter].
  destruct (String.eqb_spec x col) as [-> |Hne]; cbn [negb].
  - rewrite (bool_decide_eq_true_2 (col ∈ col :: cols)) by left. apply IHl.
  - cbn [List.filter]. rewrite IHl.
    destruct (bool_decide_reflect (x ∈ cols)) as [Hx|Hx].
    + rewrite (bool_decide_eq_true_2 (x ∈ col :: cols)); [done|by right].
    + rewrite (bool_decide_eq_false_2 (x ∈ col :: cols)); [done|].
      intros [?|?]%elem_of_cons; done.
Qed.

Lemma filter_not_listed_absent (col : string) (cols l : list string) :
  col ∉ l ->
  List.filter (fun c => negb (bool_decide (c ∈ cols))) l =
  List.filter (fun c => negb (bool_decide (c ∈ col :: cols))) l.
Proof.
  induction l as [|x l IHl]; [done|]. intros [Hne Hcol]%not_elem_of_cons.
  cbn [List.filter]. rewrite (IHl Hcol).
  destruct (bool_decide_reflect (x ∈ cols)) as [Hx|Hx].
  - rewrite (bool_decide_eq_true_2 (x ∈ col :: cols)); [done|by right].
  - rewrite (bool_decide_eq_false_2 (x ∈ col :: cols)); [done|].
    intros [?|?]%elem_of_cons; [|done]. by subst.
Qed.

Lemma drop_columns_lenient (cols : list string) (df : Frame.t) :
  exists out,
    DropColumns.loop true cols df = Ok out /\
    Frame.columns out =
      List.filter (fun c => negb (bool_decide (c ∈ cols))) (Frame.columns df) /\
    length (Frame.rows out) = length (Frame.rows df) /\
    (forall i r r' c,
       Frame.rows df !! i = Some r -> Frame.rows out !! i = Some r' ->
       r' !! c = if bool_decide (c ∈ cols /\ c ∈ Frame.columns df) then None
                 else r !! c).
Proof.
  revert df. induction cols as [|col cols IH]; intros df; cbn [DropColumns.loop].
  - exists df. split; [done|]. split.
    + induction (Frame.columns df) as [|x l IHl]; [done|].
      cbn [List.filter].
      rewrite (bool_decide_eq_false_2 (x ∈ [])) by apply not_elem_of_nil.
      cbn [negb]. f_equal. exact IHl.
    + split; [done|]. intros i r r' c Hr Hr'.
      rewrite bool_decide_eq_false_2; [congruence|].
      intros [Hin _]. by apply elem_of_nil in Hin.
  - destruct (bool_decide_reflect (col ∈ Frame.columns df)) as [Hcol|Hcol].
    + destruct (IH (Frame.drop col df)) as (out & Hloop & Hcols & Hlen & Hrows).
      exists out. split; [done|]. split; [|split].
      * rewrite Hcols. apply filter_not_listed_dropped.
      * rewrite Hlen. unfold Frame.drop. simpl. apply length_map.
      * intros i r r' c Hr Hr'.
        assert (Hdropped : Frame.rows (Frame.drop col df) !! i = Some (delete col r)).
        { unfold Frame.drop. simpl. by rewrite list_lookup_fmap, Hr. }
        rewrite (Hrows i _ r' c Hdropped Hr').
        destruct (String.eqb_spec c col) as [-> |Hne].
        -- rewrite (bool_decide_eq_true_2 (col ∈ col :: cols /\ _));
             [|split; [left|done]].
           rewrite lookup_delete_eq. by case_bool_decide.
        -- rewrite lookup_delete_ne by done.
           destruct (bool_decide_reflect (c ∈ cols /\ c ∈ Frame.columns (Frame.drop col df)))
             as [[H1 H2]|Hno].
           ++ apply elem_of_drop_columns in H2 as [H2 _].
              rewrite bool_decide_eq_true_2; [done|]. split; [by right|done].
           ++ rewrite bool_decide_eq_false_2; [done|].
              intros [[?|H1]%elem_of_cons H2]; [done|].
              apply Hno. split; [done|]. by apply elem_of_drop_columns.
    + destruct (IH df) as (out & Hloop & Hcols & Hlen & Hrows).
      exists out. split; [done|]. split; [|split; [done|]].
      * rewrite Hcols. by apply filter_not_listed_absent.
      * intros i r r' c Hr Hr'. rewrite (Hrows i r r' c Hr Hr').
        destruct (bool_decide_reflect (c ∈ cols /\ c ∈ Frame.columns df)) as [[H1 H2]|Hno].
        -- rewrite bool_decide_eq_true_2; [done|]. split; [by right|done].
        -- rewrite bool_decide_eq_false_2; [done|].
           intros [[?|H1]%elem_of_cons H2]; [by subst|]. by apply Hno.
Qed.

Lemma drop_columns_absent (ignore_missing : bool) (cols : list string) (df : Frame.t) :
  ignore_missing = true ->
  Forall (fun c => c ∉ Frame.columns df) cols ->
  DropColumns.loop ignore_missing cols df = Ok df.
Proof.
  intros ->. induction 1 as [|c cols Hc _ IH]; simpl; [done|].
  by rewrite (bool_decide_eq_false_2 _ Hc).
Qed.

(** X8: with [ignore_missing] (the default) [DropColumns] never raises.
    The frame it returns has the columns of the input that are not
    listed, in their order, and as many rows; in every row a listed
    column of the input is gone and every other cell is as it was; and
    transforming the result again returns it unchanged. *)
Theorem drop_columns_removes_listed (self : DropColumns.t) (df : Frame.t) :
  DropColumns.ignore_missing self = true ->
  exists out,
    DropColumns.transform self df = Ok out /\
    Frame.columns out =
      List.filter (fun c => negb (bool_decide (c ∈ DropColumns.columns self)))
        (Frame.columns df) /\
    length (Frame.rows out) = length (Frame.rows df) /\
    (forall i r r' c,
       Frame.rows df !! i = Some r -> Frame.rows out !! i = Some r' ->
       r' !! c =
       if bool_decide (c ∈ DropColumns.columns self /\ c ∈ Frame.columns df)
       then None else r !! c) /\
    DropColumns.transform self out = Ok out.
Proof.
  intros Hlenient. unfold DropColumns.transform. rewrite Hlenient.
  destruct (drop_columns_lenient (DropColumns.columns self) df)
    as (out & Hloop & Hcols & Hlen & Hrows).
  exists out. split; [done|]. split; [done|]. split; [done|]. split; [done|].
  apply drop_columns_absent; [done|]. apply Forall_forall. intros c Hc.
  rewrite Hcols. intros Hin. apply list_elem_of_In, filter_In in Hin as [_ Hin].
  by rewrite (bool_decide_eq_true_2 _ Hc) in Hin.
Qed.

Lemma drop_columns_removes_listed_witness :
  exists out,
    DropColumns.transform (DropColumns.mk ["name"; "age"; "name"] true)
      example_people = Ok out /\
    Frame.columns out = ["id"].
Proof.
  destruct (drop_columns_removes_listed
              (DropColumns.mk ["name"; "age"; "name"] true) example_people eq_refl)
    as (out & Hout & Hcols & _).
  exists out. split; [exact Hout|]. rewrite Hcols. reflexivity.
Defined.

(** X9: without [ignore_missing], [DropColumns] returns a frame exactly
    when the listed columns are all columns of the input and no column is
    listed twice: the second mention of a column finds it already
    dropped.  Otherwise it raises a [TransformationError] that names a
    listed column. *)
Theorem drop_columns_strict_rejects_repeats (self : DropColumns.t) (df : Frame.t) :
  DropColumns.ignore_missing self = false ->
  ((exists out, DropColumns.transform self df = Ok out) <->
   NoDup (DropColumns.columns self) /\
   Forall (fun c => c ∈ Frame.columns df) (DropColumns.columns self)) /\
  (forall e, DropColumns.transform self df = Raise e ->
     exists c, c ∈ DropColumns.columns self /\ e = DropColumns.not_found c).
Proof.
  intros Hstrict. unfold DropColumns.transform. rewrite Hstrict.
  generalize (DropColumns.columns self) as cols. clear. intros cols.
  revert df. induction cols as [|col cols IH]; intros df; simpl.
  - split; [|done]. split; [intros _; split; constructor|]. intros _. by exists df.
  - destruct (bool_decide_reflect (col ∈ Frame.columns df)) as [Hcol|Hcol].
    + destruct (IH (Frame.drop col df)) as [Hok Hraise]. split.
      * rewrite Hok, NoDup_cons, Forall_cons, !Forall_forall. split.
        -- intros [Hnodup Hall]. split; [split; [|done]|split; [done|]].
           ++ intros Hin. by apply Hall, elem_of_drop_columns in Hin as [_ ?].
           ++ intros c Hc. by apply Hall, elem_of_drop_columns in Hc as [? _].
        -- intros [[Hfresh Hnodup] [_ Hall]]. split; [done|].
           intros c Hc. apply elem_of_drop_columns. split; [auto|].
           intros ->. done.
      * intros e He. destruct (Hraise e He) as (c & Hc & ->).
        exists c. split; [by right|done].
    + split.
      * split; [by intros [out ?]|]. intros [_ Hall].
        apply Forall_cons in Hall as [? _]. done.
      * intros e [= <-]. exists col. split; [left|done].
Qed.

Lemma drop_columns_strict_rejects_repeats_witness :
  DropColumns.transform (DropColumns.mk ["name"; "name"] false) example_people =
    Raise (DropColumns.not_found "name") /\
  ~ NoDup ["name"; "name"].
Proof.
  split; [reflexivity|]. intros Hnodup.
  destruct (drop_columns_strict_rejects_repeats
              (DropColumns.mk ["name"; "name"] false) example_people eq_refl)
    as [[_ Hok] _].
  destruct Hok as [out Hout].
  - split; [exact Hnodup|]. repeat constructor.
  - vm_compute in Hout. discriminate Hout.
Defined.

(** ** [DeduplicateRows] without an order *)






(** ** [CastColumns]: the names of types *)




Section cast_facts.
Context {W DataFrame : Type} `{!Platform W DataFrame}.

End cast_facts.


(* ================================================================== *)
(** * Properties of datalib.io.reader *)
(* ================================================================== *)

Section reader_facts.
Context {W DataFrame : Type} `{!Platform W DataFrame}.

Definition known_source_types : list string :=
  ["delta"; "table"; "parquet"; "csv"; "json"; "jdbc"; "sql"].

(** What [read] raises when a reader of its own refuses the source. *)
Definition refused_source (source_type requirement : string) : Exn :=
  exn DataReaderError
    ("Failed to read from " +:+ source_type +:+ " source: " +:+ requirement).

(** X12: whatever [read] raises is a [DataReaderError] whose message
    is "Failed to read from", the type of the source in lower case,
    "source:", and the message of the cause.  A source that lacks what
    its type requires is refused before Spark is asked anything: the
    world is as it was, and the error of the reader comes out wrapped
    like any other. *)
Theorem read_refuses_before_access (source : SourceConfig.t) (w : W) :
  let source_type :=
    SparkFn.map_chars SparkFn.lower_char (SourceConfig.type source) in
  (forall e w', DataReader.read source w = (Raise e, w') ->
     exn_class e = DataReaderError /\
     exists cause, e = refused_source source_type cause) /\
  (nonempty (SourceConfig.path source) = false ->
     (source_type = "parquet" ->
        DataReader.read source w =
          (Raise (refused_source source_type "Parquet source requires path"), w)) /\
     (source_type = "csv" ->
        DataReader.read source w =
          (Raise (refused_source source_type "CSV source requires path"), w)) /\
     (source_type = "json" ->
        DataReader.read source w =
          (Raise (refused_source source_type "JSON source requires path"), w)) /\
     (source_type ∉ known_source_types ->
        DataReader.read source w =
          (Raise (refused_source source_type "Generic source requires path"), w)) /\
     (source_type = "delta" -> nonempty (SourceConfig.table source) = false ->
        DataReader.read source w =
          (Raise (refused_source source_type
                    "Delta source requires path or table name"), w))) /\
  (source_type = "table" -> nonempty (SourceConfig.table source) = false ->
     DataReader.read source w =
       (Raise (refused_source source_type
                 "Table source requires catalog, schema, and table"), w)) /\
  (source_type = "jdbc" ->
     (nonempty (SourceConfig.connection_string source) = false ->
        DataReader.read source w =
          (Raise (refused_source source_type
                    "JDBC source requires connection_string"), w)) /\
     (nonempty (SourceConfig.connection_string source) = true ->
      nonempty (SourceConfig.table source) = false ->
      nonempty (SourceConfig.query source) = false ->
        DataReader.read source w =
          (Raise (refused_source source_type
                    "JDBC source requires table or query"), w))) /\
  (source_type = "sql" -> nonempty (SourceConfig.query source) = false ->
     DataReader.read source w =
       (Raise (refused_source source_type "SQL source requires query"), w)).
Proof.
  intros source_type.
  assert (Hname : nonempty (SourceConfig.table source) = false ->
                  DataReader.get_full_table_name source = None).
  { intros Htable. unfold DataReader.get_full_table_name. rewrite Htable.
    by rewrite !andb_false_r. }
  split; [|split; [|split; [|split]]].
  - intros e w'. unfold DataReader.read, try_except. fold source_type.
    match goal with
    | |- context [match ?m w with _ => _ end] => destruct (m w) as [[df|cause] w1]
    end; [done|].
    unfold raise. intros [= <- <-]. split; [done|]. by exists (exn_msg cause).
  - intros Hpath. repeat split.
    + intros Htype. unfold DataReader.read, try_except. fold source_type.
      rewrite Htype. simpl. unfold DataReader._read_parquet, DataReader.read_files.
      by rewrite Hpath.
    + intros Htype. unfold DataReader.read, try_except. fold source_type.
      rewrite Htype. simpl. unfold DataReader._read_csv, DataReader.read_files.
      by rewrite Hpath.
    + intros Htype. unfold DataReader.read, try_except. fold source_type.
      rewrite Htype. simpl. unfold DataReader._read_json, DataReader.read_files.
      by rewrite Hpath.
    + intros Htype. unfold DataReader.read, try_except. fold source_type.
      assert (Hother : forall t, t ∈ known_source_types ->
                                 String.eqb source_type t = false).
      { intros t Ht. destruct (String.eqb_spec source_type t) as [Heq|]; [|done].
        exfalso. apply Htype. by rewrite Heq. }
      rewrite !Hother by (apply (bool_decide_unpack _); vm_compute; reflexivity).
      unfold DataReader._read_generic. by rewrite Hpath.
    + intros Htype Htable. unfold DataReader.read, try_except. fold source_type.
      rewrite Htype. simpl. unfold DataReader._read_delta.
      by rewrite Hpath, (Hname Htable).
  - intros Htype Htable. unfold DataReader.read, try_except. fold source_type.
    rewrite Htype. simpl. unfold DataReader._read_table.
    by rewrite (Hname Htable).
  - intros Htype. split.
    + intros Hconn. unfold DataReader.read, try_except. fold source_type.
      rewrite Htype. simpl. unfold DataReader._read_jdbc. by rewrite Hconn.
    + intros Hconn Htable Hquery. unfold DataReader.read, try_except.
      fold source_type. rewrite Htype. simpl. unfold DataReader._read_jdbc.
      by rewrite Hconn, Htable, Hquery.
  - intros Htype Hquery. unfold DataReader.read, try_except. fold source_type.
    rewrite Htype. simpl. unfold DataReader._read_sql. by rewrite Hquery.
Qed.

Lemma fold_dict_set_get (k : string) (items base : Dict) :
  NoDup items.*1 ->
  dict_get k (fold_left (fun d kv => dict_set kv.1 kv.2 d) items base) =
  match dict_get k items with
  | Some v => Some v
  | None => dict_get k base
  end.
Proof.
  revert base. induction items as [|[k' v'] items IH]; intros base Hnodup; [done|].
  apply NoDup_cons in Hnodup as [Hfresh Hnodup]. cbn [fold_left dict_get].
  rewrite (IH _ Hnodup). cbn [fst snd].
  destruct (String.eqb_spec k k') as [-> |Hne].
  - by rewrite (dict_get_not_key k' items Hfresh), dict_get_set_eq.
  - rewrite (dict_get_set_ne _ _ _ _ Hne). done.
Qed.

(** X13: the options a CSV or a JSON source is read with are the
    defaults of the reader overridden by the options of the source: an
    option of the source has its value, another key has the default
    (for CSV: header, inferSchema and mode; for JSON: multiLine and
    mode).  A JDBC source with a table is read with [url] and [dbtable]
    and then its own options: the query, if there is one too, is not
    passed. *)
Theorem read_options_override_defaults (source : SourceConfig.t) (w : W) :
  NoDup (SourceConfig.options source).*1 ->
  (nonempty (SourceConfig.path source) = true ->
     (exists options,
        DataReader._read_csv source w =
          reader_load (mkDataFrameReader "csv" options) (SourceConfig.path source) w /\
        forall k,
          dict_get k options =
          match dict_get k (SourceConfig.options source) with
          | Some v => Some v
          | None =>
              dict_get k [("header", VStr "true"); ("inferSchema", VStr "true");
                          ("mode", VStr "PERMISSIVE")]
          end) /\
     (exists options,
        DataReader._read_json source w =
          reader_load (mkDataFrameReader "json" options) (SourceConfig.path source) w /\
        forall k,
          dict_get k options =
          match dict_get k (SourceConfig.options source) with
          | Some v => Some v
          | None => dict_get k [("multiLine", VStr "true"); ("mode", VStr "PERMISSIVE")]
          end)) /\
  (forall url table,
     SourceConfig.connection_string source = Some url -> url <> "" ->
     SourceConfig.table source = Some table -> table <> "" ->
     DataReader._read_jdbc source w =
       reader_load
         (mkDataFrameReader "jdbc"
            ([("url", VStr url); ("dbtable", VStr table)] ++
             SourceConfig.options source))
         None w).
Proof.
  intros Hnodup. split.
  - intros Hpath. split.
    + eexists. unfold DataReader._read_csv, DataReader.read_files, DataReader.load.
      rewrite Hpath. split; [reflexivity|].
      intros k. by rewrite fold_dict_set_get.
    + eexists. unfold DataReader._read_json, DataReader.read_files, DataReader.load.
      rewrite Hpath. split; [reflexivity|].
      intros k. by rewrite fold_dict_set_get.
  - intros url table Hurl Hne Htable Hnet.
    unfold DataReader._read_jdbc, DataReader.load. rewrite Hurl, Htable. simpl.
    destruct (String.eqb_spec url ""); [done|].
    destruct (String.eqb_spec table ""); [done|]. reflexivity.
Qed.
End reader_facts.

Lemma read_refuses_before_access_witness :
  DataReader.read
    (SourceConfig.mk "CSV" None None None None None None [])
    (Mock.mkWorld [("people", example_people)] [] 100) =
  (Raise (exn DataReaderError
            "Failed to read from csv source: CSV source requires path"),
   Mock.mkWorld [("people", example_people)] [] 100).
Proof.
  destruct (read_refuses_before_access
              (SourceConfig.mk "CSV" None None None None None None [])
              (Mock.mkWorld [("people", example_people)] [] 100))
    as (_ & Hpath & _).
  destruct (Hpath eq_refl) as (_ & Hcsv & _). exact (Hcsv eq_refl).
Defined.

Lemma read_options_override_defaults_witness :
  exists options,
    DataReader._read_csv
      (SourceConfig.mk "csv" (Some "people") None None None None None
         [("header", VStr "false"); ("sep", VStr ";")])
      (Mock.mkWorld [("people", example_people)] [] 100) =
    reader_load (mkDataFrameReader "csv" options) (Some "people")
      (Mock.mkWorld [("people", example_people)] [] 100) /\
    dict_get "header" options = Some (VStr "false") /\
    dict_get "inferSchema" options = Some (VStr "true") /\
    dict_get "sep" options = Some (VStr ";").
Proof.
  assert (Hnodup : NoDup ["header"; "sep"]).
  { apply (bool_decide_unpack _). vm_compute. reflexivity. }
  destruct (read_options_override_defaults
              (SourceConfig.mk "csv" (Some "people") None None None None None
                 [("header", VStr "false"); ("sep", VStr ";")])
              (Mock.mkWorld [("people", example_people)] [] 100) Hnodup)
    as [Hfiles _].
  destruct (Hfiles eq_refl) as [(options & Hread & Hget) _].
  exists options. split; [exact Hread|]. by rewrite !Hget.
Defined.
(* ================================================================== *)
(** * Further properties of datalib.io.writer *)
(* ================================================================== *)

Section writer_failures.
Context `{FloatRepr} {W DataFrame : Type} `{!Platform W DataFrame}.

Definition write_modes : list string := ["overwrite"; "append"; "merge"; "scd2"].

(** X14: whatever [write] raises is a [DataWriterError] whose message
    is "Failed to write to", the full name of the target table, and the
    message of the cause.  A mode that is none of overwrite, append,
    merge and scd2 (in any case) is refused only after the schema of the
    target has been created: the statement CREATE SCHEMA IF NOT EXISTS
    is run first, and the write then fails on the mode, or on the
    failure of that statement. *)
Theorem write_refuses_unknown_mode_after_schema
    (df : DataFrame) (w : W) (t : TargetConfig.t) :
  let mode := SparkFn.map_chars SparkFn.lower_char (TargetConfig.mode t) in
  (forall e s, DataWriter.write df (w, t) = (Raise e, s) ->
     exn_class e = DataWriterError /\
     exists cause,
       exn_msg e =
       "Failed to write to " +:+ TargetConfig.get_full_table_name t +:+ ": " +:+ cause) /\
  (mode ∉ write_modes ->
     DataWriter.write df (w, t) =
       let '(r, w1) :=
         spark_sql ("CREATE SCHEMA IF NOT EXISTS " +:+ TargetConfig.catalog t +:+
                    "." +:+ TargetConfig.schema t) w in
       (Raise (DataWriter.failed_to_write t
                 match r with
                 | Ok _ => exn DataWriterError ("Unknown write mode: " +:+ mode)
                 | Raise e => e
                 end),
        (w1, t))).
Proof.
  intros mode. split.
  - intros e s Hwrite.
    pose proof (write_moves_target df w t) as Hmoves. simpl in Hmoves.
    rewrite Hwrite in Hmoves. simpl in Hmoves.
    revert Hwrite. unfold DataWriter.write, DataWriter.target, bind at 1, gets.
    unfold try_except.
    match goal with
    | |- context [match ?m (w, t) with _ => _ end] =>
        destruct (m (w, t)) as [[n|cause] [w1 t1]]
    end; [done|].
    unfold bind, raise. intros [= <- <-]. simpl in Hmoves. split; [done|].
    exists (exn_msg cause). unfold DataWriter.failed_to_write. simpl.
    by destruct Hmoves as [-> |[_ ->]].
  - intros Hmode.
    assert (Hother : forall m, m ∈ write_modes -> String.eqb mode m = false).
    { intros m Hm. destruct (String.eqb_spec mode m) as [Heq|]; [|done].
      exfalso. apply Hmode. by rewrite Heq. }
    unfold DataWriter.write, DataWriter.target, bind at 1, gets. fold mode.
    rewrite !Hother by (apply (bool_decide_unpack _); vm_compute; reflexivity).
    unfold try_except, DataWriter._ensure_schema_exists, DataWriter.target,
      DataWriter.spark, DataWriter.create_schema_if_not_exists, bind, gets, zoom,
      raise, ret.
    simpl. by destruct (spark_sql _ w) as [[df'|e] w1].
Qed.

(** X15: [table_exists] turns a failure of the catalog into the answer
    no.  So when merge keys are configured and the catalog cannot be
    asked, a write in merge mode does not fail: it is the overwrite of
    the target table by the source frame, from the world the failure
    left. *)
Theorem merge_write_overwrites_when_catalog_fails
    (df : DataFrame) (w w1 : W) (t : TargetConfig.t) (e : Exn) :
  TargetConfig.merge_keys t <> [] ->
  catalog_tableExists (TargetConfig.get_full_table_name t) w = (Raise e, w1) ->
  DataWriter.table_exists (TargetConfig.catalog t) (TargetConfig.schema t)
    (TargetConfig.table t) w = (Ok false, w1) /\
  DataWriter._write_merge df (w, t) = DataWriter._write_overwrite df (w1, t).
Proof.
  intros Hkeys Hcatalog.
  assert (Hexists : DataWriter.table_exists (TargetConfig.catalog t)
                      (TargetConfig.schema t) (TargetConfig.table t) w = (Ok false, w1)).
  { unfold DataWriter.table_exists, try_except.
    unfold TargetConfig.get_full_table_name in Hcatalog. by rewrite Hcatalog. }
  split; [exact Hexists|].
  unfold DataWriter._write_merge, DataWriter.target, bind at 1, gets. simpl.
  destruct (TargetConfig.merge_keys t) as [|k keys]; [done|].
  unfold bind at 1, DataWriter.spark, zoom. simpl. by rewrite Hexists.
Qed.
End writer_failures.

(** The recording platform with a catalog that cannot be reached. *)
Definition unreachable_catalog : Platform Mock.World Frame.t := {|
  df_columns := Frame.columns;
  df_count := df_count (Platform := Mock.platform);
  df_filter := Mock.filter;
  df_groupBy_count := df_groupBy_count (Platform := Mock.platform);
  df_withColumn := Mock.withColumn;
  df_join_aliased := Mock.join_aliased;
  df_join := df_join (Platform := Mock.platform);
  spark_sql := spark_sql (Platform := Mock.platform);
  reader_load := reader_load (Platform := Mock.platform);
  spark_table := spark_table (Platform := Mock.platform);
  catalog_tableExists := fun _ => raise (exn AnalysisException "catalog unavailable");
  writer_saveAsTable := Mock.saveAsTable;
  delta_forName := delta_forName (Platform := Mock.platform);
  merge_execute := merge_execute (Platform := Mock.platform);
  datetime_now := datetime_now (Platform := Mock.platform)
|}.

Lemma write_refuses_unknown_mode_after_schema_witness :
  DataWriter.write (Platform0 := Mock.platform) example_people
    (Mock.empty, example_target "upsert" ["id"]) =
  (Raise (exn DataWriterError
            "Failed to write to main.silver.people: Unknown write mode: upsert"),
   (Mock.mkWorld [] ["CREATE SCHEMA IF NOT EXISTS main.silver"] 0,
    example_target "upsert" ["id"])).
Proof.
  destruct (write_refuses_unknown_mode_after_schema (Platform0 := Mock.platform)
              example_people Mock.empty (example_target "upsert" ["id"]))
    as [_ Hmode].
  rewrite Hmode; [reflexivity|].
  apply (bool_decide_unpack _). vm_compute. reflexivity.
Defined.

Lemma merge_write_overwrites_when_catalog_fails_witness :
  exists s,
    DataWriter._write_merge (Platform0 := unreachable_catalog) example_people
      (Mock.mkWorld [("main.silver.people", example_events)] [] 0,
       example_target "merge" ["id"]) = (Ok 3, s) /\
    Mock.lookup_table "main.silver.people" (Mock.tables s.1) = Some example_people.
Proof.
  assert (Hkeys : TargetConfig.merge_keys (example_target "merge" ["id"]) <> [])
    by discriminate.
  destruct (merge_write_overwrites_when_catalog_fails
              (Platform0 := unreachable_catalog) example_people
              (Mock.mkWorld [("main.silver.people", example_events)] [] 0)
              (Mock.mkWorld [("main.silver.people", example_events)] [] 0)
              (example_target "merge" ["id"])
              (exn AnalysisException "catalog unavailable") Hkeys eq_refl)
    as [_ Hmerge].
  rewrite Hmerge. eexists. split; [vm_compute; reflexivity|reflexivity].
Defined.

(* ================================================================== *)
(** * Further properties of datalib.utils.validators *)
(* ================================================================== *)

Section quality_results.
Context `{FloatRepr} {W DataFrame : Type} `{!Platform W DataFrame}.

(** The counters of [results] agree with the checks recorded in it. *)
Definition counted_results (results : Results.t DataFrame) : Prop :=
  Results.passed results =
    length (List.filter CheckResult.passed (Results.checks results)) /\
  Results.failed results =
    length (List.filter (fun r => negb (CheckResult.passed r)) (Results.checks results)).

Lemma quality_loop_returned (df : DataFrame) (total_rows : nat)
    (fail_on_error : bool) (checks : list Dict) (w w' : W)
    (results results' : Results.t DataFrame) :
  for_each (Validators.check_step df total_rows fail_on_error) checks (w, results) =
    (Ok tt, (w', results')) ->
  Results.validated_df results' = Results.validated_df results /\
  length (Results.checks results') = length (Results.checks results) + length checks /\
  (counted_results results -> counted_results results') /\
  (fail_on_error = true -> Results.failed results' = Results.failed results).
Proof.
  revert w results. induction checks as [|check checks IH]; intros w results.
  - simpl. intros [= <- <-]. split; [done|]. split; [lia|]. split; done.
  - destruct (evaluate_returns df total_rows check w) as (cr & w1 & Heval).
    cbn [for_each]. unfold bind at 1.
    rewrite (check_step_outcome _ _ _ _ _ _ _ _ Heval).
    destruct (CheckResult.passed cr) eqn:Hpassed.
    + intros Hrest. apply IH in Hrest as (Hdf & Hlen & Hcount & Hfailed).
      simpl in *. rewrite length_app in Hlen. simpl in Hlen.
      split; [done|]. split; [lia|]. split; [|done].
      intros [Hp Hf]. apply Hcount. unfold counted_results. simpl.
      rewrite !List.filter_app, !length_app. simpl. rewrite Hpassed. simpl.
      split; lia.
    + destruct fail_on_error; [done|].
      intros Hrest. apply IH in Hrest as (Hdf & Hlen & Hcount & Hfailed).
      simpl in *. rewrite length_app in Hlen. simpl in Hlen.
      split; [done|]. split; [lia|]. split; [|done].
      intros [Hp Hf]. apply Hcount. unfold counted_results. simpl.
      rewrite !List.filter_app, !length_app. simpl. rewrite Hpassed. simpl.
      split; lia.
Qed.

(** X16: when [run_quality_checks] returns, [validated_df] is the frame
    it was given, no row filtered; every check of the list is recorded,
    in [passed] are counted the recorded checks that passed and in
    [failed] the others; and with [fail_on_error] there is none of the
    latter: [failed] is 0 and all the checks passed. *)
Theorem quality_results_count_recorded_checks
    (df : DataFrame) (checks : list Dict) (fail_on_error : bool)
    (w w' : W) (results : Results.t DataFrame) :
  Validators.run_quality_checks df checks fail_on_error w = (Ok results, w') ->
  Results.validated_df results = df /\
  length (Results.checks results) = length checks /\
  Results.passed results =
    length (List.filter CheckResult.passed (Results.checks results)) /\
  Results.failed results =
    length (List.filter (fun r => negb (CheckResult.passed r))
              (Results.checks results)) /\
  (fail_on_error = true ->
     Results.failed results = 0 /\
     Results.passed results = length checks /\
     Forall (fun r => CheckResult.passed r = true) (Results.checks results)).
Proof.
  unfold Validators.run_quality_checks.
  destruct (df_count df w) as [[total_rows|e] w0]; [|done].
  destruct (for_each _ checks _) as [[[]|e] [w1 results1]] eqn:Hloop; [|done].
  simpl. intros [= <- <-].
  apply quality_loop_returned in Hloop as (Hdf & Hlen & Hcount & Hfailed).
  destruct Hcount as [Hp Hf]; [done|]. simpl in *.
  split; [done|]. split; [done|]. split; [done|]. split; [done|].
  intros Hfail. specialize (Hfailed Hfail).
  assert (Hnone : List.filter (fun r => negb (CheckResult.passed r))
                    (Results.checks results1) = []).
  { apply length_zero_iff_nil. lia. }
  assert (Hall : Forall (fun r => CheckResult.passed r = true) (Results.checks results1)).
  { apply Forall_forall. intros r Hr.
    destruct (CheckResult.passed r) eqn:Hpassed; [done|]. exfalso.
    assert (Hin : r ∈ List.filter (fun r => negb (CheckResult.passed r))
                        (Results.checks results1)).
    { apply list_elem_of_In, filter_In. split; [by apply list_elem_of_In|].
      by rewrite Hpassed. }
    rewrite Hnone in Hin. by apply elem_of_nil in Hin. }
  split; [done|]. split; [|done].
  rewrite Hp, <- Hlen. f_equal. clear -Hall.
  induction Hall as [|r l Hr _ IH]; [done|]. simpl. by rewrite Hr, IH.
Qed.

(** ** A threshold that cannot be applied *)

Lemma evaluate_after_dispatch (df : DataFrame) (total_rows : nat) (check : Dict)
    (w w1 : W) (partial : CheckResult.t) :
  Validators.dispatch df total_rows check (type_of check) (column_of check)
    (w, Validators.new_check_result check) = (Ok tt, (w1, partial)) ->
  Validators.evaluate df total_rows check w =
    let '(r, (w2, check_result)) :=
      try_except (Validators.apply_threshold total_rows check) Validators.on_error
        (w1, partial) in
    (res_map (fun _ => check_result) r, w2).
Proof.
  intros Hdispatch.
  unfold Validators.evaluate, Validators.try_body, try_except, bind.
  rewrite Hdispatch. reflexivity.
Qed.

(** X17: a threshold that is not a number (a string, [None], a list, a
    mapping) makes the check fail, even when the check itself found
    nothing: the comparison [threshold > 0] raises a [TypeError] inside
    the [try] block, so what the check had recorded is kept except
    that [passed] is false and the message is that of the error. *)
Theorem quality_check_fails_on_malformed_threshold
    (df : DataFrame) (total_rows : nat) (check : Dict)
    (w w1 : W) (partial : CheckResult.t) :
  let threshold := dict_get_default "threshold" (VInt 0) check in
  as_number threshold = None ->
  Validators.dispatch df total_rows check (type_of check) (column_of check)
    (w, Validators.new_check_result check) = (Ok tt, (w1, partial)) ->
  Validators.evaluate df total_rows check w =
    (Ok (CheckResult.mk (CheckResult.name partial) (CheckResult.type partial)
           (CheckResult.column partial) false (CheckResult.failed_count partial)
           ("Check error: '>' not supported between instances of '" +:+
            type_name threshold +:+ "' and 'int'")),
     w1).
Proof.
  intros threshold Hnumber Hdispatch.
  rewrite (evaluate_after_dispatch _ _ _ _ _ _ Hdispatch).
  unfold try_except, Validators.apply_threshold, bind at 1, lift_res, py_gt_int.
  fold threshold. rewrite Hnumber. reflexivity.
Qed.

(** X18: a [row_count] check never asks Spark anything: with integer
    bounds (0 and infinity when they are not given) and no threshold it
    passes exactly when the row count of the frame is within them, and
    records one failure otherwise.  With a positive threshold and an
    empty frame that has too few rows, the division of the one failure
    by the row count raises inside the [try] block: the check fails
    with the message of a division by zero in place of its own. *)
Theorem row_count_check_compares_total (df : DataFrame) (total_rows : nat)
    (check : Dict) (w : W) (min_rows : Z) (max_rows : option Z) :
  type_of check = VStr "row_count" ->
  dict_get_default "min" (VInt 0) check = VInt min_rows ->
  dict_get_default "max" (VFloat FInf) check =
    match max_rows with
    | Some n => VInt n
    | None => VFloat FInf
    end ->
  let within :=
    (min_rows <=? Z.of_nat total_rows)%Z &&
    match max_rows with
    | Some n => (Z.of_nat total_rows <=? n)%Z
    | None => true
    end in
  let message :=
    "Row count: " +:+ pretty total_rows +:+ " (expected: " +:+ pretty min_rows +:+
    "-" +:+ match max_rows with Some n => pretty n | None => "inf" end +:+ ")" in
  (dict_get "threshold" check = None ->
     Validators.evaluate df total_rows check w =
       (Ok (CheckResult.mk (Validators.check_name_of check) (VStr "row_count")
              (column_of check) within (if within then 0 else 1) message), w)) /\
  (forall limit,
     dict_get "threshold" check = Some (VInt limit) -> (0 < limit)%Z ->
     total_rows = 0 -> (0 < min_rows)%Z ->
     Validators.evaluate df total_rows check w =
       (Ok (CheckResult.mk (Validators.check_name_of check) (VStr "row_count")
              (column_of check) false 1 "Check error: division by zero"), w)).
Proof.
  intros Htype Hmin Hmax within message.
  assert (Hle : forall a b : Z, Qle_bool (inject_Z a) (inject_Z b) = (a <=? b)%Z).
  { intros a b. unfold Qle_bool, inject_Z. simpl. by rewrite !Z.mul_1_r. }
  assert (Hdispatch :
            Validators.dispatch df total_rows check (type_of check) (column_of check)
              (w, Validators.new_check_result check) =
            (Ok tt,
             (w, CheckResult.mk (Validators.check_name_of check) (VStr "row_count")
                   (column_of check) within (if within then 0 else 1) message))).
  { unfold Validators.dispatch. rewrite Htype. simpl. rewrite Hmin, Hmax.
    unfold bind at 1, lift_res, py_le_int. simpl. rewrite Hle.
    unfold Validators.new_check_result. rewrite Htype.
    subst within message.
    destruct (min_rows <=? Z.of_nat total_rows)%Z; simpl.
    - destruct max_rows as [n|]; simpl.
      + unfold bind, lift_res, py_int_le, Validators.update, modify. simpl.
        rewrite Hle. reflexivity.
      + reflexivity.
    - destruct max_rows as [n|]; reflexivity. }
  split.
  - intros Hthreshold. rewrite (evaluate_after_dispatch _ _ _ _ _ _ Hdispatch).
    unfold try_except, Validators.apply_threshold, dict_get_default.
    rewrite Hthreshold. reflexivity.
  - intros limit Hthreshold Hlimit Hempty Hpositive.
    rewrite (evaluate_after_dispatch _ _ _ _ _ _ Hdispatch).
    unfold try_except, Validators.apply_threshold, dict_get_default.
    rewrite Hthreshold. unfold bind at 1, lift_res, py_gt_int. simpl.
    assert (Hgt : float_lt (FFin (inject_Z 0)) (FFin (inject_Z limit)) = true).
    { unfold float_lt, float_le. rewrite Hle. apply negb_true_iff, Z.leb_gt, Hlimit. }
    rewrite Hgt. subst within. rewrite Hempty. simpl.
    assert (Hlow : (min_rows <=? Z.of_nat 0)%Z = false) by (apply Z.leb_gt, Hpositive).
    rewrite Hlow. reflexivity.
Qed.
End quality_results.

Lemma quality_results_count_recorded_checks_witness :
  exists results w',
    Validators.run_quality_checks example_people
      [check_not_null "id"; check_not_null "name"] false Mock.empty =
      (Ok results, w') /\
    Results.validated_df results = example_people /\
    Results.passed results = 1 /\ Results.failed results = 1.
Proof.
  assert (Hrun : exists results w',
            Validators.run_quality_checks example_people
              [check_not_null "id"; check_not_null "name"] false Mock.empty =
            (Ok results, w')).
  { eexists _, _. vm_compute. reflexivity. }
  destruct Hrun as (results & w' & Hrun). exists results, w'.
  destruct (quality_results_count_recorded_checks _ _ _ _ _ _ Hrun)
    as (Hdf & _ & _ & _ & _).
  split; [exact Hrun|]. split; [exact Hdf|].
  vm_compute in Hrun. injection Hrun as <- _. split; reflexivity.
Defined.

Lemma quality_check_fails_on_malformed_threshold_witness :
  exists message,
    Validators.evaluate example_people 3
      [("type", VStr "not_null"); ("column", VStr "id"); ("threshold", VStr "5%")]
      Mock.empty =
    (Ok (CheckResult.mk (VStr "not_null_id") (VStr "not_null") (VStr "id")
           false 0 message), Mock.empty) /\
    message = "Check error: '>' not supported between instances of 'str' and 'int'".
Proof.
  eexists. split; [|reflexivity].
  apply (quality_check_fails_on_malformed_threshold example_people 3
           [("type", VStr "not_null"); ("column", VStr "id"); ("threshold", VStr "5%")]
           Mock.empty Mock.empty
           (CheckResult.mk (VStr "not_null_id") (VStr "not_null") (VStr "id")
              true 0 "0 null values found")).
  - reflexivity.
  - vm_compute. reflexivity.
Defined.

Lemma row_count_check_compares_total_witness :
  Validators.evaluate (Frame.mk ["id"] []) 0
    [("type", VStr "row_count"); ("min", VInt 1); ("threshold", VInt 1)]
    Mock.empty =
  (Ok (CheckResult.mk (VStr "row_count_None") (VStr "row_count") VNone
         false 1 "Check error: division by zero"), Mock.empty).
Proof.
  destruct (row_count_check_compares_total (Frame.mk ["id"] []) 0
              [("type", VStr "row_count"); ("min", VInt 1); ("threshold", VInt 1)]
              Mock.empty 1%Z None eq_refl eq_refl eq_refl)
    as [_ Hzero].
  apply (Hzero 1%Z); [reflexivity|lia|reflexivity|lia].
Defined.

(* ================================================================== *)
(** * Further properties of datalib.core.pipeline *)
(* ================================================================== *)

Lemma list_alter_pointwise {A} (f g : A -> A) (i : nat) (l : list A) :
  (forall x, f x = g x) -> alter f i l = alter g i l.
Proof.
  intros Hfg. revert i. induction l as [|x l IH]; intros [|i]; csimpl; [done..| |].
  - by rewrite Hfg.
  - by rewrite IH.
Qed.

Section pipeline_quality.
Context `{FloatRepr} {W DataFrame : Type} `{!Platform W DataFrame}.

(** X19: [_run_quality_checks] never raises the
    [PipelineExecutionError] it has a [raise] statement for.  What it
    raises has been raised by [run_quality_checks], before the counters
    of the metrics are set: with [fail_on_error] that is the
    [ValidationError] of the first check that fails, and a result that
    comes back has no failed check.  What it returns is the frame it was
    given; with the checks disabled it does nothing at all. *)
Theorem pipeline_quality_raise_is_unreachable
    (df : DataFrame) (s : Pipeline.State W DataFrame) :
  let quality := PipelineConfig.quality (Pipeline.config s) in
  (QualityConfig.enabled quality = false ->
     Pipeline._run_quality_checks df s = (Ok df, s)) /\
  (forall df' s', Pipeline._run_quality_checks df s = (Ok df', s') -> df' = df) /\
  (forall e s', Pipeline._run_quality_checks df s = (Raise e, s') ->
     QualityConfig.enabled quality = true /\
     exists w',
       Validators.run_quality_checks df (QualityConfig.checks quality)
         (QualityConfig.fail_on_error quality) (Pipeline.world s) = (Raise e, w') /\
       s' = Pipeline.set_world w' s).
Proof.
  intros quality.
  assert (Hreturned : forall results w',
            Validators.run_quality_checks df (QualityConfig.checks quality)
              (QualityConfig.fail_on_error quality) (Pipeline.world s) =
              (Ok results, w') ->
            Results.validated_df results = df /\
            (0 <? Results.failed results) && QualityConfig.fail_on_error quality = false).
  { intros results w'. unfold Validators.run_quality_checks.
    destruct (df_count df _) as [[total_rows|e] w0]; [|done].
    destruct (for_each _ _ _) as [[[]|e] [w1 results1]] eqn:Hloop; [|done].
    simpl. intros [= <- <-].
    apply quality_loop_returned in Hloop as (Hdf & _ & _ & Hfailed).
    split; [done|]. destruct (QualityConfig.fail_on_error quality); [|apply andb_false_r].
    rewrite Hfailed by done. done. }
  destruct (QualityConfig.enabled quality) eqn:Henabled.
  - destruct (Validators.run_quality_checks df (QualityConfig.checks quality)
                (QualityConfig.fail_on_error quality) (Pipeline.world s))
      as [[results|e] w'] eqn:Hrun.
    + destruct (Hreturned results w' eq_refl) as [Hdf Hdead].
      assert (Hvalue : exists s1, Pipeline._run_quality_checks df s = (Ok df, s1)).
      { unfold Pipeline._run_quality_checks, bind at 1, gets. fold quality.
        rewrite Henabled. simpl. unfold bind at 1, Pipeline.spark, zoom.
        rewrite Hrun. unfold bind at 1, Pipeline.update_metrics, modify.
        rewrite Hdead, Hdf. unfold ret. by eexists. }
      destruct Hvalue as [s1 Hvalue]. rewrite Hvalue.
      split; [done|]. split; [|done]. by intros df' s' [= <- _].
    + assert (Hvalue : Pipeline._run_quality_checks df s =
                       (Raise e, Pipeline.set_world w' s)).
      { unfold Pipeline._run_quality_checks, bind at 1, gets. fold quality.
        rewrite Henabled. simpl. unfold bind at 1, Pipeline.spark, zoom.
        by rewrite Hrun. }
      rewrite Hvalue. split; [done|]. split; [done|].
      intros e' s' [= <- <-]. split; [done|]. by exists w'.
  - assert (Hvalue : Pipeline._run_quality_checks df s = (Ok df, s)).
    { unfold Pipeline._run_quality_checks, bind at 1, gets. fold quality.
      by rewrite Henabled. }
    rewrite Hvalue. split; [done|]. split; [|done]. by intros df' s' [= <- _].
Qed.

(** X20: when [_apply_transformations] returns, the counter
    [transformations_applied] of the metrics of the run has grown by the
    number of transformations that are enabled, whatever it was; the
    other metrics objects are as they were.  A transformation that is
    disabled is not looked up: with all of them disabled nothing
    happens, even if their types are unknown. *)
Theorem apply_transformations_counts_enabled
    (df df' : DataFrame) (s s' : Pipeline.State W DataFrame) :
  Pipeline._apply_transformations df s = (Ok df', s') ->
  let enabled :=
    List.filter TransformationConfig.enabled
      (PipelineConfig.transformations (Pipeline.config s)) in
  Pipeline._metrics s' = Pipeline._metrics s /\
  Pipeline.heap s' =
    alter (fun m => Nat.iter (length enabled) PipelineMetrics.count_transformation m)
      (Pipeline._metrics s) (Pipeline.heap s) /\
  (forall m, Pipeline.heap s !! Pipeline._metrics s = Some m ->
     exists m',
       Pipeline.heap s' !! Pipeline._metrics s = Some m' /\
       PipelineMetrics.transformations_applied m' =
         PipelineMetrics.transformations_applied m + length enabled) /\
  (enabled = [] -> df' = df /\ s' = s).
Proof.
  unfold Pipeline._apply_transformations, bind at 1, gets.
  generalize (PipelineConfig.transformations (Pipeline.config s)) as l.
  intros l Hloop.
  assert (Hgen : Pipeline._metrics s' = Pipeline._metrics s /\
                 Pipeline.heap s' =
                   alter (fun m => Nat.iter
                                     (length (List.filter TransformationConfig.enabled l))
                                     PipelineMetrics.count_transformation m)
                     (Pipeline._metrics s) (Pipeline.heap s) /\
                 (List.filter TransformationConfig.enabled l = [] -> df' = df /\ s' = s)).
  { revert df s Hloop. induction l as [|trans_config l IH]; intros df s; simpl.
    - unfold ret. intros [= <- <-]. split; [done|]. split; [|done].
      symmetry. apply list_alter_id. done.
    - destruct (TransformationConfig.enabled trans_config); simpl; [|apply IH].
      unfold bind at 1, gets.
      destruct (Pipeline._transformations s _) as [trans_class|]; [|done].
      unfold bind at 1, lift_res.
      destruct (trans_class _) as [transformation|e]; [|done].
      unfold bind at 1, Pipeline.spark, zoom.
      destruct (transformation df (Pipeline.world s)) as [[df1|e] w1]; [|done].
      unfold bind at 1, Pipeline.update_metrics, modify.
      intros Hrest. apply IH in Hrest as (Hm & Hheap & _). simpl in *.
      split; [done|]. split; [|done].
      rewrite Hheap, list_alter_alter_eq. apply list_alter_pointwise.
      intros m. unfold compose.
      generalize (length (List.filter TransformationConfig.enabled l)) as n.
      intros n. induction n as [|n IHn]; simpl; [done|]. by rewrite IHn. }
  destruct Hgen as (Hm & Hheap & Hnone).
  split; [done|]. split; [done|]. split; [|done].
  intros m Hget. rewrite Hheap, list_lookup_alter_eq, Hget.
  eexists. split; [reflexivity|]. simpl.
  generalize (length (List.filter TransformationConfig.enabled l)) as n.
  clear. intros n. induction n as [|n IH]; simpl; [lia|].
  rewrite IH. lia.
Qed.
End pipeline_quality.

(** A registry with one transformation, which ignores its parameters. *)
Definition example_registry (name : string)
  : option (Pipeline.Transformation Mock.World Frame.t) :=
  if String.eqb name "standardize_strings" then
    Some (fun _ =>
            Ok (fun df =>
                  ret (StandardizeStrings.transform
                         (StandardizeStrings.mk ["name"] true true false false) df)))
  else None.

(** A pipeline at the start of its run, at the time 100. *)
Definition example_started (sources : list SourceConfig.t)
    (transformations : list TransformationConfig.t) (parameters : Dict)
  : Pipeline.State Mock.World Frame.t :=
  Pipeline.mkState (Mock.mkWorld [("people", example_people)] [] 101)
    (PipelineConfig.mk "people_bronze" "bronze" "" "1.0.0" "" [] None sources None
       ProcessingConfig.default transformations (QualityConfig.mk true false [])
       parameters)
    [PipelineMetrics.new "people_bronze" 100] 0 example_registry.

Lemma apply_transformations_counts_enabled_witness :
  exists df' s',
    Pipeline._apply_transformations example_people
      (example_started []
         [TransformationConfig.mk "standardize_strings" [] true;
          TransformationConfig.mk "no_such_type" [] false;
          TransformationConfig.mk "standardize_strings" [] true] []) = (Ok df', s') /\
    PipelineMetrics.transformations_applied <$> Pipeline.heap s' !! 0 = Some 2.
Proof.
  assert (Hrun : exists df' s',
            Pipeline._apply_transformations example_people
              (example_started []
                 [TransformationConfig.mk "standardize_strings" [] true;
                  TransformationConfig.mk "no_such_type" [] false;
                  TransformationConfig.mk "standardize_strings" [] true] []) =
            (Ok df', s')).
  { eexists _, _. vm_compute. reflexivity. }
  destruct Hrun as (df' & s' & Hrun). exists df', s'. split; [exact Hrun|].
  destruct (apply_transformations_counts_enabled _ _ _ _ Hrun) as (_ & _ & Hcount & _).
  destruct (Hcount (PipelineMetrics.new "people_bronze" 100) eq_refl)
    as (m' & Hm' & Happlied).
  simpl in Hm'. rewrite Hm'. simpl. by rewrite Happlied.
Defined.

(** ** Several sources and no join keys *)

Section pipeline_sources.
Context `{FloatRepr} {W DataFrame : Type} `{!Platform W DataFrame}.

(** An action of the platform changes nothing of the pipeline but the
    world. *)
Lemma spark_changes_world {A} (m : M W A) (s s' : Pipeline.State W DataFrame)
    (r : Res A) :
  Pipeline.spark m s = (r, s') ->
  exists w', s' = Pipeline.set_world w' s.
Proof.
  unfold Pipeline.spark, zoom. destruct (m (Pipeline.world s)) as [r' w'].
  intros [= _ <-]. by exists w'.
Qed.

Lemma read_all_changes_world (sources : list SourceConfig.t)
    (s s' : Pipeline.State W DataFrame) (others : list DataFrame) :
  Pipeline.read_all sources s = (Ok others, s') ->
  length others = length sources /\
  Pipeline.config s' = Pipeline.config s /\
  Pipeline.heap s' = Pipeline.heap s /\
  Pipeline._metrics s' = Pipeline._metrics s.
Proof.
  revert s s' others.
  induction sources as [|source sources IH]; intros s s' others; simpl.
  - by intros [= <- <-].
  - unfold bind at 1.
    destruct (Pipeline._read_source source s) as [[df|e] s1] eqn:Hread; [|done].
    apply spark_changes_world in Hread as [w1 ->].
    unfold bind at 1.
    destruct (Pipeline.read_all sources _) as [[dfs|e] s2] eqn:Hrest; [|done].
    apply IH in Hrest as (Hlen & Hconfig & Hheap & Hm).
    unfold ret. intros [= <- <-]. simpl. by rewrite Hlen.
Qed.

(** X21: a pipeline with two sources or more and no join keys (no
    [join] section in its parameters, or one without [keys], or with an
    empty list of them) reads every source and then raises the
    [PipelineExecutionError] of [_join_sources].  [run] lets that error
    through as it is: the metrics it carries are those of the run, not
    completed, their status still ["running"]. *)
Theorem run_without_join_keys_leaves_metrics_running
    (s sa sb : Pipeline.State W DataFrame)
    (source : SourceConfig.t) (sources : list SourceConfig.t)
    (first : DataFrame) (others : list DataFrame) (join_config : Dict) :
  PipelineConfig.sources (Pipeline.config s) = source :: sources ->
  sources <> [] ->
  dict_get_default "join" (VDict []) (PipelineConfig.parameters (Pipeline.config s)) =
    VDict join_config ->
  truthy (dict_get_default "keys" (VList []) join_config) = false ->
  Pipeline._read_source source (Pipeline.new_metrics s).2 = (Ok first, sa) ->
  Pipeline.read_all sources sa = (Ok others, sb) ->
  Pipeline.run s =
    (Raise (mkExn PipelineExecutionError
              "Join keys must be specified for multi-source pipelines"
              (Some (length (Pipeline.heap s)))), sb) /\
  exists m,
    Pipeline.heap sb !! length (Pipeline.heap s) = Some m /\
    PipelineMetrics.status m = "running" /\
    PipelineMetrics.end_time m = None /\
    PipelineMetrics.error_message m = None.
Proof.
  intros Hsources Hmany Hjoin Hkeys Hfirst Hothers.
  destruct (new_metrics_object s) as (now0 & Hnew & Haddr & Hconfig & Hheap).
  set (s0 := (Pipeline.new_metrics s).2) in *.
  pose proof Hfirst as Hsa. apply spark_changes_world in Hsa as [wa ->].
  pose proof Hothers as Hsb.
  apply read_all_changes_world in Hsb as (Hlen & Hconfigb & Hheapb & Hmb).
  simpl in Hconfigb, Hheapb, Hmb.
  assert (Hbody : Pipeline.run_body s0 =
            (Raise (mkExn PipelineExecutionError
                      "Join keys must be specified for multi-source pipelines"
                      (Some (length (Pipeline.heap s)))), sb)).
  { unfold Pipeline.run_body, bind at 1, gets. rewrite Hconfig, Hsources.
    destruct sources as [|source2 sources]; [done|].
    unfold bind at 1. unfold bind at 1. rewrite Hfirst.
    unfold bind at 1. rewrite Hothers.
    destruct others as [|df others]; [done|].
    unfold Pipeline._join_sources, bind at 1, gets.
    rewrite Hconfigb, Hconfig, Hjoin. simpl.
    unfold bind at 1, lift_res. simpl. unfold bind at 1. rewrite Hkeys.
    unfold Pipeline.raise_execution_error, Pipeline.execution_error, bind, gets, raise.
    by rewrite Hmb, Haddr. }
  split.
  - unfold Pipeline.run, bind at 1. rewrite Hnew.
    unfold bind at 1, try_except. rewrite Hbody. reflexivity.
  - exists (PipelineMetrics.new (PipelineConfig.name (Pipeline.config s)) now0).
    split; [|done]. rewrite Hheapb, Hheap. by apply list_lookup_middle.
Qed.
End pipeline_sources.

Definition example_people_source : SourceConfig.t :=
  SourceConfig.mk "table" None None None (Some "people") None None [].

Lemma run_without_join_keys_leaves_metrics_running_witness :
  exists s',
    Pipeline.run (example_run [example_people_source; example_people_source]) =
      (Raise (mkExn PipelineExecutionError
                "Join keys must be specified for multi-source pipelines" (Some 0)),
       s') /\
    PipelineMetrics.status <$> Pipeline.heap s' !! 0 = Some "running".
Proof.
  assert (Hread : exists first others sa sb,
            Pipeline._read_source example_people_source
              (Pipeline.new_metrics
                 (example_run [example_people_source; example_people_source])).2 =
              (Ok first, sa) /\
            Pipeline.read_all [example_people_source] sa = (Ok others, sb)).
  { eexists _, _, _, _. split; vm_compute; reflexivity. }
  destruct Hread as (first & others & sa & sb & Hfirst & Hothers).
  assert (Hmany : [example_people_source] <> []) by discriminate.
  destruct (run_without_join_keys_leaves_metrics_running
              (example_run [example_people_source; example_people_source])
              sa sb example_people_source [example_people_source] first others []
              eq_refl Hmany eq_refl eq_refl Hfirst Hothers)
    as (Hrun & m & Hm & Hstatus & _).
  exists sb. split; [exact Hrun|]. simpl in Hm. rewrite Hm. simpl. by rewrite Hstatus.
Defined.

(** ** A run that returns *)

Section pipeline_success.
Context `{FloatRepr} {W DataFrame : Type} `{!Platform W DataFrame}.

(** [s'] has the metrics objects of [s], and they are as they were but
    for the one [self._metrics] refers to, which has kept its name and
    its start time. *)
Definition same_run (s s' : Pipeline.State W DataFrame) : Prop :=
  Pipeline._metrics s' = Pipeline._metrics s /\
  length (Pipeline.heap s') = length (Pipeline.heap s) /\
  (forall i, i <> Pipeline._metrics s ->
     Pipeline.heap s' !! i = Pipeline.heap s !! i) /\
  (forall m, Pipeline.heap s !! Pipeline._metrics s = Some m ->
     exists m',
       Pipeline.heap s' !! Pipeline._metrics s = Some m' /\
       PipelineMetrics.pipeline_name m' = PipelineMetrics.pipeline_name m /\
       PipelineMetrics.start_time m' = PipelineMetrics.start_time m).

Lemma same_run_refl (s : Pipeline.State W DataFrame) : same_run s s.
Proof. split; [done|]. split; [done|]. split; [done|]. intros m Hm. by exists m. Qed.

Lemma same_run_trans (s1 s2 s3 : Pipeline.State W DataFrame) :
  same_run s1 s2 -> same_run s2 s3 -> same_run s1 s3.
Proof.
  intros (Hm & Hlen & Hother & Hself) (Hm' & Hlen' & Hother' & Hself').
  split; [congruence|]. split; [congruence|]. split.
  - intros i Hi. rewrite Hother', Hother; [done|done|congruence].
  - intros m Hget. destruct (Hself m Hget) as (m1 & Hget1 & Hname1 & Hstart1).
    rewrite <- Hm in Hget1. destruct (Hself' m1 Hget1) as (m2 & Hget2 & Hname2 & Hstart2).
    exists m2. rewrite <- Hm. split; [done|]. split; congruence.
Qed.

Lemma same_run_alter (f : PipelineMetrics.t -> PipelineMetrics.t)
    (s : Pipeline.State W DataFrame) (w : W) :
  (forall m, PipelineMetrics.pipeline_name (f m) = PipelineMetrics.pipeline_name m /\
             PipelineMetrics.start_time (f m) = PipelineMetrics.start_time m) ->
  same_run s
    (Pipeline.mkState w (Pipeline.config s)
       (alter f (Pipeline._metrics s) (Pipeline.heap s)) (Pipeline._metrics s)
       (Pipeline._transformations s)).
Proof.
  intros Hf. split; [done|]. split; [apply length_alter|]. split; simpl.
  - intros i Hi. by apply list_lookup_alter_ne.
  - intros m Hget. exists (f m). rewrite list_lookup_alter_eq, Hget.
    split; [done|]. apply Hf.
Qed.

Lemma spark_same_run {A} (m : M W A) :
  state_moves same_run (Pipeline.spark (DataFrame := DataFrame) m).
Proof.
  intros s. unfold Pipeline.spark, zoom. destruct (m _). simpl.
  split; [done|]. split; [done|]. split; [done|]. intros m' Hm'. by exists m'.
Qed.

Lemma update_metrics_same_run (f : PipelineMetrics.t -> PipelineMetrics.t) :
  (forall m, PipelineMetrics.pipeline_name (f m) = PipelineMetrics.pipeline_name m /\
             PipelineMetrics.start_time (f m) = PipelineMetrics.start_time m) ->
  state_moves same_run (Pipeline.update_metrics (W := W) (DataFrame := DataFrame) f).
Proof. intros Hf s. by apply same_run_alter. Qed.

Lemma complete_same_run (status : string) (error : option string) :
  state_moves same_run
    (Pipeline.complete (W := W) (DataFrame := DataFrame) status error).
Proof.
  intros s. unfold Pipeline.complete. destruct (datetime_now _) as [now w].
  by apply same_run_alter.
Qed.

Lemma write_target_same_run (df : DataFrame) (target : TargetConfig.t) :
  state_moves same_run (Pipeline._write_target df target).
Proof.
  intros s. unfold Pipeline._write_target, zoom. destruct (DataWriter.write _ _).
  simpl. split; [done|]. split; [done|]. split; [done|]. intros m Hm. by exists m.
Qed.
End pipeline_success.

Create HintDb run_frame discriminated.
#[local] Hint Resolve spark_same_run complete_same_run write_target_same_run
  : run_frame.

Ltac run_side :=
  solve [ apply same_run_refl | apply same_run_trans ].

Ltac run_frame :=
  repeat first
    [ solve [auto 3 with run_frame nocore]
    | apply update_metrics_same_run; intros ?; split; reflexivity
    | apply state_moves_ret; [run_side..]
    | apply state_moves_raise; [run_side..]
    | apply state_moves_lift_res; [run_side..]
    | apply state_moves_gets; [run_side..]
    | apply state_moves_bind; [run_side..| |intros ?]
    | apply state_moves_try_except; [run_side..| |intros ?]
    | match goal with
      | |- state_moves _ (match ?x with _ => _ end) => destruct x
      | |- state_moves _ (if ?b then _ else _) => destruct b
      end ].

Section pipeline_success_body.
Context `{FloatRepr} {W DataFrame : Type} `{!Platform W DataFrame}.

Lemma raise_execution_error_same_run {A} (message : string) :
  state_moves same_run
    (Pipeline.raise_execution_error (A := A) (W := W) (DataFrame := DataFrame) message).
Proof.
  unfold Pipeline.raise_execution_error, Pipeline.execution_error. run_frame.
Qed.
#[local] Hint Resolve raise_execution_error_same_run : run_frame.

Lemma apply_each_same_run (l : list TransformationConfig.t) (df : DataFrame) :
  state_moves same_run (Pipeline.apply_each (W := W) l df).
Proof.
  revert df. induction l as [|trans_config l IH]; intros df; simpl.
  - run_frame.
  - destruct (negb _); [apply IH|]. run_frame.
Qed.
#[local] Hint Resolve apply_each_same_run : run_frame.

Lemma read_all_same_run (sources : list SourceConfig.t) :
  state_moves same_run (Pipeline.read_all (W := W) (DataFrame := DataFrame) sources).
Proof.
  induction sources as [|source sources IH]; simpl.
  - run_frame.
  - unfold Pipeline._read_source. run_frame.
Qed.
#[local] Hint Resolve read_all_same_run : run_frame.

Lemma join_sources_same_run (first : DataFrame) (others : list DataFrame) :
  state_moves same_run (Pipeline._join_sources (W := W) first others).
Proof.
  unfold Pipeline._join_sources. destruct others as [|df others].
  { run_frame. }
  apply state_moves_bind; [run_side..|run_frame|intros c].
  apply state_moves_bind; [run_side..|run_frame|intros join_type].
  apply state_moves_bind; [run_side..|run_frame|intros join_keys].
  destruct (truthy join_keys) eqn:Hkeys; [|run_frame].
  apply state_moves_bind; [run_side..|run_frame|intros result].
  revert result. induction others as [|df' others IH]; intros result.
  - run_frame.
  - apply state_moves_bind; [run_side..|run_frame|apply IH].
Qed.
#[local] Hint Resolve join_sources_same_run : run_frame.

Lemma run_body_same_run :
  state_moves same_run (Pipeline.run_body (W := W) (DataFrame := DataFrame)).
Proof.
  unfold Pipeline.run_body, Pipeline._apply_transformations,
    Pipeline._run_quality_checks, Pipeline._read_source.
  run_frame.
Qed.

(** [m] returns only from [self._metrics.complete("success")]. *)
Definition ends_completed {A} (m : M (Pipeline.State W DataFrame) A) : Prop :=
  forall s a s', m s = (Ok a, s') ->
    exists s1, Pipeline.complete "success" None s1 = (Ok tt, s').

Lemma ends_completed_bind {A B} (m : M (Pipeline.State W DataFrame) A)
    (k : A -> M (Pipeline.State W DataFrame) B) :
  (forall a, ends_completed (k a)) -> ends_completed (bind m k).
Proof.
  intros Hk s b s'. unfold bind.
  destruct (m s) as [[a|e] s1]; [|done]. apply Hk.
Qed.

Lemma run_body_ends_completed :
  ends_completed (Pipeline.run_body (W := W) (DataFrame := DataFrame)).
Proof.
  unfold Pipeline.run_body.
  repeat (apply ends_completed_bind; intros ?).
  intros s [] s' Hcomplete. by exists s.
Qed.

(** X22: when [run] returns, what it returns is the metrics object the
    run created, and that object is completed: its status is
    ["success"], it has no error message, its start time is the time at
    which the run began, its end time the time at which
    [complete] was called and its duration their difference; its name
    is the name of the pipeline.  The metrics objects that were there
    before the run are as they were. *)
Theorem run_returns_completed_metrics
    (s s' : Pipeline.State W DataFrame) (result : nat) :
  Pipeline.run s = (Ok result, s') ->
  result = length (Pipeline.heap s) /\
  Pipeline._metrics s' = result /\
  (forall i, i < length (Pipeline.heap s) ->
     Pipeline.heap s' !! i = Pipeline.heap s !! i) /\
  exists m now,
    Pipeline.heap s' !! result = Some m /\
    PipelineMetrics.status m = "success" /\
    PipelineMetrics.error_message m = None /\
    PipelineMetrics.pipeline_name m = PipelineConfig.name (Pipeline.config s) /\
    PipelineMetrics.start_time m = (datetime_now (Pipeline.world s)).1 /\
    PipelineMetrics.end_time m = Some now /\
    PipelineMetrics.duration_seconds m = (now - PipelineMetrics.start_time m)%Z.
Proof.
  intros Hrun.
  assert (Hstart : exists w0,
            datetime_now (Pipeline.world s) = ((datetime_now (Pipeline.world s)).1, w0)).
  { destruct (datetime_now (Pipeline.world s)) as [now0 w0]. by exists w0. }
  destruct Hstart as [w0 Hstart].
  set (now0 := (datetime_now (Pipeline.world s)).1) in *.
  assert (Hnew : Pipeline.new_metrics s =
            (Ok tt,
             Pipeline.mkState w0 (Pipeline.config s)
               (Pipeline.heap s ++
                [PipelineMetrics.new (PipelineConfig.name (Pipeline.config s)) now0])
               (length (Pipeline.heap s)) (Pipeline._transformations s))).
  { unfold Pipeline.new_metrics. by rewrite Hstart. }
  unfold Pipeline.run, bind at 1 in Hrun. rewrite Hnew in Hrun.
  set (s0 := Pipeline.mkState _ _ _ _ _) in Hrun.
  unfold bind at 1, try_except in Hrun.
  pose proof (run_body_same_run s0) as Hframe.
  destruct (Pipeline.run_body s0) as [[[]|e0] s1] eqn:Hbody.
  - unfold gets in Hrun. injection Hrun as <- <-. simpl in Hframe.
    destruct Hframe as (Hm & Hlen & Hother & Hself).
    destruct (run_body_ends_completed _ _ _ Hbody) as [s2 Hcomplete].
    simpl in Hm, Hlen, Hother, Hself.
    destruct (Hself (PipelineMetrics.new (PipelineConfig.name (Pipeline.config s)) now0))
      as (m & Hget & Hname & Hbegin); [by apply list_lookup_middle|].
    split; [done|]. split; [done|]. split.
    { intros i Hi. rewrite Hother by lia. by apply lookup_app_l. }
    unfold Pipeline.complete in Hcomplete.
    destruct (datetime_now (Pipeline.world s2)) as [now w2].
    injection Hcomplete as <-. simpl in *.
    rewrite Hm, list_lookup_alter_eq in Hget.
    destruct (Pipeline.heap s2 !! length (Pipeline.heap s)) as [m2|] eqn:Hget2;
      [|done].
    injection Hget as <-. simpl in Hname, Hbegin.
    exists (PipelineMetrics.complete "success" None now m2), now.
    rewrite Hm, list_lookup_alter_eq, Hget2. simpl.
    repeat split; first [reflexivity|assumption].
  - exfalso. destruct (execution_error_or_not e0) as [Hclass|Hclass].
    + rewrite (run_handler_reraises _ Hclass) in Hrun. by unfold raise in Hrun.
    + rewrite (run_handler_wraps _ Hclass) in Hrun.
      unfold bind at 1, Pipeline.complete in Hrun.
      destruct (datetime_now (Pipeline.world s1)) as [now w1].
      by unfold Pipeline.raise_execution_error, Pipeline.execution_error,
           bind, gets, raise in Hrun.
Qed.
End pipeline_success_body.

Lemma run_returns_completed_metrics_witness :
  exists s',
    Pipeline.run (example_run [example_people_source]) = (Ok 0, s') /\
    exists m,
      Pipeline.heap s' !! 0 = Some m /\
      PipelineMetrics.status m = "success" /\
      PipelineMetrics.records_read m = 3.
Proof.
  assert (Hrun : exists result s',
            Pipeline.run (example_run [example_people_source]) = (Ok result, s')).
  { eexists _, _. vm_compute. reflexivity. }
  destruct Hrun as (result & s' & Hrun).
  destruct (run_returns_completed_metrics _ _ _ Hrun)
    as (Hresult & _ & _ & m & now & Hm & Hstatus & _).
  simpl in Hresult. subst result. exists s'. split; [exact Hrun|].
  exists m. split; [exact Hm|]. split; [exact Hstatus|].
  vm_compute in Hrun. injection Hrun as <-. vm_compute in Hm.
  by injection Hm as <-.
Defined.

(** ** Exceptions that escape the body of [run] *)

Section raise_frame.
Context {S : Type} (R : S -> S -> Prop).
Context (R_trans : forall s1 s2 s3, R s1 s2 -> R s2 s3 -> R s1 s3).

(** Where [m] raises, it has taken the state to one related to it by
    [R]. *)
Definition raise_moves {A} (m : M S A) : Prop :=
  forall s e s', m s = (Raise e, s') -> R s s'.

Lemma raise_moves_bind {A B} (m : M S A) (k : A -> M S B) :
  state_moves R m -> (forall a, raise_moves (k a)) -> raise_moves (bind m k).
Proof using R_trans.
  intros Hm Hk s e s'. unfold bind. specialize (Hm s).
  destruct (m s) as [[a|e1] s1] eqn:Hms; simpl in Hm.
  - intros Hka. eapply R_trans; [exact Hm|]. by eapply Hk.
  - by intros [= <- <-].
Qed.
End raise_frame.

Section pipeline_open.
Context `{FloatRepr} {W DataFrame : Type} `{!Platform W DataFrame}.

(** The metrics object [self._metrics] refers to is as far from being
    completed in [s'] as it is in [s]: same status, end time and error
    message. *)
Definition same_outcome (s s' : Pipeline.State W DataFrame) : Prop :=
  Pipeline._metrics s' = Pipeline._metrics s /\
  forall m, Pipeline.heap s !! Pipeline._metrics s = Some m ->
    exists m',
      Pipeline.heap s' !! Pipeline._metrics s = Some m' /\
      PipelineMetrics.status m' = PipelineMetrics.status m /\
      PipelineMetrics.end_time m' = PipelineMetrics.end_time m /\
      PipelineMetrics.error_message m' = PipelineMetrics.error_message m.

Lemma same_outcome_refl (s : Pipeline.State W DataFrame) : same_outcome s s.
Proof. split; [done|]. intros m Hm. by exists m. Qed.

Lemma same_outcome_trans (s1 s2 s3 : Pipeline.State W DataFrame) :
  same_outcome s1 s2 -> same_outcome s2 s3 -> same_outcome s1 s3.
Proof.
  intros (Hm & Hself) (Hm' & Hself'). split; [congruence|].
  intros m Hget. destruct (Hself m Hget) as (m1 & Hget1 & Hst1 & Hend1 & Herr1).
  rewrite <- Hm in Hget1.
  destruct (Hself' m1 Hget1) as (m2 & Hget2 & Hst2 & Hend2 & Herr2).
  exists m2. rewrite <- Hm. split; [done|]. repeat split; congruence.
Qed.

Lemma spark_same_outcome {A} (m : M W A) :
  state_moves same_outcome (Pipeline.spark (DataFrame := DataFrame) m).
Proof.
  intros s. unfold Pipeline.spark, zoom. destruct (m _). simpl.
  split; [done|]. intros m' Hm'. by exists m'.
Qed.

Lemma update_metrics_same_outcome (f : PipelineMetrics.t -> PipelineMetrics.t) :
  (forall m, PipelineMetrics.status (f m) = PipelineMetrics.status m /\
             PipelineMetrics.end_time (f m) = PipelineMetrics.end_time m /\
             PipelineMetrics.error_message (f m) = PipelineMetrics.error_message m) ->
  state_moves same_outcome (Pipeline.update_metrics (W := W) (DataFrame := DataFrame) f).
Proof.
  intros Hf s. split; [done|]. simpl. intros m Hget. exists (f m).
  rewrite list_lookup_alter_eq, Hget. split; [done|]. apply Hf.
Qed.

Lemma write_target_same_outcome (df : DataFrame) (target : TargetConfig.t) :
  state_moves same_outcome (Pipeline._write_target df target).
Proof.
  intros s. unfold Pipeline._write_target, zoom. destruct (DataWriter.write _ _).
  simpl. split; [done|]. intros m Hm. by exists m.
Qed.
End pipeline_open.

Create HintDb outcome_frame discriminated.
#[local] Hint Resolve spark_same_outcome write_target_same_outcome : outcome_frame.

Ltac outcome_side :=
  solve [ apply same_outcome_refl | apply same_outcome_trans ].

Ltac outcome_frame :=
  repeat first
    [ solve [auto 3 with outcome_frame nocore]
    | apply update_metrics_same_outcome; intros ?; repeat split; reflexivity
    | apply state_moves_ret; [outcome_side..]
    | apply state_moves_raise; [outcome_side..]
    | apply state_moves_lift_res; [outcome_side..]
    | apply state_moves_gets; [outcome_side..]
    | apply state_moves_bind; [outcome_side..| |intros ?]
    | apply state_moves_try_except; [outcome_side..| |intros ?]
    | match goal with
      | |- state_moves _ (match ?x with _ => _ end) => destruct x
      | |- state_moves _ (if ?b then _ else _) => destruct b
      end ].

Section pipeline_escape.
Context `{FloatRepr} {W DataFrame : Type} `{!Platform W DataFrame}.

Lemma raise_execution_error_same_outcome {A} (message : string) :
  state_moves same_outcome
    (Pipeline.raise_execution_error (A := A) (W := W) (DataFrame := DataFrame) message).
Proof.
  unfold Pipeline.raise_execution_error, Pipeline.execution_error. outcome_frame.
Qed.
#[local] Hint Resolve raise_execution_error_same_outcome : outcome_frame.

Lemma apply_each_same_outcome (l : list TransformationConfig.t) (df : DataFrame) :
  state_moves same_outcome (Pipeline.apply_each (W := W) l df).
Proof.
  revert df. induction l as [|trans_config l IH]; intros df; simpl.
  - outcome_frame.
  - destruct (negb _); [apply IH|]. outcome_frame.
Qed.
#[local] Hint Resolve apply_each_same_outcome : outcome_frame.

Lemma read_all_same_outcome (sources : list SourceConfig.t) :
  state_moves same_outcome
    (Pipeline.read_all (W := W) (DataFrame := DataFrame) sources).
Proof.
  induction sources as [|source sources IH]; simpl.
  - outcome_frame.
  - unfold Pipeline._read_source. outcome_frame.
Qed.
#[local] Hint Resolve read_all_same_outcome : outcome_frame.

Lemma join_sources_same_outcome (first : DataFrame) (others : list DataFrame) :
  state_moves same_outcome (Pipeline._join_sources (W := W) first others).
Proof.
  unfold Pipeline._join_sources. destruct others as [|df others].
  { outcome_frame. }
  apply state_moves_bind; [outcome_side..|outcome_frame|intros c].
  apply state_moves_bind; [outcome_side..|outcome_frame|intros join_type].
  apply state_moves_bind; [outcome_side..|outcome_frame|intros join_keys].
  destruct (truthy join_keys) eqn:Hkeys; [|outcome_frame].
  apply state_moves_bind; [outcome_side..|outcome_frame|intros result].
  revert result. induction others as [|df' others IH]; intros result.
  - outcome_frame.
  - apply state_moves_bind; [outcome_side..|outcome_frame|apply IH].
Qed.
#[local] Hint Resolve join_sources_same_outcome : outcome_frame.

(** The body of [run] completes the metrics in its last statement only,
    which does not raise: where the body raises, the metrics are not
    completed. *)
Lemma run_body_raises_open :
  raise_moves same_outcome (Pipeline.run_body (W := W) (DataFrame := DataFrame)).
Proof.
  unfold Pipeline.run_body, Pipeline._apply_transformations,
    Pipeline._run_quality_checks, Pipeline._read_source.
  repeat (apply raise_moves_bind; [apply same_outcome_trans|outcome_frame|intros ?]).
  intros s e s'. unfold Pipeline.complete. by destruct (datetime_now _).
Qed.

(** C2 (amended).  Whenever an exception [e0] escapes the body of the
    [try] statement of [run], [run] raises a [PipelineExecutionError],
    [self._metrics] is the object the run created, and at the raise in
    the body that object still has status ["running"], no end time and
    no error message.  If [e0] is not a [PipelineExecutionError], the
    error raised carries [str(e0)] and [self._metrics], and the object
    has been completed before the raise: status ["failed"], the message
    of [e0], an end time and the duration since its start.  If [e0] is
    a [PipelineExecutionError] it is raised again as it is and in the
    state it was raised in: the metrics are left running.  [run] raises
    in no other way.  With no source configured [run] raises the
    [PipelineExecutionError] of the body, and the metrics it carries
    have status ["running"], no end time and no error message. *)
Theorem run_finalizes_unless_execution_error (s : Pipeline.State W DataFrame) :
  let s0 := (Pipeline.new_metrics s).2 in
  let this := length (Pipeline.heap s) in
  (forall e0 s1, Pipeline.run_body s0 = (Raise e0, s1) ->
     exists e s' m,
       Pipeline.run s = (Raise e, s') /\
       exn_class e = PipelineExecutionError /\
       Pipeline._metrics s' = this /\
       Pipeline.heap s1 !! this = Some m /\
       PipelineMetrics.pipeline_name m = PipelineConfig.name (Pipeline.config s) /\
       PipelineMetrics.start_time m = (datetime_now (Pipeline.world s)).1 /\
       PipelineMetrics.status m = "running" /\
       PipelineMetrics.end_time m = None /\
       PipelineMetrics.error_message m = None /\
       (exn_class e0 <> PipelineExecutionError ->
          let now := (datetime_now (Pipeline.world s1)).1 in
          let m' := PipelineMetrics.complete "failed" (Some (exn_msg e0)) now m in
          e = mkExn PipelineExecutionError (exn_msg e0) (Some this) /\
          Pipeline.heap s' = <[this := m']> (Pipeline.heap s1) /\
          Pipeline.heap s' !! this = Some m' /\
          PipelineMetrics.status m' = "failed" /\
          PipelineMetrics.error_message m' = Some (exn_msg e0) /\
          PipelineMetrics.end_time m' = Some now /\
          PipelineMetrics.duration_seconds m' = (now - PipelineMetrics.start_time m)%Z) /\
       (exn_class e0 = PipelineExecutionError -> e = e0 /\ s' = s1)) /\
  (forall e s', Pipeline.run s = (Raise e, s') ->
     exists e0 s1, Pipeline.run_body s0 = (Raise e0, s1)) /\
  (PipelineConfig.sources (Pipeline.config s) = [] ->
     exists s' m,
       Pipeline.run s =
         (Raise (mkExn PipelineExecutionError "No source configured for pipeline"
                   (Some this)), s') /\
       Pipeline._metrics s' = this /\
       Pipeline.heap s' !! this = Some m /\
       PipelineMetrics.status m = "running" /\
       PipelineMetrics.end_time m = None /\
       PipelineMetrics.error_message m = None).
Proof.
  intros s0 this.
  assert (Hstart : exists w0,
            datetime_now (Pipeline.world s) = ((datetime_now (Pipeline.world s)).1, w0)).
  { destruct (datetime_now (Pipeline.world s)) as [now0 w0]. by exists w0. }
  destruct Hstart as [w0 Hstart].
  set (now0 := (datetime_now (Pipeline.world s)).1) in *.
  set (m0 := PipelineMetrics.new (PipelineConfig.name (Pipeline.config s)) now0).
  assert (Hnew : Pipeline.new_metrics s =
            (Ok tt,
             Pipeline.mkState w0 (Pipeline.config s) (Pipeline.heap s ++ [m0]) this
               (Pipeline._transformations s))).
  { unfold Pipeline.new_metrics. by rewrite Hstart. }
  assert (Hs0 : s0 = Pipeline.mkState w0 (Pipeline.config s) (Pipeline.heap s ++ [m0])
                       this (Pipeline._transformations s)).
  { unfold s0. by rewrite Hnew. }
  assert (Hget0 : Pipeline.heap s0 !! Pipeline._metrics s0 = Some m0).
  { rewrite Hs0. simpl. by apply list_lookup_middle. }
  assert (Hforward : forall e0 s1, Pipeline.run_body s0 = (Raise e0, s1) ->
            Pipeline._metrics s1 = this /\
            exists m,
              Pipeline.heap s1 !! this = Some m /\
              PipelineMetrics.pipeline_name m = PipelineConfig.name (Pipeline.config s) /\
              PipelineMetrics.start_time m = now0 /\
              PipelineMetrics.status m = "running" /\
              PipelineMetrics.end_time m = None /\
              PipelineMetrics.error_message m = None).
  { intros e0 s1 Hbody.
    destruct (run_body_raises_open _ _ _ Hbody) as (Hm & Hself).
    pose proof (run_body_same_run s0) as Hframe. rewrite Hbody in Hframe.
    destruct Hframe as (_ & _ & _ & Hself').
    destruct (Hself m0 Hget0) as (m & Hget & Hst & Hend & Herr).
    destruct (Hself' m0 Hget0) as (m' & Hget' & Hname & Hbegin).
    simpl in Hget'. rewrite Hget in Hget'. injection Hget' as <-.
    assert (Hthis : Pipeline._metrics s0 = this) by by rewrite Hs0.
    rewrite Hthis in *. split; [done|]. exists m. by repeat split. }
  assert (Hrun : Pipeline.run s =
            match Pipeline.run_body s0 with
            | (Ok _, s1) => (Ok (Pipeline._metrics s1), s1)
            | (Raise e0, s1) =>
                match Pipeline.run_handler e0 s1 with
                | (Ok _, s') => (Ok (Pipeline._metrics s'), s')
                | (Raise e, s') => (Raise e, s')
                end
            end).
  { unfold Pipeline.run, bind at 1. rewrite Hnew. fold s0 in Hs0. rewrite <- Hs0.
    unfold bind at 1, try_except.
    destruct (Pipeline.run_body s0) as [[[]|e0] s1]; [done|].
    by destruct (Pipeline.run_handler e0 s1) as [[[]|e] s']. }
  assert (Hescape : forall e0 s1, Pipeline.run_body s0 = (Raise e0, s1) ->
            exists e s' m,
              Pipeline.run s = (Raise e, s') /\
              exn_class e = PipelineExecutionError /\
              Pipeline._metrics s' = this /\
              Pipeline.heap s1 !! this = Some m /\
              PipelineMetrics.pipeline_name m = PipelineConfig.name (Pipeline.config s) /\
              PipelineMetrics.start_time m = now0 /\
              PipelineMetrics.status m = "running" /\
              PipelineMetrics.end_time m = None /\
              PipelineMetrics.error_message m = None /\
              (exn_class e0 <> PipelineExecutionError ->
                 let now := (datetime_now (Pipeline.world s1)).1 in
                 let m' := PipelineMetrics.complete "failed" (Some (exn_msg e0)) now m in
                 e = mkExn PipelineExecutionError (exn_msg e0) (Some this) /\
                 Pipeline.heap s' = <[this := m']> (Pipeline.heap s1) /\
                 Pipeline.heap s' !! this = Some m' /\
                 PipelineMetrics.status m' = "failed" /\
                 PipelineMetrics.error_message m' = Some (exn_msg e0) /\
                 PipelineMetrics.end_time m' = Some now /\
                 PipelineMetrics.duration_seconds m' =
                   (now - PipelineMetrics.start_time m)%Z) /\
              (exn_class e0 = PipelineExecutionError -> e = e0 /\ s' = s1)).
  { intros e0 s1 Hbody.
    destruct (Hforward e0 s1 Hbody)
      as (Hthis & m & Hget & Hname & Hbegin & Hst & Hend & Herr).
    rewrite Hrun, Hbody.
    destruct (execution_error_or_not e0) as [Hclass|Hclass].
    - rewrite (run_handler_reraises _ Hclass). unfold raise.
      exists e0, s1, m. by repeat split.
    - rewrite (run_handler_wraps _ Hclass).
      unfold bind at 1, Pipeline.complete.
      destruct (datetime_now (Pipeline.world s1)) as [now w] eqn:Hnow.
      unfold Pipeline.raise_execution_error, Pipeline.execution_error, bind, gets,
        raise. simpl. rewrite Hthis.
      eexists _, _, m. split; [reflexivity|]. simpl.
      split; [done|]. split; [done|]. split; [done|]. split; [done|].
      split; [done|]. split; [done|]. split; [done|]. split; [done|].
      split; [|done]. intros _. split; [done|].
      assert (Halter : alter (PipelineMetrics.complete "failed" (Some (exn_msg e0)) now)
                         this (Pipeline.heap s1) =
                       <[this := PipelineMetrics.complete "failed" (Some (exn_msg e0))
                                   now m]> (Pipeline.heap s1)).
      { apply list_eq. intros i. destruct (decide (i = this)) as [-> |Hne].
        - rewrite list_lookup_alter_eq, Hget. simpl.
          symmetry. apply list_lookup_insert_eq. by eapply lookup_lt_Some.
        - by rewrite list_lookup_alter_ne, list_lookup_insert_ne. }
      split; [exact Halter|]. split; [|done].
      rewrite Halter. apply list_lookup_insert_eq. by eapply lookup_lt_Some. }
  split; [exact Hescape|]. split.
  - intros e s'. rewrite Hrun.
    destruct (Pipeline.run_body s0) as [[[]|e0] s1]; [done|]. by exists e0, s1.
  - intros Hsources.
    assert (Hbody : Pipeline.run_body s0 =
              (Raise (mkExn PipelineExecutionError "No source configured for pipeline"
                        (Some this)), s0)).
    { rewrite run_body_no_source; rewrite Hs0; done. }
    destruct (Hescape _ _ Hbody)
      as (e & s' & m & Hraised & _ & Hthis & Hget & _ & _ & Hst & Hend & Herr & _ & Hsame).
    destruct (Hsame eq_refl) as [-> ->].
    by exists s0, m.
Qed.
End pipeline_escape.

Lemma run_finalizes_unless_execution_error_witness :
  exists s',
    Pipeline.run (example_run [unnamed_table]) =
      (Raise (mkExn PipelineExecutionError
                "Failed to read from table source: Table source requires catalog, schema, and table"
                (Some 0)), s') /\
    Pipeline.heap s' =
      [PipelineMetrics.mk "people_bronze" 100 (Some 101%Z) "failed" 0 0 0 0 0 0
         (Some "Failed to read from table source: Table source requires catalog, schema, and table")
         1].
Proof.
  destruct (run_finalizes_unless_execution_error (example_run [unnamed_table]))
    as (Hescape & _ & _).
  assert (Hbody :
            Pipeline.run_body (Pipeline.new_metrics (example_run [unnamed_table])).2 =
            (Raise (exn DataReaderError
                      "Failed to read from table source: Table source requires catalog, schema, and table"),
             (Pipeline.new_metrics (example_run [unnamed_table])).2)).
  { vm_compute. reflexivity. }
  destruct (Hescape _ _ Hbody)
    as (e & s' & m & Hrun & _ & _ & Hm & _ & _ & _ & _ & _ & Hwrap & _).
  destruct Hwrap as (-> & Hheap & _); [discriminate|].
  exists s'. split; [exact Hrun|]. rewrite Hheap.
  vm_compute in Hm. injection Hm as <-. reflexivity.
Defined.

(* ================================================================== *)
(** * datalib.io.writer: optimizing after an overwrite *)
(* ================================================================== *)

Section writer_optimize.
Context `{FloatRepr} {W DataFrame : Type} `{!Platform W DataFrame}.

(** X23: [_write_overwrite] counts the rows, saves the table, and only
    then looks at the [optimize] and [z_order_by] options.  Without
    [optimize] nothing more is run; with it, OPTIMIZE is run on the
    table, with ZORDER BY and the columns joined by commas when
    [z_order_by] is not empty.  If [z_order_by] cannot be joined (an
    entry that is not a string), the [TypeError] is raised after the
    table has been saved: the write fails in the world in which the
    data is written. *)
Theorem overwrite_optimizes_after_saving
    (df : DataFrame) (w w1 w2 : W) (t : TargetConfig.t) (record_count : nat) :
  df_count df w = (Ok record_count, w1) ->
  writer_saveAsTable (DataWriter.writer_for df t "overwrite")
    (TargetConfig.get_full_table_name t) w1 = (Ok tt, w2) ->
  let optimize := dict_get_default "optimize" (VBool false) (TargetConfig.options t) in
  let z_order_by := dict_get_default "z_order_by" (VList []) (TargetConfig.options t) in
  let table_name := TargetConfig.get_full_table_name t in
  (truthy optimize = false ->
     DataWriter._write_overwrite df (w, t) = (Ok record_count, (w2, t))) /\
  (truthy optimize = true -> truthy z_order_by = false ->
     DataWriter._write_overwrite df (w, t) =
       let '(r, w3) := spark_sql ("OPTIMIZE " +:+ table_name) w2 in
       (res_map (fun _ => record_count) r, (w3, t))) /\
  (truthy optimize = true -> truthy z_order_by = true ->
     (forall z_order_cols, py_join ", " z_order_by = Ok z_order_cols ->
        DataWriter._write_overwrite df (w, t) =
          let '(r, w3) :=
            spark_sql ("OPTIMIZE " +:+ table_name +:+ " ZORDER BY (" +:+
                       z_order_cols +:+ ")") w2 in
          (res_map (fun _ => record_count) r, (w3, t))) /\
     (forall e, py_join ", " z_order_by = Raise e ->
        DataWriter._write_overwrite df (w, t) = (Raise e, (w2, t)))).
Proof.
  intros Hcount Hsave optimize z_order_by table_name.
  assert (Hwrite : DataWriter._write_overwrite df (w, t) =
            match DataWriter._optimize_table (w2, t) with
            | (Ok _, s) => (Ok record_count, s)
            | (Raise e, s) => (Raise e, s)
            end).
  { unfold DataWriter._write_overwrite, DataWriter.target, bind at 1, gets.
    cbn [fst snd].
    unfold bind at 1, DataWriter.spark, zoom. cbn [fst snd]. rewrite Hcount.
    unfold bind at 1. cbn [fst snd]. rewrite Hsave. unfold bind at 1.
    by destruct (DataWriter._optimize_table (w2, t)) as [[[]|e] s]. }
  rewrite Hwrite. clear Hwrite.
  assert (Hoptimize : DataWriter._optimize_table (w2, t) =
            if truthy optimize then
              if truthy z_order_by then
                match py_join ", " z_order_by with
                | Ok z_order_cols =>
                    let '(r, w3) :=
                      spark_sql ("OPTIMIZE " +:+ table_name +:+ " ZORDER BY (" +:+
                                 z_order_cols +:+ ")") w2 in
                    (res_map (fun _ => tt) r, (w3, t))
                | Raise e => (Raise e, (w2, t))
                end
              else
                let '(r, w3) := spark_sql ("OPTIMIZE " +:+ table_name) w2 in
                (res_map (fun _ => tt) r, (w3, t))
            else (Ok tt, (w2, t))).
  { unfold DataWriter._optimize_table, DataWriter.target, bind at 1, gets.
    cbn [fst snd]. fold optimize z_order_by table_name.
    destruct (truthy optimize); [|done].
    destruct (truthy z_order_by).
    - unfold bind at 1, lift_res.
      destruct (py_join ", " z_order_by) as [z_order_cols|e]; [|done].
      unfold bind, DataWriter.spark, zoom, ret. cbn [fst snd].
      by destruct (spark_sql _ w2) as [[df'|e] w3].
    - unfold bind, DataWriter.spark, zoom, ret. cbn [fst snd].
      by destruct (spark_sql _ w2) as [[df'|e] w3]. }
  rewrite Hoptimize. clear Hoptimize.
  split; [|split].
  - by intros ->.
  - intros -> ->. by destruct (spark_sql _ w2) as [[df'|e] w3].
  - intros -> ->. split.
    + intros z_order_cols ->. by destruct (spark_sql _ w2) as [[df'|e] w3].
    + by intros e ->.
Qed.
End writer_optimize.

Lemma overwrite_optimizes_after_saving_witness :
  exists w2,
    DataWriter._write_overwrite example_people
      (Mock.empty,
       TargetConfig.mk "main" "silver" "people" "overwrite" "delta" []
         [("optimize", VBool true); ("z_order_by", VList [VStr "id"; VInt 7])] [] []) =
    (Raise (exn TypeError "sequence item 1: expected str instance, int found"),
     (w2,
      TargetConfig.mk "main" "silver" "people" "overwrite" "delta" []
        [("optimize", VBool true); ("z_order_by", VList [VStr "id"; VInt 7])] [] [])) /\
    Mock.lookup_table "main.silver.people" (Mock.tables w2) = Some example_people.
Proof.
  assert (Hsave : exists w2,
            writer_saveAsTable
              (DataWriter.writer_for example_people
                 (TargetConfig.mk "main" "silver" "people" "overwrite" "delta" []
                    [("optimize", VBool true);
                     ("z_order_by", VList [VStr "id"; VInt 7])] [] []) "overwrite")
              "main.silver.people" Mock.empty = (Ok tt, w2)).
  { eexists. vm_compute. reflexivity. }
  destruct Hsave as [w2 Hsave]. exists w2.
  assert (Hcount : df_count example_people Mock.empty = (Ok 3, Mock.empty))
    by reflexivity.
  destruct (overwrite_optimizes_after_saving example_people Mock.empty Mock.empty w2
              (TargetConfig.mk "main" "silver" "people" "overwrite" "delta" []
                 [("optimize", VBool true);
                  ("z_order_by", VList [VStr "id"; VInt 7])] [] [])
              3 Hcount Hsave)
    as (_ & _ & Hzorder).
  destruct (Hzorder eq_refl eq_refl) as [_ Hraise].
  split; [apply Hraise; reflexivity|].
  vm_compute in Hsave. injection Hsave as <-. reflexivity.
Defined.

(* ================================================================== *)
(** * datalib.core.pipeline: properties of the dry run *)
(* ================================================================== *)

Section dry_run_plan.
Context {W DataFrame : Type} `{!Platform W DataFrame}.
Context (sample : DataFrame -> M W Value).

(** The transformations a dry run of [l] applies: the classes of the
    enabled entries whose type is in the registry, with their
    parameters, in the order of the configuration. *)
Definition registered (registry : string -> option (Pipeline.Transformation W DataFrame))
    (l : list TransformationConfig.t)
  : list (Pipeline.Transformation W DataFrame * Dict) :=
  omap (fun t =>
          if TransformationConfig.enabled t then
            match registry (TransformationConfig.type t) with
            | Some trans_class => Some (trans_class, TransformationConfig.params t)
            | None => None
            end
          else None) l.

(** Constructing and applying them one after the other, in the world. *)
Fixpoint apply_all (l : list (Pipeline.Transformation W DataFrame * Dict))
    (df : DataFrame) : M W DataFrame :=
  match l with
  | [] => ret df
  | (trans_class, params) :: l' =>
      (transformation <- lift_res (trans_class params) ;;
       df' <- transformation df ;;
       apply_all l' df')%monad
  end.

Lemma registered_cons
    (registry : string -> option (Pipeline.Transformation W DataFrame))
    (t : TransformationConfig.t) (l : list TransformationConfig.t) :
  registered registry (t :: l) =
    if TransformationConfig.enabled t then
      match registry (TransformationConfig.type t) with
      | Some trans_class =>
          (trans_class, TransformationConfig.params t) :: registered registry l
      | None => registered registry l
      end
    else registered registry l.
Proof.
  unfold registered. cbn [omap list_omap].
  destruct (TransformationConfig.enabled t); [|done].
  by destruct (registry _).
Qed.

Lemma dry_apply_each_registered (l : list TransformationConfig.t)
    (listed : list (string * Dict)) (df : DataFrame)
    (s : Pipeline.State W DataFrame) :
  DryRun.apply_each l listed df s =
    match apply_all (registered (Pipeline._transformations s) l) df (Pipeline.world s) with
    | (Ok df', w') =>
        (Ok (listed ++
             map (fun t => (TransformationConfig.type t, TransformationConfig.params t))
               (List.filter TransformationConfig.enabled l), df'),
         Pipeline.set_world w' s)
    | (Raise e, w') => (Raise e, Pipeline.set_world w' s)
    end.
Proof.
  revert listed df s. induction l as [|trans_config l IH]; intros listed df s.
  - simpl. rewrite app_nil_r. by destruct s.
  - cbn [DryRun.apply_each List.filter]. rewrite registered_cons.
    destruct (TransformationConfig.enabled trans_config); [|apply IH].
    unfold bind at 1, gets.
    destruct (Pipeline._transformations s (TransformationConfig.type trans_config))
      as [trans_class|].
    + cbn [apply_all]. unfold bind at 1 3, lift_res.
      destruct (trans_class _) as [transformation|e]; [|by destruct s].
      unfold bind at 1 2, Pipeline.spark, zoom.
      destruct (transformation df (Pipeline.world s)) as [[df1|e] w1]; [|done].
      rewrite IH. cbn [map]. simpl Pipeline._transformations. simpl Pipeline.world.
      destruct (apply_all _ df1 w1) as [[df2|e] w2]; [|done].
      by rewrite <- app_assoc.
    + rewrite IH. cbn [map].
      destruct (apply_all _ df _) as [[df2|e] w2]; [|done].
      by rewrite <- app_assoc.
Qed.

(** X24: without sources [dry_run] asks Spark nothing and has no
    sample.  With sources, it reads the first one, constructs and
    applies in turn the enabled transformations whose type is
    registered, and takes the sample of the frame that comes out; the
    other sources are not read, and an enabled transformation of a type
    that is not registered, for which [run] raises, is passed over.
    The result lists all the sources and all the enabled
    transformations, registered or not.  Only the world has changed
    when it returns, and when it raises: configuration, metrics objects
    and registry are as they were.  What the reader, a transformation
    or the sampling raises comes out as it is, not wrapped. *)
Theorem dry_run_reads_first_source_only (s : Pipeline.State W DataFrame) :
  let c := Pipeline.config s in
  let enabled :=
    map (fun t => (TransformationConfig.type t, TransformationConfig.params t))
      (List.filter TransformationConfig.enabled (PipelineConfig.transformations c)) in
  let target := option_map DryRun.describe_target (PipelineConfig.target c) in
  (PipelineConfig.sources c = [] ->
     DryRun.dry_run sample s =
       (Ok (DryRun.mkResult (PipelineConfig.name c) (PipelineConfig.layer c) [] []
              target None), s)) /\
  (forall source others,
     PipelineConfig.sources c = source :: others ->
     DryRun.dry_run sample s =
       match DataReader.read source (Pipeline.world s) with
       | (Ok df, w1) =>
           match
             apply_all
               (registered (Pipeline._transformations s) (PipelineConfig.transformations c))
               df w1
           with
           | (Ok df', w2) =>
               match sample df' w2 with
               | (Ok sample_data, w3) =>
                   (Ok (DryRun.mkResult (PipelineConfig.name c) (PipelineConfig.layer c)
                          (map DryRun.describe_source (source :: others)) enabled target
                          (Some sample_data)),
                    Pipeline.set_world w3 s)
               | (Raise e, w3) => (Raise e, Pipeline.set_world w3 s)
               end
           | (Raise e, w2) => (Raise e, Pipeline.set_world w2 s)
           end
       | (Raise e, w1) => (Raise e, Pipeline.set_world w1 s)
       end) /\
  (forall r s', DryRun.dry_run sample s = (r, s') ->
     Pipeline.config s' = Pipeline.config s /\
     Pipeline.heap s' = Pipeline.heap s /\
     Pipeline._metrics s' = Pipeline._metrics s /\
     Pipeline._transformations s' = Pipeline._transformations s).
Proof.
  intros c enabled target.
  assert (Hfirst : forall source others,
            PipelineConfig.sources c = source :: others ->
            DryRun.dry_run sample s =
              match DataReader.read source (Pipeline.world s) with
              | (Ok df, w1) =>
                  match
                    apply_all
                      (registered (Pipeline._transformations s)
                         (PipelineConfig.transformations c)) df w1
                  with
                  | (Ok df', w2) =>
                      match sample df' w2 with
                      | (Ok sample_data, w3) =>
                          (Ok (DryRun.mkResult (PipelineConfig.name c)
                                 (PipelineConfig.layer c)
                                 (map DryRun.describe_source (source :: others)) enabled
                                 target (Some sample_data)),
                           Pipeline.set_world w3 s)
                      | (Raise e, w3) => (Raise e, Pipeline.set_world w3 s)
                      end
                  | (Raise e, w2) => (Raise e, Pipeline.set_world w2 s)
                  end
              | (Raise e, w1) => (Raise e, Pipeline.set_world w1 s)
              end).
  { intros source others Hsources.
    unfold DryRun.dry_run, bind at 1, gets. fold c. rewrite Hsources.
    unfold bind at 1, Pipeline._read_source, Pipeline.spark at 1, zoom.
    destruct (DataReader.read source (Pipeline.world s)) as [[df|e] w1]; [|done].
    unfold bind at 1. rewrite dry_apply_each_registered.
    simpl Pipeline._transformations. simpl Pipeline.world.
    destruct (apply_all _ df w1) as [[df'|e] w2]; [|done].
    unfold bind at 1, Pipeline.spark, zoom. simpl.
    by destruct (sample df' w2) as [[sample_data|e] w3]. }
  split; [|split].
  - intros Hsources. unfold DryRun.dry_run, bind, gets. fold c. by rewrite Hsources.
  - exact Hfirst.
  - intros r s'.
    destruct (PipelineConfig.sources c) as [|source others] eqn:Hsources.
    + unfold DryRun.dry_run, bind, gets. fold c. rewrite Hsources.
      by intros [= _ <-].
    + rewrite (Hfirst source others eq_refl).
      destruct (DataReader.read source (Pipeline.world s)) as [[df|e] w1];
        [|by intros [= _ <-]].
      destruct (apply_all _ df w1) as [[df'|e] w2]; [|by intros [= _ <-]].
      by destruct (sample df' w2) as [[sample_data|e] w3]; intros [= _ <-].
Qed.
End dry_run_plan.

Lemma dry_run_reads_first_source_only_witness :
  (DryRun.dry_run (fun df => ret (VList (map VStr (Frame.columns df))))
     (example_started
        [example_people_source;
         SourceConfig.mk "csv" (Some "/mnt/missing") None None None None None []]
        [TransformationConfig.mk "standardize_strings" [] true;
         TransformationConfig.mk "no_such_type" [] true;
         TransformationConfig.mk "standardize_strings" [] false] [])).1 =
    Ok (DryRun.mkResult "people_bronze" "bronze"
          [("table", Some "people"); ("csv", Some "/mnt/missing")]
          [("standardize_strings", []); ("no_such_type", [])] None
          (Some (VList (map VStr (Frame.columns example_people))))).
Proof.
  destruct (dry_run_reads_first_source_only
              (fun df => ret (VList (map VStr (Frame.columns df))))
              (example_started
                 [example_people_source;
                  SourceConfig.mk "csv" (Some "/mnt/missing") None None None None None []]
                 [TransformationConfig.mk "standardize_strings" [] true;
                  TransformationConfig.mk "no_such_type" [] true;
                  TransformationConfig.mk "standardize_strings" [] false] []))
    as (_ & Hfirst & _).
  rewrite (Hfirst _ _ eq_refl). vm_compute. reflexivity.
Defined.
